(** * Heimdall cognitive-memory CLI: ingestion and retrieval orchestration

    A shallow embedding of [interfaces/cli.py] (class [CognitiveCLI] and the
    command dispatch of [main]).  The orchestration code talks to three
    collaborators whose code lives elsewhere: the cognitive system (the
    store), the memory loaders, and the file system.  They are taken as
    records of operations over an abstract world [W]; every call leaves an
    event on a transcript, next to the lines the code prints. *)

From Stdlib Require Import ZArith String Ascii List Bool Lia Permutation DecimalString.
From Stdlib Require Import DecimalPos DecimalZ Sorted OrderedTypeEx.
From Stdlib Require Import Floats.PrimFloat.
From stdpp Require Import gmap strings list.

Local Set Warnings "-register-all,-inexact-float".
Local Open Scope string_scope.
Local Open Scope list_scope.
Local Open Scope Z_scope.

(** ** Python strings

    A [str] is modelled by [string]: a sequence of code points below 256. *)

Module PyStr.

(** [str.isspace] on one code point below 256: TAB, LF, VT, FF, CR, the
    separators FS, GS, RS, US, space, NEL and the no-break space. *)
Definition isspace (c : ascii) : bool :=
  let n := nat_of_ascii c in
  ((9 <=? n)%nat && (n <=? 13)%nat)
  || ((28 <=? n)%nat && (n <=? 32)%nat)
  || (n =? 133)%nat
  || (n =? 160)%nat.

Fixpoint lstrip (s : string) : string :=
  match s with
  | EmptyString => EmptyString
  | String c s' => if isspace c then lstrip s' else s
  end.

Definition rstrip (s : string) : string := String.rev (lstrip (String.rev s)).

(** [s.strip()] *)
Definition strip (s : string) : string := rstrip (lstrip s).

(** Truth value of a [str]: non-empty. *)
Definition truthy (s : string) : bool :=
  match s with EmptyString => false | String _ _ => true end.

(** [s.startswith(p)] *)
Definition startswith (s p : string) : bool := String.prefix p s.

(** [s.endswith(suf)] *)
Definition endswith (s suf : string) : bool :=
  let n := String.length s in
  let k := String.length suf in
  (k <=? n)%nat && String.eqb (substring (n - k) k s) suf.

(** [s[:n]] *)
Definition slice_to (n : nat) (s : string) : string := substring 0 n s.

(** [str(z)] for an [int]. *)
Definition of_int (z : Z) : string := NilZero.string_of_int (Z.to_int z).

(** [s.split("/")] *)
Fixpoint split_slash (s : string) : list string :=
  match s with
  | EmptyString => [EmptyString]
  | String c s' =>
      if Ascii.eqb c "/"%char then EmptyString :: split_slash s'
      else match split_slash s' with
           | [] => [String c EmptyString]
           | p :: ps => String c p :: ps
           end
  end.

(** Every character of [s] is white space. *)
Definition all_space (s : string) : bool :=
  forallb isspace (list_ascii_of_string s).

End PyStr.

(** ** Python values *)

(** The values an open mapping ([metadata], a JSON context, keyword
    arguments) can hold. *)
Inductive PyVal : Type :=
| PyNone
| PyBool (b : bool)
| PyInt (z : Z)
| PyFloat (f : float)
| PyStr (s : string)
| PyList (l : list PyVal)
| PyDict (d : list (string * PyVal)).

Module Py.

(** Truth value, as [if v:] tests it. *)
Definition truthy (v : PyVal) : bool :=
  match v with
  | PyNone => false
  | PyBool b => b
  | PyInt z => negb (z =? 0)
  | PyFloat f => negb (PrimFloat.eqb f 0%float)
  | PyStr s => PyStr.truthy s
  | PyList l => match l with [] => false | _ => true end
  | PyDict d => match d with [] => false | _ => true end
  end.

(** [hash(v)] succeeds: lists and dicts are unhashable. *)
Definition hashable (v : PyVal) : bool :=
  match v with
  | PyList _ | PyDict _ => false
  | _ => true
  end.

(** [format(v, ".2f")] succeeds on numbers (bool is an int) only. *)
Definition is_number (v : PyVal) : bool :=
  match v with
  | PyBool _ | PyInt _ | PyFloat _ => true
  | _ => false
  end.

End Py.

(** Exceptions, as far as the code tells them apart. *)
Inductive Exn : Type :=
| Exception (msg : string)
| AssertionError
| KeyError (key : string)
| TypeError (msg : string)
| ValueError (msg : string).

Inductive Result (A : Type) : Type :=
| Ok (a : A)
| Raise (e : Exn).
Arguments Ok {A} a.
Arguments Raise {A} e.

(** ** Ordered dictionaries

    A [dict] that is iterated is an association list in insertion order. *)

Module Dict.

Definition t (V : Type) := list (string * V).

(** [k in d] *)
Definition mem {V} (k : string) (d : t V) : bool :=
  existsb (fun kv => String.eqb (fst kv) k) d.

(** [d.get(k)] *)
Fixpoint get {V} (k : string) (d : t V) : option V :=
  match d with
  | [] => None
  | (k', v) :: d' => if String.eqb k' k then Some v else get k d'
  end.

(** [d[k] += n] on a key that is there (no effect otherwise). *)
Fixpoint add (k : string) (n : Z) (d : t Z) : t Z :=
  match d with
  | [] => []
  | (k', v) :: d' =>
      if String.eqb k' k then (k', v + n) :: d' else (k', v) :: add k n d'
  end.

(** [sum(d.values())] *)
Definition sum_values (d : t Z) : Z := fold_right Z.add 0 (map snd d).

End Dict.

(** ** Paths

    A [pathlib.Path] is its tuple of parts. *)

Module Path.

Definition t := list string.

(** The root part of a POSIX path: exactly two leading separators are
    kept as ["//"]; one, or three and more, are the root ["/"]. *)
Definition root_of (s : string) : option string :=
  if PyStr.startswith s "//" && negb (PyStr.startswith s "///") then Some "//"
  else if PyStr.startswith s "/" then Some "/"
  else None.

(** [Path(s)]: the separator splits, empty and ["."] components vanish,
    leading separators are the root part. *)
Definition of_string (s : string) : t :=
  let comps :=
    List.filter (fun c => negb (String.eqb c "" || String.eqb c ".")) (PyStr.split_slash s) in
  match root_of s with
  | Some r => r :: comps
  | None => comps
  end.

(** [str(p)] *)
Definition to_string (p : t) : string :=
  match p with
  | [] => "."
  | r :: rest =>
      if String.eqb r "/" || String.eqb r "//" then r +:+ String.concat "/" rest
      else String.concat "/" p
  end.

(** [p / name] for a file name without separator. *)
Definition join (p : t) (name : string) : t := p ++ [name].

(** [p.relative_to(base)] for a [p] found below [base]. *)
Definition relative_to (p base : t) : t := drop (List.length base) p.

(** [p < q]: the parts compare as lists of strings. *)
Fixpoint ltb (p q : t) : bool :=
  match p, q with
  | [], [] => false
  | [], _ :: _ => true
  | _ :: _, [] => false
  | a :: p', b :: q' =>
      match String.compare a b with
      | Lt => true
      | Gt => false
      | Eq => ltb p' q'
      end
  end.

(** [sorted(ps)]: a stable insertion sort on [<]. *)
Fixpoint insert (x : t) (l : list t) : list t :=
  match l with
  | [] => [x]
  | y :: l' => if ltb y x then y :: insert x l' else x :: l
  end.

Definition sorted (l : list t) : list t := fold_right insert [] l.

End Path.

(** ** Data model *)

(** [CognitiveMemory]: a stored record. *)
Record CognitiveMemory : Type := {
  id : string;
  content : string;
  memory_type : string;
  hierarchy_level : Z;
  strength : float;
  metadata : gmap string PyVal;
}.

(** [BridgeMemory]: a record wrapped with its three derived scores. *)
Record BridgeMemory : Type := {
  memory : CognitiveMemory;
  novelty_score : float;
  connection_potential : float;
  bridge_score : float;
}.

(** An element of a retrieval bucket is one of the two shapes; the code
    tells them apart with [hasattr(item, "memory")] and [isinstance]. *)
Inductive MemoryItem : Type :=
| Plain (m : CognitiveMemory)
| Bridge (b : BridgeMemory).

(** What [retrieve_memories] of the cognitive system returns: a dict from
    bucket name to the bucket's items, iterated in insertion order. *)
Definition RetrievalResults : Type := Dict.t (list MemoryItem).

(** Modelled from the spec: the [Connection] class is not part of these
    sources; the spec calls it a relationship between two records of one
    batch.  The orchestrator only counts connections. *)
Record Connection : Type := {
  source_id : string;
  target_id : string;
}.

(** The dict [load_memories_from_source] returns. *)
Record LoadReport : Type := {
  success : bool;
  memories_loaded : Z;
  connections_created : Z;
  processing_time : float;
  memories_failed : Z;
  connections_failed : Z;
  hierarchy_distribution : option (Dict.t Z);
  error : option string;
}.

Definition Kwargs : Type := Dict.t PyVal.

Inductive LoaderKind : Type := Markdown | Git.

(** ** Transcript: printed lines and collaborator calls *)

(** One constructor per [print] of the embedded functions, holding the values
    the f-string interpolates (a [float] or score is rendered with [.2f],
    [memory_type] in upper case: rendering is left to the reader). *)
Inductive Msg : Type :=
(* store_experience *)
| MsgEmptyText
| MsgInvalidJson (e : string)
| MsgStored (memory_id : string)
| MsgStoreFailed
| MsgStoreError (e : Exn)
(* retrieve_memories *)
| MsgEmptyQuery
| MsgNoMemories
| MsgRetrieved (total : Z) (query : string)
| MsgBucketHeader (bucket : string) (count : Z)
| MsgBridgeItem (i : Z) (content100 : string)
| MsgBridgeDetails (mid : string) (level : Z) (novelty connection bridge : float)
| MsgMemoryItem (i : Z) (mtype : string) (content100 : string)
| MsgMemoryDetails (mid : string) (level : Z) (score : PyVal)
| MsgSource (source_info : string)
| MsgRetrieveError (e : Exn)
(* load_memories *)
| MsgUnsupportedLoader (loader_type : string)
| MsgSupportedLoaders
| MsgIsDirectory (source_path : string)
| MsgNoFilesFound (source_path : string)
| MsgFoundFiles (count : Z) (source_path : string)
| MsgFilesToProcess
| MsgFileEntry (rel_path : Path.t)
| MsgSkipInvalid (rel_path : Path.t)
| MsgAnalyzing (rel_path : Path.t)
| MsgWouldLoad (count : Z)
| MsgWouldCreate (count : Z)
| MsgAnalyzeError (rel_path : Path.t) (e : Exn)
| MsgLoading (rel_path : Path.t)
| MsgLoaded (memories connections : Z)
| MsgLoadFailed (rel_path : Path.t) (err : string)
| MsgLoadError (rel_path : Path.t) (e : Exn)
| MsgDryRunComplete (total : Z)
| MsgCombinedDistribution
| MsgLevelMemories (level name : string) (count : Z)
| MsgDirectoryDone (total_success : bool)
| MsgTotalLoaded (n : Z)
| MsgTotalConnections (n : Z)
| MsgTotalTime (t : float)
| MsgLevelCount (level name : string) (count : Z)
| MsgTotalFailedMemories (n : Z)
| MsgTotalFailedConnections (n : Z)
| MsgValidationFailed (source_path : string)
| MsgDryRunAnalyzing (source_path : string)
| MsgWouldLoadMemories (count : Z)
| MsgWouldCreateConnections (count : Z)
| MsgSampleHeader
| MsgSample (i : Z) (level : Z) (title60 : PyVal)
| MsgMore (n : Z)
| MsgDryRunError (e : Exn)
| MsgLoadingFrom (source_path : string)
| MsgLoadCompleted
| MsgMemoriesLoaded (n : Z)
| MsgConnectionsCreated (n : Z)
| MsgProcessingTime (t : float)
| MsgHierarchyDistribution
| MsgFailedMemories (n : Z)
| MsgFailedConnections (n : Z)
| MsgMemoryLoadingFailed (err : string)
| MsgLoadMemoriesError (e : Exn)
(* search_git_patterns *)
| MsgPatternSummary
| MsgTotalPatterns (n : Z)
| MsgPatternCount (type_name : string) (count : Z)
| MsgSearchError (e : Exn)
(* main *)
| MsgUnexpectedError (e : Exn).

(** A collaborator call with its arguments and what came back. *)
Inductive Event : Type :=
| Print (m : Msg)
| CallStoreExperience (text : string) (context : PyVal) (r : Result string)
| CallRetrieveMemories (query : string) (types : list string) (max_results : Z)
    (r : Result RetrievalResults)
| CallLoadMemoriesFromSource (loader : LoaderKind) (path : string) (kw : Kwargs)
    (r : Result LoadReport)
| CallGetSupportedExtensions (loader : LoaderKind) (r : list string)
| CallValidateSource (loader : LoaderKind) (path : string) (r : bool)
| CallLoadFromSource (loader : LoaderKind) (path : string) (kw : Kwargs)
    (r : Result (list CognitiveMemory))
| CallExtractConnections (loader : LoaderKind) (memories : list CognitiveMemory)
    (r : Result (list Connection)).

(** ** Collaborators *)

(** The cognitive system (the store), by the three operations the embedded
    code calls.  Each may raise and may change the world. *)
Record CognitiveSystem (W : Type) : Type := {
  cs_store_experience : string -> PyVal -> W -> Result string * W;
  cs_retrieve_memories : string -> list string -> Z -> W -> Result RetrievalResults * W;
  cs_load_memories_from_source : LoaderKind -> string -> Kwargs -> W -> Result LoadReport * W;
}.
Arguments cs_store_experience {W} _ _ _ _.
Arguments cs_retrieve_memories {W} _ _ _ _ _.
Arguments cs_load_memories_from_source {W} _ _ _ _ _.

(** The loader interface.  [validate_source] fails closed: it answers
    [false], it does not raise. *)
Record MemoryLoader (W : Type) : Type := {
  get_supported_extensions : W -> list string * W;
  validate_source : string -> W -> bool * W;
  load_from_source : string -> Kwargs -> W -> Result (list CognitiveMemory) * W;
  extract_connections : list CognitiveMemory -> W -> Result (list Connection) * W;
}.
Arguments get_supported_extensions {W} _ _.
Arguments validate_source {W} _ _ _.
Arguments load_from_source {W} _ _ _ _.
Arguments extract_connections {W} _ _ _.

(** What the code reads of the file system: [Path(p).is_dir()],
    [(Path(p) / ".git").exists()], and [os.walk(Path(p), followlinks=True)]
    as the visited directories, each by its parts below [p], with its file
    names. *)
Record FileSystem (W : Type) : Type := {
  is_dir : W -> string -> bool;
  dot_git_exists : W -> string -> bool;
  walk : W -> string -> list (Path.t * list string);
}.
Arguments is_dir {W} _ _ _.
Arguments dot_git_exists {W} _ _ _.
Arguments walk {W} _ _ _.

(** What [json.loads] does with a string: it returns a value, raises
    [JSONDecodeError] (with its message), or raises something else (a
    [RecursionError] on input nested too deep). *)
Inductive Parsed : Type :=
| JsonValue (v : PyVal)
| JSONDecodeError (msg : string)
| JsonRaises (e : Exn).

Record Env (W : Type) : Type := {
  cognitive_system : CognitiveSystem W;
  MarkdownMemoryLoader : MemoryLoader W;
  GitHistoryLoader : MemoryLoader W;
  file_system : FileSystem W;
  (** [json.loads] *)
  json_loads : string -> Parsed;
  (** [heimdall.display_utils.format_source_info] *)
  format_source_info : CognitiveMemory -> option string;
}.
Arguments cognitive_system {W} _.
Arguments MarkdownMemoryLoader {W} _.
Arguments GitHistoryLoader {W} _.
Arguments file_system {W} _.
Arguments json_loads {W} _ _.
Arguments format_source_info {W} _ _.

(** ** The monad of the embedding: world, exceptions, transcript *)

Definition M (W A : Type) : Type := W -> Result A * W * list Event.

Definition ret {W A} (a : A) : M W A := fun w => (Ok a, w, []).

Definition raise {W A} (e : Exn) : M W A := fun w => (Raise e, w, []).

Definition bind {W A B} (m : M W A) (k : A -> M W B) : M W B :=
  fun w =>
    match m w with
    | (Ok a, w1, t1) => let '(r, w2, t2) := k a w1 in (r, w2, t1 ++ t2)
    | (Raise e, w1, t1) => (Raise e, w1, t1)
    end.

(** [try: m except Exception as e: h e] *)
Definition try_except {W A} (m : M W A) (h : Exn -> M W A) : M W A :=
  fun w =>
    match m w with
    | (Ok a, w1, t1) => (Ok a, w1, t1)
    | (Raise e, w1, t1) => let '(r, w2, t2) := h e w1 in (r, w2, t1 ++ t2)
    end.

Definition print {W} (m : Msg) : M W unit := fun w => (Ok tt, w, [Print m]).

Definition lift {W A} (r : Result A) : M W A := fun w => (r, w, []).

Declare Scope py_scope.
Delimit Scope py_scope with py.
Notation "x <- m ;; k" := (bind m (fun x => k))
  (at level 100, m at next level, right associativity) : py_scope.
Notation "m ;; k" := (bind m (fun _ => k))
  (at level 100, right associativity) : py_scope.
Local Open Scope py_scope.

(** [for x in l: s = body(s, x)] *)
Fixpoint for_each {W A S} (body : S -> A -> M W S) (l : list A) (s : S) : M W S :=
  match l with
  | [] => ret s
  | x :: l' => s' <- body s x ;; for_each body l' s'
  end.

(** [if c: m] *)
Definition when {W} (c : bool) (m : M W unit) : M W unit :=
  if c then m else ret tt.

Definition len {A} (l : list A) : Z := Z.of_nat (List.length l).

(** ** The CLI *)

Module CognitiveCLI.
Section WithEnv.

Context {W : Type} (env : Env W).

(** [get_config()] and the loader constructors are taken to succeed; a
    loader is known by its kind. *)
Definition loader (kind : LoaderKind) : MemoryLoader W :=
  match kind with
  | Markdown => MarkdownMemoryLoader env
  | Git => GitHistoryLoader env
  end.

(** *** Calls, each leaving its event *)

Definition call_store_experience (text : string) (context : PyVal) : M W string :=
  fun w =>
    let '(r, w') := cs_store_experience (cognitive_system env) text context w in
    (r, w', [CallStoreExperience text context r]).

Definition call_retrieve_memories (query : string) (types : list string) (max_results : Z)
  : M W RetrievalResults :=
  fun w =>
    let '(r, w') := cs_retrieve_memories (cognitive_system env) query types max_results w in
    (r, w', [CallRetrieveMemories query types max_results r]).

Definition call_load_memories_from_source (kind : LoaderKind) (path : string) (kw : Kwargs)
  : M W LoadReport :=
  fun w =>
    let '(r, w') := cs_load_memories_from_source (cognitive_system env) kind path kw w in
    (r, w', [CallLoadMemoriesFromSource kind path kw r]).

Definition call_get_supported_extensions (kind : LoaderKind) : M W (list string) :=
  fun w =>
    let '(r, w') := get_supported_extensions (loader kind) w in
    (Ok r, w', [CallGetSupportedExtensions kind r]).

Definition call_validate_source (kind : LoaderKind) (path : string) : M W bool :=
  fun w =>
    let '(r, w') := validate_source (loader kind) path w in
    (Ok r, w', [CallValidateSource kind path r]).

Definition call_load_from_source (kind : LoaderKind) (path : string) (kw : Kwargs)
  : M W (list CognitiveMemory) :=
  fun w =>
    let '(r, w') := load_from_source (loader kind) path kw w in
    (r, w', [CallLoadFromSource kind path kw r]).

Definition call_extract_connections (kind : LoaderKind) (memories : list CognitiveMemory)
  : M W (list Connection) :=
  fun w =>
    let '(r, w') := extract_connections (loader kind) memories w in
    (r, w', [CallExtractConnections kind memories r]).

(** *** store_experience *)

(** The second [try] block: the call to the cognitive system. *)
Definition store_with_context (text : string) (context : PyVal) : M W bool :=
  try_except
    (memory_id <- call_store_experience text context ;;
     if PyStr.truthy memory_id
     then print (MsgStored memory_id) ;; ret true
     else print MsgStoreFailed ;; ret false)
    (fun e => print (MsgStoreError e) ;; ret false).

Definition store_experience (text : string) (context : PyVal) (context_json : option string)
  : M W bool :=
  if negb (PyStr.truthy (PyStr.strip text)) then
    print MsgEmptyText ;; ret false
  else
    match context_json with
    | Some js =>
        if PyStr.truthy js && negb (Py.truthy context) then
          (* [except json.JSONDecodeError] catches that error only *)
          match json_loads env js with
          | JsonValue parsed => store_with_context text parsed
          | JSONDecodeError e => print (MsgInvalidJson e) ;; ret false
          | JsonRaises e => raise e
          end
        else store_with_context text context
    | None => store_with_context text context
    end.

(** *** retrieve_memories *)

(** [if source_info: print(...)] *)
Definition print_source (source_info : option string) : M W unit :=
  match source_info with
  | Some s => when (PyStr.truthy s) (print (MsgSource s))
  | None => ret tt
  end.

(** [f"{score:.2f}"]: the value when it can be rendered. *)
Definition format_2f (score : PyVal) : Result PyVal :=
  match score with
  | PyBool _ | PyInt _ | PyFloat _ => Ok score
  | PyStr _ => Raise (ValueError "Unknown format code 'f' for object of type 'str'")
  | _ => Raise (TypeError "unsupported format string")
  end.

(** [memory.metadata.get("similarity_score", memory.strength)] *)
Definition relevance (m : CognitiveMemory) : PyVal :=
  default (PyFloat (strength m)) (metadata m !! "similarity_score").

(** The body of the loop over [enumerate(memories, 1)]. *)
Definition display_item (bucket : string) (i : Z) (memory_item : MemoryItem) : M W unit :=
  match memory_item with
  | Bridge bridge_mem =>
      if String.eqb bucket "bridge" then
        let m := memory bridge_mem in
        print (MsgBridgeItem i (PyStr.slice_to 100 (content m))) ;;
        let source_info := format_source_info env m in
        print (MsgBridgeDetails (id m) (hierarchy_level m) (novelty_score bridge_mem)
                 (connection_potential bridge_mem) (bridge_score bridge_mem)) ;;
        print_source source_info
      else
        (* assert isinstance(memory_item, CognitiveMemory) *)
        raise AssertionError
  | Plain m =>
      print (MsgMemoryItem i (memory_type m) (PyStr.slice_to 100 (content m))) ;;
      let score := relevance m in
      let source_info := format_source_info env m in
      shown <- lift (format_2f score) ;;
      print (MsgMemoryDetails (id m) (hierarchy_level m) shown) ;;
      print_source source_info
  end.

Definition display_bucket (entry : string * list MemoryItem) : M W unit :=
  let '(bucket, memories) := entry in
  match memories with
  | [] => ret tt
  | _ :: _ =>
      print (MsgBucketHeader bucket (len memories)) ;;
      _ <- for_each (fun i item => display_item bucket i item ;; ret (i + 1)) memories 1 ;;
      ret tt
  end.

(** [sum(len(memories) for memories in results.values())] *)
Definition total_results (results : RetrievalResults) : Z :=
  fold_right Z.add 0 (map (fun entry => len (snd entry)) results).

Definition display_results (query : string) (results : RetrievalResults) : M W unit :=
  if total_results results =? 0 then print MsgNoMemories
  else
    print (MsgRetrieved (total_results results) query) ;;
    for_each (fun _ entry => display_bucket entry) results tt.

Definition retrieve_memories (query : string) (types : option (list string)) (limit : Z)
    (display : bool) : M W (option RetrievalResults) :=
  if negb (PyStr.truthy (PyStr.strip query)) then
    when display (print MsgEmptyQuery) ;; ret None
  else
    let types := default ["core"; "peripheral"; "bridge"] types in
    try_except
      (results <- call_retrieve_memories query types limit ;;
       when display (display_results query results) ;;
       ret (Some results))
      (fun e => when display (print (MsgRetrieveError e)) ;; ret None).

(** *** load_memories *)

Definition loader_kind (loader_type : string) : option LoaderKind :=
  if String.eqb loader_type "markdown" then Some Markdown
  else if String.eqb loader_type "git" then Some Git
  else None.

(** [{"L0": "Concepts", "L1": "Contexts", "L2": "Episodes"}[level]] *)
Definition level_name (level : string) : Result string :=
  match Dict.get level [("L0", "Concepts"); ("L1", "Contexts"); ("L2", "Episodes")] with
  | Some name => Ok name
  | None => Raise (KeyError level)
  end.

Definition empty_distribution : Dict.t Z := [("L0", 0); ("L1", 0); ("L2", 0)].

(** [level_key = f"L{memory.hierarchy_level}"] and the guarded increment. *)
Definition count_level (dist : Dict.t Z) (m : CognitiveMemory) : Dict.t Z :=
  let level_key := "L" +:+ PyStr.of_int (hierarchy_level m) in
  if Dict.mem level_key dist then Dict.add level_key 1 dist else dist.

(** [for level, count in dist.items(): print(...)] with the name looked up. *)
Definition print_levels (line : string -> string -> Z -> Msg) (dist : Dict.t Z) : M W unit :=
  for_each
    (fun _ entry =>
       name <- lift (level_name (fst entry)) ;;
       print (line (fst entry) name (snd entry)))
    dist tt.

(** The accumulators of the directory loop. *)
Record Totals : Type := {
  total_success : bool;
  total_memories_loaded : Z;
  total_connections_created : Z;
  total_processing_time : float;
  hierarchy_dist_combined : Dict.t Z;
  total_memories_failed : Z;
  total_connections_failed : Z;
}.

Definition initial_totals : Totals := {|
  total_success := true;
  total_memories_loaded := 0;
  total_connections_created := 0;
  total_processing_time := 0%float;
  hierarchy_dist_combined := empty_distribution;
  total_memories_failed := 0;
  total_connections_failed := 0;
|}.

Definition failed (acc : Totals) : Totals := {|
  total_success := false;
  total_memories_loaded := total_memories_loaded acc;
  total_connections_created := total_connections_created acc;
  total_processing_time := total_processing_time acc;
  hierarchy_dist_combined := hierarchy_dist_combined acc;
  total_memories_failed := total_memories_failed acc;
  total_connections_failed := total_connections_failed acc;
|}.

Definition with_distribution (dist : Dict.t Z) (acc : Totals) : Totals := {|
  total_success := total_success acc;
  total_memories_loaded := total_memories_loaded acc;
  total_connections_created := total_connections_created acc;
  total_processing_time := total_processing_time acc;
  hierarchy_dist_combined := dist;
  total_memories_failed := total_memories_failed acc;
  total_connections_failed := total_connections_failed acc;
|}.

(** The accumulation after a successful [load_memories_from_source]. *)
Definition accumulate (results : LoadReport) (acc : Totals) : Totals := {|
  total_success := total_success acc;
  total_memories_loaded := total_memories_loaded acc + memories_loaded results;
  total_connections_created := total_connections_created acc + connections_created results;
  total_processing_time :=
    PrimFloat.add (total_processing_time acc) (processing_time results);
  hierarchy_dist_combined :=
    match hierarchy_distribution results with
    | Some dist =>
        fold_left
          (fun combined entry =>
             if Dict.mem (fst entry) combined
             then Dict.add (fst entry) (snd entry) combined
             else combined)
          dist (hierarchy_dist_combined acc)
    | None => hierarchy_dist_combined acc
    end;
  total_memories_failed := total_memories_failed acc + memories_failed results;
  total_connections_failed := total_connections_failed acc + connections_failed results;
|}.

(** The files [os.walk] yields whose name ends with a supported extension,
    each as [Path(root) / file]. *)
Definition find_files (top : Path.t) (extensions : list string)
    (walked : list (Path.t * list string)) : list Path.t :=
  flat_map
    (fun entry =>
       map (Path.join (top ++ fst entry))
         (List.filter (fun file => existsb (PyStr.endswith file) extensions) (snd entry)))
    walked.

(** The body of [for markdown_file in sorted(markdown_files)]. *)
Definition process_file (kind : LoaderKind) (top : Path.t) (dry_run : bool) (kw : Kwargs)
    (acc : Totals) (markdown_file : Path.t) : M W Totals :=
  let file_path_str := Path.to_string markdown_file in
  let rel := Path.relative_to markdown_file top in
  valid <- call_validate_source kind file_path_str ;;
  if negb valid then
    print (MsgSkipInvalid rel) ;; ret acc
  else if dry_run then
    print (MsgAnalyzing rel) ;;
    try_except
      (memories <- call_load_from_source kind file_path_str kw ;;
       connections <- call_extract_connections kind memories ;;
       print (MsgWouldLoad (len memories)) ;;
       let dist := fold_left count_level memories (hierarchy_dist_combined acc) in
       print (MsgWouldCreate (len connections)) ;;
       ret (with_distribution dist acc))
      (fun e => print (MsgAnalyzeError rel e) ;; ret (failed acc))
  else
    print (MsgLoading rel) ;;
    try_except
      (results <- call_load_memories_from_source kind file_path_str kw ;;
       if success results then
         print (MsgLoaded (memories_loaded results) (connections_created results)) ;;
         ret (accumulate results acc)
       else
         print (MsgLoadFailed rel (default "Unknown error" (error results))) ;;
         ret (failed acc))
      (fun e => print (MsgLoadError rel e) ;; ret (failed acc)).

(** The summary after the loop. *)
Definition directory_summary (dry_run : bool) (totals : Totals) : M W unit :=
  if dry_run then
    print (MsgDryRunComplete (Dict.sum_values (hierarchy_dist_combined totals))) ;;
    print MsgCombinedDistribution ;;
    print_levels MsgLevelMemories (hierarchy_dist_combined totals)
  else
    print (MsgDirectoryDone (total_success totals)) ;;
    print (MsgTotalLoaded (total_memories_loaded totals)) ;;
    print (MsgTotalConnections (total_connections_created totals)) ;;
    print (MsgTotalTime (total_processing_time totals)) ;;
    match hierarchy_dist_combined totals with
    | [] => ret tt
    | _ :: _ =>
        print MsgCombinedDistribution ;;
        print_levels MsgLevelCount (hierarchy_dist_combined totals)
    end ;;
    when (0 <? total_memories_failed totals)
      (print (MsgTotalFailedMemories (total_memories_failed totals))) ;;
    when (0 <? total_connections_failed totals)
      (print (MsgTotalFailedConnections (total_connections_failed totals))).

(** The directory branch, once [recursive] is known to be set. *)
Definition load_directory (kind : LoaderKind) (source_path : string) (dry_run : bool)
    (kw : Kwargs) : M W bool :=
  let top := Path.of_string source_path in
  extensions <- call_get_supported_extensions kind ;;
  walked <- (fun w => (Ok (walk (file_system env) w source_path), w, [])) ;;
  let markdown_files := find_files top extensions walked in
  match markdown_files with
  | [] => print (MsgNoFilesFound source_path) ;; ret false
  | _ :: _ =>
      print (MsgFoundFiles (len markdown_files) source_path) ;;
      when (negb dry_run)
        (print MsgFilesToProcess ;;
         for_each (fun _ f => print (MsgFileEntry (Path.relative_to f top)))
           (Path.sorted markdown_files) tt) ;;
      totals <- for_each (process_file kind top dry_run kw)
                  (Path.sorted markdown_files) initial_totals ;;
      directory_summary dry_run totals ;;
      ret (total_success totals)
  end.

(** [title[:60]] on what [metadata.get("title", "Untitled")] gave. *)
Definition slice_60 (title : PyVal) : Result PyVal :=
  match title with
  | PyStr s => Ok (PyStr (PyStr.slice_to 60 s))
  | PyList l => Ok (PyList (take 60 l))
  | _ => Raise (TypeError "object is not subscriptable")
  end.

(** The single-source branch. *)
Definition load_single (kind : LoaderKind) (source_path : string) (dry_run : bool)
    (kw : Kwargs) : M W bool :=
  valid <- call_validate_source kind source_path ;;
  if negb valid then
    print (MsgValidationFailed source_path) ;; ret false
  else if dry_run then
    print (MsgDryRunAnalyzing source_path) ;;
    try_except
      (memories <- call_load_from_source kind source_path kw ;;
       connections <- call_extract_connections kind memories ;;
       print (MsgWouldLoadMemories (len memories)) ;;
       let hierarchy_dist := fold_left count_level memories empty_distribution in
       print_levels MsgLevelMemories hierarchy_dist ;;
       print (MsgWouldCreateConnections (len connections)) ;;
       print MsgSampleHeader ;;
       _ <- for_each
              (fun i m =>
                 let title := default (PyStr "Untitled") (metadata m !! "title") in
                 title60 <- lift (slice_60 title) ;;
                 print (MsgSample (i + 1) (hierarchy_level m) title60) ;;
                 ret (i + 1))
              (take 5 memories) 0 ;;
       when (5 <? len memories) (print (MsgMore (len memories - 5))) ;;
       ret true)
      (fun e => print (MsgDryRunError e) ;; ret false)
  else
    print (MsgLoadingFrom source_path) ;;
    results <- call_load_memories_from_source kind source_path kw ;;
    if success results then
      print MsgLoadCompleted ;;
      print (MsgMemoriesLoaded (memories_loaded results)) ;;
      print (MsgConnectionsCreated (connections_created results)) ;;
      print (MsgProcessingTime (processing_time results)) ;;
      match hierarchy_distribution results with
      | Some dist => print MsgHierarchyDistribution ;; print_levels MsgLevelCount dist
      | None => ret tt
      end ;;
      when (0 <? memories_failed results)
        (print (MsgFailedMemories (memories_failed results))) ;;
      when (0 <? connections_failed results)
        (print (MsgFailedConnections (connections_failed results))) ;;
      ret true
    else
      print (MsgMemoryLoadingFailed (default "Unknown error" (error results))) ;;
      ret false.

(** [source_path_obj.is_dir() and not (loader_type == "git" and
    (source_path_obj / ".git").exists())] *)
Definition is_directory_scan (kind : LoaderKind) (source_path : string) (w : W) : bool :=
  is_dir (file_system env) w source_path
  && negb (match kind with Git => true | Markdown => false end
           && dot_git_exists (file_system env) w source_path).

Definition load_memories (source_path : string) (loader_type : string)
    (dry_run recursive : bool) (kw : Kwargs) : M W bool :=
  match loader_kind loader_type with
  | None =>
      print (MsgUnsupportedLoader loader_type) ;; print MsgSupportedLoaders ;; ret false
  | Some kind =>
      try_except
        (fun w =>
           (if is_directory_scan kind source_path w then
              if negb recursive then print (MsgIsDirectory source_path) ;; ret false
              else load_directory kind source_path dry_run kw
            else load_single kind source_path dry_run kw) w)
        (fun e => print (MsgLoadMemoriesError e) ;; ret false)
  end.

(** *** load_git_patterns *)

Definition load_git_patterns (repo_path : string) (dry_run refresh : bool) (kw : Kwargs)
  : M W bool :=
  load_memories repo_path "git" dry_run false kw.

(** *** search_git_patterns *)

Definition empty_pattern_counts : Dict.t Z :=
  [("cochange", 0); ("hotspot", 0); ("solution", 0)].

(** [{"cochange": ..., "hotspot": ..., "solution": ...}[ptype]] *)
Definition pattern_type_name (ptype : string) : Result string :=
  match Dict.get ptype
          [("cochange", "Co-change patterns"); ("hotspot", "Maintenance hotspots");
           ("solution", "Solution patterns")] with
  | Some name => Ok name
  | None => Raise (KeyError ptype)
  end.

(** A bridge item is unwrapped to its inner record. *)
Definition actual_memory (item : MemoryItem) : CognitiveMemory :=
  match item with
  | Bridge b => memory b
  | Plain m => m
  end.

(** The body of the inner counting loop.  [x in pattern_counts] hashes
    [x]: a list or dict raises [TypeError]; only a [str] can be a key. *)
Definition count_pattern (pattern_counts : Dict.t Z) (item : MemoryItem)
  : Result (Dict.t Z) :=
  let m := actual_memory item in
  if PyStr.startswith (id m) "git::" then
    let pattern_type_found := default (PyStr "unknown") (metadata m !! "pattern_type") in
    match pattern_type_found with
    | PyStr s =>
        if Dict.mem s pattern_counts
        then Ok (Dict.add s 1 pattern_counts)
        else Ok pattern_counts
    | PyList _ | PyDict _ => Raise (TypeError "unhashable type")
    | _ => Ok pattern_counts
    end
  else Ok pattern_counts.

(** [for _memory_type, memories in results.items(): for memory in memories: ...] *)
Definition count_patterns (results : RetrievalResults) : M W (Dict.t Z) :=
  for_each
    (fun counts entry =>
       for_each (fun counts item => lift (count_pattern counts item)) (snd entry) counts)
    results empty_pattern_counts.

(** Truth value of what [retrieve_memories] returned: a non-empty dict. *)
Definition results_truthy (r : option RetrievalResults) : bool :=
  match r with
  | Some (_ :: _) => true
  | _ => false
  end.

Definition search_query_of (query : string) (pattern_type : option string) : string :=
  let search_query :=
    if PyStr.truthy (PyStr.strip query) then "git pattern " +:+ query else "git pattern" in
  match pattern_type with
  | Some pt => if PyStr.truthy pt then pt +:+ " " +:+ search_query else search_query
  | None => search_query
  end.

(** The summary printed for a count request. *)
Definition git_pattern_summary : M W unit :=
  print MsgPatternSummary ;;
  results <- call_retrieve_memories "git pattern" ["core"; "peripheral"] 1000 ;;
  print (MsgTotalPatterns (total_results results)) ;;
  pattern_counts <- count_patterns results ;;
  for_each
    (fun _ entry =>
       type_name <- lift (pattern_type_name (fst entry)) ;;
       print (MsgPatternCount type_name (snd entry)))
    pattern_counts tt.

Definition search_git_patterns (query : string) (pattern_type : option string) (limit : Z)
  : M W bool :=
  try_except
    (success <- retrieve_memories (search_query_of query pattern_type)
                  (Some ["core"; "peripheral"]) (limit * 2) true ;;
     when ((limit =? 0) && results_truthy success) git_pattern_summary ;;
     ret (results_truthy success))
    (fun e => print (MsgSearchError e) ;; ret false).

(** *** main: the command dispatch

    The parsed arguments of the commands whose methods are embedded above,
    their dispatch ([dispatch], the body of the inner [try]), and the
    clause [except Exception] that receives what the dispatch raises
    ([main]).  A run of [main] is the run of the dispatch followed by the
    line of that clause: the lines of system start-up before the dispatch
    and of the shutdown in [finally] after it (which the program prints
    before the line of [except Exception]) are left out, as are the clauses
    for [InitializationError], raised by the start-up, and for
    [KeyboardInterrupt] (exit code 130), which is no [Exception]. *)
Inductive Args : Type :=
| ArgsStore (text : string) (context : option string) (level : option Z)
| ArgsRetrieve (query : string) (types : option (list string)) (limit : Z)
| ArgsLoad (source_path loader_type : string) (dry_run : bool) (chunk_size : option Z)
    (recursive : bool)
| ArgsGitLoad (repo_path time_window : string) (dry_run refresh : bool)
| ArgsGitPatterns (query : string) (type : option string) (limit : Z).

Definition exit_code (success : bool) : Z := if success then 0 else 1.

Definition dispatch (args : Args) : M W Z :=
  match args with
  | ArgsStore text context level =>
      success <- store_experience text PyNone context ;;
      success <- match level with
                 | Some l =>
                     store_experience text (PyDict [("hierarchy_level", PyInt l)]) None
                 | None => ret success
                 end ;;
      ret (exit_code success)
  | ArgsRetrieve query types limit =>
      result <- retrieve_memories query types limit true ;;
      ret (exit_code (results_truthy result))
  | ArgsLoad source_path loader_type dry_run chunk_size recursive =>
      let kwargs :=
        match chunk_size with
        | Some n => if n =? 0 then [] else [("max_tokens_per_chunk", PyInt n)]
        | None => []
        end in
      success <- load_memories source_path loader_type dry_run recursive kwargs ;;
      ret (exit_code success)
  | ArgsGitLoad repo_path time_window dry_run refresh =>
      let kwargs :=
        if PyStr.truthy time_window then [("time_window", PyStr time_window)] else [] in
      success <- load_git_patterns repo_path dry_run refresh kwargs ;;
      ret (exit_code success)
  | ArgsGitPatterns query type limit =>
      success <- search_git_patterns query type limit ;;
      ret (exit_code success)
  end.

Definition main (args : Args) : M W Z :=
  try_except (dispatch args) (fun e => print (MsgUnexpectedError e) ;; ret 1).

End WithEnv.
End CognitiveCLI.

Import CognitiveCLI.

(** ** Reading a run *)

Definition outcome {W A} (run : Result A * W * list Event) : Result A := fst (fst run).
Definition final_world {W A} (run : Result A * W * list Event) : W := snd (fst run).
Definition transcript {W A} (run : Result A * W * list Event) : list Event := snd run.

(** The collaborator calls of a transcript, printed lines dropped. *)
Definition is_call (e : Event) : bool :=
  match e with
  | Print _ => false
  | _ => true
  end.

Definition calls (t : list Event) : list Event := List.filter is_call t.

(** Calls on a loader object. *)
Definition is_loader_call (e : Event) : bool :=
  match e with
  | CallGetSupportedExtensions _ _ | CallValidateSource _ _ _
  | CallLoadFromSource _ _ _ _ | CallExtractConnections _ _ _ => true
  | _ => false
  end.

(** Calls on the cognitive system: the operations that can persist. *)
Definition is_store_call (e : Event) : bool :=
  match e with
  | CallStoreExperience _ _ _ | CallRetrieveMemories _ _ _ _
  | CallLoadMemoriesFromSource _ _ _ _ => true
  | _ => false
  end.

(** The arguments of the [store_experience] calls that reached the
    cognitive system, in order. *)
Definition store_submissions (t : list Event) : list (string * PyVal) :=
  flat_map
    (fun e => match e with CallStoreExperience text context _ => [(text, context)] | _ => [] end)
    t.

(** ** A small world to run the code in

    The world is the store's record count.  The store answers retrieval
    from a fixed content, bucket by bucket, cut to [max_results] items; it
    refuses to load a file named [bad.md].  The document loader accepts
    [.md] files. *)

Module Demo.

Definition record (mid ptype : string) : CognitiveMemory := {|
  id := mid;
  content := "pattern";
  memory_type := "semantic";
  hierarchy_level := 1;
  strength := 0.5%float;
  metadata := {[ "pattern_type" := PyStr ptype ]};
|}.

Definition report : LoadReport := {|
  success := true;
  memories_loaded := 2;
  connections_created := 1;
  processing_time := 0.25%float;
  memories_failed := 0;
  connections_failed := 0;
  hierarchy_distribution := Some [("L1", 1); ("L2", 1)];
  error := None;
|}.

Definition store (stored : RetrievalResults) : CognitiveSystem Z := {|
  cs_store_experience := fun _ _ w => (Ok "mem-1", w + 1);
  cs_retrieve_memories := fun _ types max_results w =>
    (Ok (map (fun entry => (fst entry, take (Z.to_nat max_results) (snd entry)))
           (List.filter (fun entry => existsb (String.eqb (fst entry)) types) stored)), w);
  cs_load_memories_from_source := fun _ path _ w =>
    if PyStr.endswith path "bad.md"
    then (Raise (Exception "malformed document"), w)
    else (Ok report, w + 2);
|}.

Definition markdown : MemoryLoader Z := {|
  get_supported_extensions := fun w => ([".md"; ".markdown"], w);
  validate_source := fun path w => (PyStr.endswith path ".md", w);
  load_from_source := fun path _ w =>
    if PyStr.endswith path "bad.md"
    then (Raise (Exception "malformed document"), w)
    else (Ok [record "doc::1" "none"; record "doc::2" "none"], w);
  extract_connections := fun _ w => (Ok [], w);
|}.

(** A history loader: no file extension, and no path here is a repository. *)
Definition git : MemoryLoader Z := {|
  get_supported_extensions := fun w => ([], w);
  validate_source := fun _ w => (false, w);
  load_from_source := fun _ _ w => (Ok [], w);
  extract_connections := fun _ w => (Ok [], w);
|}.

(** A document loader that finds every document invalid. *)
Definition rejecting : MemoryLoader Z := {|
  get_supported_extensions := fun w => ([".md"], w);
  validate_source := fun _ w => (false, w);
  load_from_source := fun _ _ w => (Raise (Exception "not a document"), w);
  extract_connections := fun _ w => (Ok [], w);
|}.

(** One directory [docs] holding three documents and a text file. *)
Definition files : FileSystem Z := {|
  is_dir := fun _ p => String.eqb p "docs";
  dot_git_exists := fun _ _ => false;
  walk := fun _ _ => [([], ["c.md"; "bad.md"; "a.md"; "notes.txt"])];
|}.

(** A thousand opening brackets: [json.loads] gives up on the nesting. *)
Definition deep : string := String.concat "" (repeat "[" 1000).

(** Agrees with [json.loads] on the three strings used below: ["{}"] is
    the empty object, ["{bad"] is not JSON, and [deep] exceeds the
    recursion limit ([RecursionError]). *)
Definition loads (s : string) : Parsed :=
  if String.eqb s "{}" then JsonValue (PyDict [])
  else if String.eqb s deep then JsonRaises (Exception "maximum recursion depth exceeded")
  else JSONDecodeError "Expecting property name enclosed in double quotes".

Definition env (stored : RetrievalResults) : Env Z := {|
  cognitive_system := store stored;
  MarkdownMemoryLoader := markdown;
  GitHistoryLoader := git;
  file_system := files;
  json_loads := loads;
  format_source_info := fun _ => None;
|}.

Definition rejecting_env : Env Z := {|
  cognitive_system := store [];
  MarkdownMemoryLoader := rejecting;
  GitHistoryLoader := git;
  file_system := files;
  json_loads := loads;
  format_source_info := fun _ => None;
|}.

End Demo.

(** ** Notions the statements use *)

(** What [main] submits first for a [store] command: nothing when
    [json.loads] fails on the [--context] string, else the text with the
    parsed context (no context without the option, or with an empty
    string). *)
Definition first_submission {W} (env : Env W) (text : string) (context : option string)
  : list (string * PyVal) :=
  match context with
  | Some js =>
      if PyStr.truthy js then
        match json_loads env js with
        | JsonValue parsed => [(text, parsed)]
        | JSONDecodeError _ | JsonRaises _ => []
        end
      else [(text, PyNone)]
  | None => [(text, PyNone)]
  end.

(** The exception that leaves the first [store_experience] of a [store]
    command, if any: what [json.loads] raises on the [--context] string
    other than [JSONDecodeError]. *)
Definition first_call_raises {W} (env : Env W) (context : option string) : option Exn :=
  match context with
  | Some js =>
      if PyStr.truthy js then
        match json_loads env js with
        | JsonRaises e => Some e
        | _ => None
        end
      else None
  | None => None
  end.

(** What a [store] command with a level submits, in order: the first
    submission and the one of the second call, or nothing when the first
    call is left by an exception. *)
Definition level_submissions {W} (env : Env W) (text : string) (context : option string)
    (level : Z) : list (string * PyVal) :=
  match first_call_raises env context with
  | Some _ => []
  | None =>
      first_submission env text context
      ++ [(text, PyDict [("hierarchy_level", PyInt level)])]
  end.

(** An item the display loop gets past: a bridge item sits in the bucket
    named ["bridge"], a plain record has a relevance that [.2f] renders. *)
Definition displayable (bucket : string) (item : MemoryItem) : bool :=
  match item with
  | Bridge _ => String.eqb bucket "bridge"
  | Plain m => Py.is_number (relevance m)
  end.

Definition bucket_displayable (entry : string * list MemoryItem) : bool :=
  forallb (displayable (fst entry)) (snd entry).

(** [seg] occurs in [t] as a run of consecutive events. *)
Definition occurs_in (seg t : list Event) : Prop :=
  exists before after, t = before ++ seg ++ after.

(** The limits of the retrieval calls of a transcript, in order. *)
Definition retrieval_limits (t : list Event) : list Z :=
  flat_map
    (fun e => match e with CallRetrieveMemories _ _ max_results _ => [max_results] | _ => [] end)
    t.

(** The pattern counts a transcript reports, in order. *)
Definition reported_counts (t : list Event) : list (string * Z) :=
  flat_map
    (fun e => match e with Print (MsgPatternCount name count) => [(name, count)] | _ => [] end)
    t.

(** The pattern type of a record is [ptype]. *)
Definition has_pattern_type (ptype : string) (m : CognitiveMemory) : bool :=
  match metadata m !! "pattern_type" with
  | Some (PyStr s) => String.eqb s ptype
  | _ => false
  end.

(** A git record of pattern type [ptype], bridge items unwrapped. *)
Definition is_git_pattern (ptype : string) (item : MemoryItem) : bool :=
  PyStr.startswith (id (actual_memory item)) "git::"
  && has_pattern_type ptype (actual_memory item).

(** In the claim's words: the occurrences of a pattern type among the
    returned records whose id starts with ["git::"]. *)
Definition occurrences (ptype : string) (results : RetrievalResults) : Z :=
  len (List.filter (is_git_pattern ptype) (concat (map snd results))).

(** The membership test of the tally can hash the item's pattern type. *)
Definition countable (item : MemoryItem) : bool :=
  negb (PyStr.startswith (id (actual_memory item)) "git::")
  || Py.hashable (default (PyStr "unknown") (metadata (actual_memory item) !! "pattern_type")).

(** ** Stores to run the examples on *)

Module Sample.

Definition scored : CognitiveMemory := {|
  id := "mem-scored";
  content := "token refresh fails after logout";
  memory_type := "episodic";
  hierarchy_level := 2;
  strength := 0.5%float;
  metadata := {[ "similarity_score" := PyFloat 0.9%float ]};
|}.

Definition unscored : CognitiveMemory := {|
  id := "mem-unscored";
  content := "authentication flow";
  memory_type := "semantic";
  hierarchy_level := 0;
  strength := 0.5%float;
  metadata := ∅;
|}.

Definition bridged : BridgeMemory := {|
  memory := unscored;
  novelty_score := 0.8%float;
  connection_potential := 0.6%float;
  bridge_score := 0.7%float;
|}.

(** One bridge item behind two plain records. *)
Definition stratified : RetrievalResults :=
  [("core", [Plain scored; Plain unscored]); ("peripheral", []); ("bridge", [Bridge bridged])].

(** Three git records: two co-change patterns and a hotspot. *)
Definition three_patterns : RetrievalResults :=
  [("core", [Plain (Demo.record "git::cochange::1" "cochange");
             Plain (Demo.record "git::hotspot::1" "hotspot")]);
   ("peripheral", [Plain (Demo.record "git::cochange::2" "cochange")])].

(** A thousand and one co-change patterns. *)
Definition many_patterns : RetrievalResults :=
  [("core", repeat (Plain (Demo.record "git::cochange::n" "cochange")) 1001);
   ("peripheral", [])].

End Sample.

(** The dict of the tally with its three counts. *)
Definition pattern_counts (cochange hotspot solution : Z) : Dict.t Z :=
  [("cochange", cochange); ("hotspot", hotspot); ("solution", solution)].

(** The summary a count request prints after the first retrieval. *)
Definition summary_transcript (results : RetrievalResults) : list Event :=
  [Print MsgPatternSummary;
   CallRetrieveMemories "git pattern" ["core"; "peripheral"] 1000 (Ok results);
   Print (MsgTotalPatterns (total_results results));
   Print (MsgPatternCount "Co-change patterns" (occurrences "cochange" results));
   Print (MsgPatternCount "Maintenance hotspots" (occurrences "hotspot" results));
   Print (MsgPatternCount "Solution patterns" (occurrences "solution" results))].

(** ** Reading a batch *)

(** The paths given to [validate_source], each with the answer. *)
Definition validated (t : list Event) : list (string * bool) :=
  flat_map
    (fun e => match e with CallValidateSource _ path r => [(path, r)] | _ => [] end)
    t.

(** The paths whose load was started: [load_memories_from_source] on the
    store, or [load_from_source] on the loader in a dry run. *)
Definition loaded (t : list Event) : list string :=
  flat_map
    (fun e =>
       match e with
       | CallLoadMemoriesFromSource _ path _ _ => [path]
       | CallLoadFromSource _ path _ _ => [path]
       | _ => []
       end)
    t.

(** A unit's load or store went wrong: the call raised, or it returned a
    report that is not a success. *)
Definition unit_failed (e : Event) : bool :=
  match e with
  | CallLoadMemoriesFromSource _ _ _ (Raise _) => true
  | CallLoadMemoriesFromSource _ _ _ (Ok report) => negb (success report)
  | CallLoadFromSource _ _ _ (Raise _) => true
  | CallExtractConnections _ _ (Raise _) => true
  | _ => false
  end.

(** The line that records a unit-level failure. *)
Definition is_failure_line (e : Event) : bool :=
  match e with
  | Print (MsgLoadFailed _ _) | Print (MsgLoadError _ _) | Print (MsgAnalyzeError _ _) => true
  | _ => false
  end.

(** The line that records a skipped unit. *)
Definition is_skip_line (e : Event) : bool :=
  match e with
  | Print (MsgSkipInvalid _) => true
  | _ => false
  end.

(** The lines around the loop: the file listing and the summary. *)
Definition is_report_line (e : Event) : bool :=
  match e with
  | Print (MsgFoundFiles _ _) | Print MsgFilesToProcess | Print (MsgFileEntry _)
  | Print (MsgDryRunComplete _) | Print MsgCombinedDistribution
  | Print (MsgLevelMemories _ _ _) | Print (MsgDirectoryDone _) | Print (MsgTotalLoaded _)
  | Print (MsgTotalConnections _) | Print (MsgTotalTime _) | Print (MsgLevelCount _ _ _)
  | Print (MsgTotalFailedMemories _) | Print (MsgTotalFailedConnections _) => true
  | _ => false
  end.

Definition count_where (f : Event -> bool) (t : list Event) : nat :=
  List.length (List.filter f t).

(** The sorted units of a recursive directory scan, given the extensions
    the loader supports and the world the directory is walked in. *)
Definition units_of {W} (env : Env W) (source_path : string) (extensions : list string)
    (w : W) : list Path.t :=
  Path.sorted
    (find_files (Path.of_string source_path) extensions (walk (file_system env) w source_path)).

(** What one skipped unit leaves on the transcript. *)
Definition skip_transcript (kind : LoaderKind) (top : Path.t) (units : list Path.t)
  : list Event :=
  flat_map
    (fun p =>
       [CallValidateSource kind (Path.to_string p) false;
        Print (MsgSkipInvalid (Path.relative_to p top))])
    units.

(** The loader operations leave a measure of the world (the store's
    record count) as it is. *)
Definition loaders_preserve {W} (env : Env W) (record_count : W -> Z) : Prop :=
  forall kind w,
    record_count (snd (get_supported_extensions (loader env kind) w)) = record_count w
    /\ (forall path, record_count (snd (validate_source (loader env kind) path w))
                     = record_count w)
    /\ (forall path kw, record_count (snd (load_from_source (loader env kind) path kw w))
                        = record_count w)
    /\ (forall memories,
          record_count (snd (extract_connections (loader env kind) memories w))
          = record_count w).

(** What the statements below read off a transcript of a batch. *)
Definition batch_view (t : list Event)
  : list (string * bool) * list string * list Event * list Event * list Event * list Event :=
  (validated t, loaded t, List.filter unit_failed t, List.filter is_failure_line t,
   List.filter is_skip_line t, List.filter is_store_call t).

Definition silent (t : list Event) : Prop := batch_view t = ([], [], [], [], [], []).

(** A computation that never calls the cognitive system and leaves a
    measure of the world (the store's record count) as it found it. *)
Definition store_free {W A} (record_count : W -> Z) (m : M W A) : Prop :=
  forall w,
    List.filter is_store_call (transcript (m w)) = []
    /\ record_count (final_world (m w)) = record_count w.

(** ** Notions for the further properties *)



(** The exception that leaves [store_experience], if any: with a text that
    is not blank, a JSON string that is not empty and no true context,
    what [json.loads] raises on the string other than [JSONDecodeError]. *)
Definition escaping {W} (env : Env W) (text : string) (context : PyVal)
    (context_json : option string) : option Exn :=
  if PyStr.truthy (PyStr.strip text) then
    match context_json with
    | Some js =>
        if PyStr.truthy js && negb (Py.truthy context) then
          match json_loads env js with
          | JsonRaises e => Some e
          | _ => None
          end
        else None
    | None => None
    end
  else None.


(** A computation that hands back a value from every world: no exception
    escapes it. *)
Definition returns {W A} (m : M W A) : Prop :=
  forall w, exists a w' t, m w = (Ok a, w', t).

(** The ids on the detail lines of a display, in the order shown. *)
Definition shown_ids (t : list Event) : list string :=
  flat_map
    (fun e =>
       match e with
       | Print (MsgBridgeDetails mid _ _ _ _) => [mid]
       | Print (MsgMemoryDetails mid _ _) => [mid]
       | _ => []
       end)
    t.

(** The items of a result, bucket after bucket. *)
Definition all_items (results : RetrievalResults) : list MemoryItem :=
  concat (map snd results).

(** A computation that leaves no event of a given kind. *)
Definition avoids {W A} (p : Event -> bool) (m : M W A) : Prop :=
  forall w, List.filter p (transcript (m w)) = [].

(** A computation stopped by an exception in world [w]. *)
Definition raises {W A} (m : M W A) (w : W) : Prop :=
  exists e w' t, m w = (Raise e, w', t).

(** A level key the name table of the summaries knows. *)
Definition known_level (level : string) : bool :=
  match level_name level with
  | Ok _ => true
  | Raise _ => false
  end.

(** The memories of one hierarchy level. *)
Definition at_level (level : Z) (memories : list CognitiveMemory) : Z :=
  len (List.filter (fun m => hierarchy_level m =? level) memories).


(** [p <= q] in the order of paths: [q < p] does not hold. *)
Definition path_le (p q : Path.t) : Prop := Path.ltb q p = false.

(** The reports of the units the store took: what
    [load_memories_from_source] handed back with [success] set. *)
Definition successful_reports (t : list Event) : list LoadReport :=
  flat_map
    (fun e =>
       match e with
       | CallLoadMemoriesFromSource _ _ _ (Ok report) =>
           if success report then [report] else []
       | _ => []
       end)
    t.

Definition sum_of (f : LoadReport -> Z) (reports : list LoadReport) : Z :=
  fold_right Z.add 0 (map f reports).

(** The head of the summary of a stored directory, from the reports of
    its units. *)
Definition directory_totals (all_loaded : bool) (reports : list LoadReport) : list Event :=
  [Print (MsgDirectoryDone all_loaded);
   Print (MsgTotalLoaded (sum_of memories_loaded reports));
   Print (MsgTotalConnections (sum_of connections_created reports));
   Print (MsgTotalTime (fold_left PrimFloat.add (map processing_time reports) 0%float))].

(** The memories a dry run read and found the connections of. *)
Definition analysed (t : list Event) : list CognitiveMemory :=
  flat_map
    (fun e =>
       match e with
       | CallExtractConnections _ memories (Ok _) => memories
       | _ => []
       end)
    t.

(** A memory of level 0, 1 or 2. *)
Definition in_hierarchy (m : CognitiveMemory) : bool :=
  (0 <=? hierarchy_level m) && (hierarchy_level m <=? 2).

(** The summary of a directory dry run, from the memories it analysed. *)
Definition dry_run_totals (memories : list CognitiveMemory) : list Event :=
  [Print (MsgDryRunComplete (len (List.filter in_hierarchy memories)));
   Print MsgCombinedDistribution;
   Print (MsgLevelMemories "L0" "Concepts" (at_level 0 memories));
   Print (MsgLevelMemories "L1" "Contexts" (at_level 1 memories));
   Print (MsgLevelMemories "L2" "Episodes" (at_level 2 memories))].

(** [memory.metadata.get("title", "Untitled")] *)
Definition sample_title (m : CognitiveMemory) : PyVal :=
  default (PyStr "Untitled") (metadata m !! "title").

(** A title [title[:60]] can be taken of. *)
Definition sliceable (title : PyVal) : bool :=
  match slice_60 title with
  | Ok _ => true
  | Raise _ => false
  end.

(** A loader and a store that answer with given memories and a given
    report, over the directory of [Demo]. *)
Module Lab.

Definition memory (mid : string) (level : Z) (title : option PyVal) : CognitiveMemory := {|
  id := mid;
  content := "text";
  memory_type := "semantic";
  hierarchy_level := level;
  strength := 0.5%float;
  metadata := match title with Some v => {[ "title" := v ]} | None => ∅ end;
|}.

Definition loader (memories : list CognitiveMemory) : MemoryLoader Z := {|
  get_supported_extensions := fun w => ([".md"], w);
  validate_source := fun _ w => (true, w);
  load_from_source := fun _ _ w => (Ok memories, w);
  extract_connections := fun _ w => (Ok [], w);
|}.

Definition report (loaded : Z) (dist : Dict.t Z) : LoadReport := {|
  success := true;
  memories_loaded := loaded;
  connections_created := 1;
  processing_time := 0.5%float;
  memories_failed := 0;
  connections_failed := 0;
  hierarchy_distribution := Some dist;
  error := None;
|}.

Definition store (answer : LoadReport) : CognitiveSystem Z := {|
  cs_store_experience := fun _ _ w => (Ok "mem-1", w + 1);
  cs_retrieve_memories := fun _ _ _ w => (Ok [], w);
  cs_load_memories_from_source := fun _ _ _ w => (Ok answer, w + memories_loaded answer);
|}.

Definition env (memories : list CognitiveMemory) (answer : LoadReport) : Env Z := {|
  cognitive_system := store answer;
  MarkdownMemoryLoader := loader memories;
  GitHistoryLoader := Demo.git;
  file_system := Demo.files;
  json_loads := Demo.loads;
  format_source_info := fun _ => None;
|}.

End Lab.

(** * The further commands

    [show_status], [consolidate_memories], [clear_memories],
    [show_git_status], the interactive loop and their dispatch in [main].
    They print lines of their own, call two more operations of the
    cognitive system and read the console; their runs are written over a
    trace that holds the events of the methods embedded above beside
    these. *)

(** What [get_memory_stats] and [consolidate_memories] return: the code
    uses both as dicts with string keys ([in], [[]], [.get]). *)
Definition Stats : Type := Dict.t PyVal.

(** What [input] gives at the prompt: a line; Ctrl-C ([KeyboardInterrupt]).
    A session is the list of these in the order they were given; when the
    list is used up the input is at its end ([EOFError]).  An interrupt
    while a command runs, and any other exception of [input] itself, are
    not modelled. *)
Inductive Keyed : Type :=
| Line (s : string)
| Interrupt.

(** One constructor per [print] of the further methods, holding what the
    f-string interpolates.  The lines of the help text are numbered. *)
Inductive Note : Type :=
(* show_status *)
| NoteStatusHeader
| NoteRule (width : Z)
| NoteMemoryCounts
| NoteCount (key : string) (count : PyVal)
| NoteConfiguration
| NoteActivationThreshold (v : PyVal)
| NoteBridgeDiscoveryK (v : PyVal)
| NoteMaxActivations (v : PyVal)
| NoteStorageStatistics
| NoteVectors (level_key : string) (count : PyVal)
| NoteEmbeddingModel
| NoteModel (v : PyVal)
| NoteDimensions (v : PyVal)
| NoteStatusError (e : Exn)
(* consolidate_memories *)
| NoteConsolidationDryRun
| NoteConsolidationStart
| NoteConsolidationDone
| NoteTotalEpisodic (v : PyVal)
| NoteConsolidated (v : PyVal)
| NoteConsolidationFailed (v : PyVal)
| NoteConsolidationSkipped (v : PyVal)
| NoteConsolidationError (e : Exn)
(* clear_memories *)
| NoteClearNotImplemented
| NoteUseDatabaseTools
(* show_git_status *)
| NoteRepositoryMissing (repo_path : string)
| NoteNotARepository (repo_path : string)
| NoteGitStatusFor (repo_path : string)
| NoteSystemStatusWithGit
| NoteGitStatusError (e : Exn)
(* interactive_mode_loop *)
| NoteInteractiveMode
| NoteInteractiveHint
| NoteGoodbye
| NoteHelpLine (n : nat)
| NoteLoadUsage
| NoteUnknownCommand (command : string)
| NoteTypeHelp
| NoteLoopError (e : Exn)
(* memory_system: load, load-git incremental *)
| NoteLoadingIncrementally
| NoteInitializationFailed (msg : string)
| NoteCommandError (e : option Exn)
| NoteIncrementalDone.

(** How the start of the system ends: [initialize_system] or
    [initialize_with_config] hands back the cognitive system, raises
    [InitializationError], or raises something else. *)
Inductive Started : Type :=
| Ready
| InitializationError (msg : string)
| StartFailed (e : Exn).

Inductive Trace : Type :=
| Cli (e : Event)
| Say (n : Note)
| CallGetMemoryStats (r : Result Stats)
| CallConsolidateMemories (r : Result Stats)
| Input (k : option Keyed)
| CallInitialize (config : option string) (r : Started)
| CallGracefulShutdown (r : Result bool).

(** The two further operations of the cognitive system, and
    [Path(p).exists()]. *)
Record Admin (W : Type) : Type := {
  get_memory_stats : W -> Result Stats * W;
  cs_consolidate_memories : W -> Result Stats * W;
  path_exists : W -> string -> bool;
}.
Arguments get_memory_stats {W} _ _.
Arguments cs_consolidate_memories {W} _ _.
Arguments path_exists {W} _ _ _.

(** What the commands of [memory_system] run on: the start of the system
    (with the configuration file named, or the default profile), its
    shutdown, and whether [typer.Exit] is an [Exception], which these
    sources do not tell. *)
Record Runtime (W : Type) : Type := {
  initialize : option string -> W -> Started * W;
  graceful_shutdown : W -> Result bool * W;
  exit_is_exception : bool;
}.
Arguments initialize {W} _ _ _.
Arguments graceful_shutdown {W} _ _.
Arguments exit_is_exception {W} _.

Module Session.

Definition Act (W A : Type) : Type := W -> Result A * W * list Trace.

Definition ret {W A} (a : A) : Act W A := fun w => (Ok a, w, []).

Definition bind {W A B} (m : Act W A) (k : A -> Act W B) : Act W B :=
  fun w =>
    match m w with
    | (Ok a, w1, t1) => let '(r, w2, t2) := k a w1 in (r, w2, t1 ++ t2)
    | (Raise e, w1, t1) => (Raise e, w1, t1)
    end.

(** [try: m except Exception as e: h e] *)
Definition try_except {W A} (m : Act W A) (h : Exn -> Act W A) : Act W A :=
  fun w =>
    match m w with
    | (Ok a, w1, t1) => (Ok a, w1, t1)
    | (Raise e, w1, t1) => let '(r, w2, t2) := h e w1 in (r, w2, t1 ++ t2)
    end.

Definition say {W} (n : Note) : Act W unit := fun w => (Ok tt, w, [Say n]).

Definition lift {W A} (r : Result A) : Act W A := fun w => (r, w, []).

(** A method embedded above, run inside a further one. *)
Definition cli {W A} (m : M W A) : Act W A :=
  fun w => let '(r, w', t) := m w in (r, w', map Cli t).

Declare Scope session_scope.
Delimit Scope session_scope with session.
Notation "x <- m ;; k" := (bind m (fun x => k))
  (at level 100, m at next level, right associativity) : session_scope.
Notation "m ;; k" := (bind m (fun _ => k))
  (at level 100, right associativity) : session_scope.
Local Open Scope session_scope.

(** [for x in l: body(x)] *)
Fixpoint for_each {W A} (body : A -> Act W unit) (l : list A) : Act W unit :=
  match l with
  | [] => ret tt
  | x :: l' => body x ;; for_each body l'
  end.

(** [if c: m] *)
Definition when {W} (c : bool) (m : Act W unit) : Act W unit :=
  if c then m else ret tt.

(** ** Strings and values *)

(** [c.lower()] on one code point below 256: A-Z and the capital letters
    from 192 to 222, the multiplication sign apart. *)
Definition lower_char (c : ascii) : ascii :=
  let n := nat_of_ascii c in
  if ((65 <=? n)%nat && (n <=? 90)%nat)
     || ((192 <=? n)%nat && (n <=? 222)%nat && negb (n =? 215)%nat)
  then ascii_of_nat (n + 32)
  else c.

(** [s.lower()] *)
Fixpoint lower (s : string) : string :=
  match s with
  | EmptyString => EmptyString
  | String c s' => String (lower_char c) (lower s')
  end.

(** [s[n:]] *)
Fixpoint slice_from (n : nat) (s : string) : string :=
  match n, s with
  | O, _ => s
  | S _, EmptyString => EmptyString
  | S n', String _ s' => slice_from n' s'
  end.

(** [s in l] for a list of strings. *)
Definition among (s : string) (l : list string) : bool := existsb (String.eqb s) l.

(** [isinstance(v, int)]: a [bool] is an [int]. *)
Definition isinstance_int (v : PyVal) : bool :=
  match v with
  | PyInt _ | PyBool _ => true
  | _ => false
  end.

(** [v.items()] and [v.get]: on a dict; any other value has no such
    attribute. *)
Definition as_dict (v : PyVal) : Result (Dict.t PyVal) :=
  match v with
  | PyDict d => Ok d
  | _ => Raise (Exception "object has no such attribute")
  end.

(** [d.get(k, "N/A")] *)
Definition get_or_na (k : string) (d : Dict.t PyVal) : PyVal :=
  default (PyStr "N/A") (Dict.get k d).

(** [d.get(k, 0)] *)
Definition get_or_zero (k : string) (d : Dict.t PyVal) : PyVal :=
  default (PyInt 0) (Dict.get k d).

(** Truth value of [dict | None]: a non-empty dict. *)
Definition stats_truthy (r : option Stats) : bool :=
  match r with
  | Some (_ :: _) => true
  | _ => false
  end.

Section WithEnv.

Context {W : Type} (env : Env W) (admin : Admin W).

Definition call_get_memory_stats : Act W Stats :=
  fun w =>
    let '(r, w') := get_memory_stats admin w in
    (r, w', [CallGetMemoryStats r]).

Definition call_consolidate_memories : Act W Stats :=
  fun w =>
    let '(r, w') := cs_consolidate_memories admin w in
    (r, w', [CallConsolidateMemories r]).

(** *** show_status *)

(** [if "memory_counts" in stats: ...] *)
Definition show_memory_counts (stats : Stats) : Act W unit :=
  match Dict.get "memory_counts" stats with
  | Some counts =>
      say NoteMemoryCounts ;;
      items <- lift (as_dict counts) ;;
      for_each
        (fun entry =>
           when (isinstance_int (snd entry)) (say (NoteCount (fst entry) (snd entry))))
        items
  | None => ret tt
  end.

(** [if detailed and "system_config" in stats: ...] *)
Definition show_configuration (stats : Stats) : Act W unit :=
  match Dict.get "system_config" stats with
  | Some config =>
      say NoteConfiguration ;;
      config <- lift (as_dict config) ;;
      say (NoteActivationThreshold (get_or_na "activation_threshold" config)) ;;
      say (NoteBridgeDiscoveryK (get_or_na "bridge_discovery_k" config)) ;;
      say (NoteMaxActivations (get_or_na "max_activations" config))
  | None => ret tt
  end.

(** [if detailed and "storage_stats" in stats and stats["storage_stats"]: ...] *)
Definition show_storage (stats : Stats) : Act W unit :=
  match Dict.get "storage_stats" stats with
  | Some storage_stats =>
      when (Py.truthy storage_stats)
        (say NoteStorageStatistics ;;
         items <- lift (as_dict storage_stats) ;;
         for_each
           (fun entry =>
              match snd entry with
              | PyDict level_stats =>
                  match Dict.get "vectors_count" level_stats with
                  | Some count => say (NoteVectors (fst entry) count)
                  | None => ret tt
                  end
              | _ => ret tt
              end)
           items)
  | None => ret tt
  end.

(** [if detailed and "embedding_info" in stats: ...] *)
Definition show_embedding (stats : Stats) : Act W unit :=
  match Dict.get "embedding_info" stats with
  | Some info =>
      say NoteEmbeddingModel ;;
      info <- lift (as_dict info) ;;
      say (NoteModel (get_or_na "model_name" info)) ;;
      say (NoteDimensions (get_or_na "embedding_dimension" info))
  | None => ret tt
  end.

Definition show_status (detailed display : bool) : Act W (option Stats) :=
  try_except
    (stats <- call_get_memory_stats ;;
     when display
       (say NoteStatusHeader ;;
        say (NoteRule 40) ;;
        show_memory_counts stats ;;
        when detailed (show_configuration stats) ;;
        when detailed (show_storage stats) ;;
        when detailed (show_embedding stats)) ;;
     ret (Some stats))
    (fun e => when display (say (NoteStatusError e)) ;; ret None).

(** *** consolidate_memories *)

Definition consolidate_memories (dry_run : bool) : Act W bool :=
  when dry_run (say NoteConsolidationDryRun) ;;
  try_except
    (say NoteConsolidationStart ;;
     results <- call_consolidate_memories ;;
     say NoteConsolidationDone ;;
     say (NoteTotalEpisodic (get_or_zero "total_episodic" results)) ;;
     say (NoteConsolidated (get_or_zero "consolidated" results)) ;;
     say (NoteConsolidationFailed (get_or_zero "failed" results)) ;;
     say (NoteConsolidationSkipped (get_or_zero "skipped" results)) ;;
     ret true)
    (fun e => say (NoteConsolidationError e) ;; ret false).

(** *** clear_memories *)

Definition clear_memories (memory_type : string) (confirm : bool) : Act W bool :=
  say NoteClearNotImplemented ;;
  say NoteUseDatabaseTools ;;
  ret false.

(** *** show_git_status *)

(** [if repo_path:] on [str | None] *)
Definition given (repo_path : option string) : option string :=
  match repo_path with
  | Some p => if PyStr.truthy p then Some p else None
  | None => None
  end.

Definition show_git_status (repo_path : option string) : Act W bool :=
  try_except
    (match given repo_path with
     | Some p =>
         fun w =>
           (if negb (path_exists admin w p) then
              say (NoteRepositoryMissing p) ;; ret false
            else if negb (dot_git_exists (file_system env) w p) then
              say (NoteNotARepository p) ;; ret false
            else
              say (NoteGitStatusFor p) ;;
              say (NoteRule 50) ;;
              cli (search_git_patterns env "" None 0)) w
     | None =>
         say NoteSystemStatusWithGit ;;
         say (NoteRule 40) ;;
         success <- show_status false true ;;
         when (stats_truthy success)
           (say (NoteRule 40) ;;
            _ <- cli (search_git_patterns env "" None 0) ;;
            ret tt) ;;
         ret (stats_truthy success)
     end)
    (fun e => say (NoteGitStatusError e) ;; ret false).

(** *** interactive_mode_loop *)

(** The help is fifteen printed lines, told apart by their position. *)
Definition show_interactive_help : Act W unit :=
  for_each (fun n => say (NoteHelpLine n)) (seq 0 15).

(** The commands after [quit]: the [elif] chain of one turn. *)
Definition run_command (command : string) : Act W unit :=
  if among (lower command) ["help"; "h"; "?"] then show_interactive_help
  else if PyStr.startswith command "store " then
    _ <- cli (store_experience env (PyStr.strip (slice_from 6 command)) PyNone None) ;;
    ret tt
  else if PyStr.startswith command "retrieve " then
    _ <- cli (retrieve_memories env (PyStr.strip (slice_from 9 command)) None 10 true) ;;
    ret tt
  else if PyStr.startswith command "bridges " then
    _ <- cli (retrieve_memories env (PyStr.strip (slice_from 8 command))
                (Some ["bridge"]) 10 true) ;;
    ret tt
  else if String.eqb (lower command) "status" then
    _ <- show_status false true ;; ret tt
  else if String.eqb (lower command) "config" then
    _ <- show_status true true ;; ret tt
  else if String.eqb (lower command) "consolidate" then
    _ <- consolidate_memories false ;; ret tt
  else if PyStr.startswith command "load " then
    let source_path := PyStr.strip (slice_from 5 command) in
    if PyStr.truthy source_path then
      _ <- cli (load_memories env source_path "markdown" false false []) ;; ret tt
    else say NoteLoadUsage
  else
    say (NoteUnknownCommand command) ;;
    say NoteTypeHelp.

(** [while True: try: ... except ...], over what the console gives. *)
Fixpoint command_loop (inputs : list Keyed) : Act W unit :=
  match inputs with
  | [] => (fun w => (Ok tt, w, [Input None])) ;; say NoteGoodbye
  | Interrupt :: _ => (fun w => (Ok tt, w, [Input (Some Interrupt)])) ;; say NoteGoodbye
  | Line raw :: rest =>
      (fun w => (Ok tt, w, [Input (Some (Line raw))])) ;;
      let command := PyStr.strip raw in
      if negb (PyStr.truthy command) then command_loop rest
      else if among (lower command) ["quit"; "exit"; "q"] then say NoteGoodbye
      else
        try_except (run_command command) (fun e => say (NoteLoopError e)) ;;
        command_loop rest
  end.

Definition interactive_mode_loop (inputs : list Keyed) : Act W unit :=
  say NoteInteractiveMode ;;
  say NoteInteractiveHint ;;
  say (NoteRule 40) ;;
  command_loop inputs.

(** *** main: the dispatch of the further commands *)

Inductive FurtherArgs : Type :=
| ArgsStatus (detailed : bool)
| ArgsConsolidate (dry_run : bool)
| ArgsClear (type : string) (confirm : bool)
| ArgsGitStatus (repo_path : option string)
| ArgsInteractive (inputs : list Keyed).

Definition main_further (args : FurtherArgs) : Act W Z :=
  match args with
  | ArgsStatus detailed =>
      result <- show_status detailed true ;;
      ret (exit_code (stats_truthy result))
  | ArgsConsolidate dry_run =>
      success <- consolidate_memories dry_run ;;
      ret (exit_code success)
  | ArgsClear type confirm =>
      success <- clear_memories type confirm ;;
      ret (exit_code success)
  | ArgsGitStatus repo_path =>
      success <- show_git_status repo_path ;;
      ret (exit_code success)
  | ArgsInteractive inputs =>
      interactive_mode_loop inputs ;;
      ret 0
  end.

End WithEnv.

End Session.

(** * The commands of [memory_system] that load

    [load] and [load-git incremental] start the system, hand the work to
    [CognitiveCLI.load_memories] and shut the system down.  A command ends
    by returning ([None]) or with [typer.Exit(code)] ([Some code]). *)

Module MemorySystem.

Declare Scope command_scope.
Notation "x <- m ;; k" := (Session.bind m (fun x => k))
  (at level 100, m at next level, right associativity) : command_scope.
Notation "m ;; k" := (Session.bind m (fun _ => k))
  (at level 100, right associativity) : command_scope.
Local Open Scope command_scope.

Section WithEnv.

Context {W : Type} (env : Env W) (runtime : Runtime W).

(** [if config: initialize_with_config(config) else:
    initialize_system("default")] *)
Definition call_initialize (config : option string) : Session.Act W Started :=
  fun w =>
    let '(r, w') := initialize runtime (Session.given config) w in
    (Ok r, w', [CallInitialize (Session.given config) r]).

Definition call_graceful_shutdown : Session.Act W bool :=
  fun w =>
    let '(r, w') := graceful_shutdown runtime w in
    (r, w', [CallGracefulShutdown r]).

(** [finally: try: graceful_shutdown(cognitive_system) except Exception:
    pass], once [cognitive_system] is bound. *)
Definition shut_down : Session.Act W unit :=
  Session.try_except (_ <- call_graceful_shutdown ;; Session.ret tt)
    (fun _ => Session.ret tt).

(** [if not success: raise typer.Exit(1)] inside the [try]: when
    [typer.Exit] is an [Exception], the last [except] clause prints it and
    raises [typer.Exit(1)] again. *)
Definition exit_on_failure (success : bool) : Session.Act W (option Z) :=
  if success then Session.ret None
  else if exit_is_exception runtime
       then Session.say (NoteCommandError None) ;; Session.ret (Some 1)
       else Session.ret (Some 1).

(** The [try] statement of both commands around the work [body], which
    answers whether it succeeded and what is printed after a success.
    When the start failed, [cognitive_system] is not bound and the
    shutdown in [finally] stops at the name. *)
Definition with_system (config : option string) (body : Session.Act W bool)
    (done : Session.Act W unit) : Session.Act W (option Z) :=
  started <- call_initialize config ;;
  match started with
  | Ready =>
      verdict <- Session.try_except
                   (success <- body ;;
                    verdict <- exit_on_failure success ;;
                    match verdict with
                    | None => done ;; Session.ret None
                    | Some code => Session.ret (Some code)
                    end)
                   (fun e => Session.say (NoteCommandError (Some e)) ;; Session.ret (Some 1)) ;;
      shut_down ;;
      Session.ret verdict
  | InitializationError msg =>
      Session.say (NoteInitializationFailed msg) ;; Session.ret (Some 1)
  | StartFailed e =>
      Session.say (NoteCommandError (Some e)) ;; Session.ret (Some 1)
  end.

(** The command [load] (the function [load_memories] of
    [memory_system/cli.py]). *)
Definition load_command (source_path loader_type : string) (dry_run : bool)
    (config : option string) : Session.Act W (option Z) :=
  with_system config
    (Session.cli (load_memories env source_path loader_type dry_run false []))
    (Session.ret tt).

(** The command [load-git incremental]. *)
Definition load_git_incremental (source_path : string) (max_commits : Z)
    (force_full_load dry_run : bool) (config : option string) : Session.Act W (option Z) :=
  Session.say NoteLoadingIncrementally ;;
  with_system config
    (Session.cli
       (load_memories env source_path "git" dry_run false
          [("max_commits", PyInt max_commits); ("force_full_load", PyBool force_full_load)]))
    (Session.say NoteIncrementalDone).

End WithEnv.

End MemorySystem.

(** What a run of a further command gave, where it left the world, what
    it printed and called. *)
Definition session_outcome {W A} (run : Result A * W * list Trace) : Result A :=
  fst (fst run).

Definition session_world {W A} (run : Result A * W * list Trace) : W := snd (fst run).

Definition session_trace {W A} (run : Result A * W * list Trace) : list Trace := snd run.

(** ** Notions for the further commands *)

(** A further command that hands back a value from every world. *)
Definition session_returns {W A} (m : Session.Act W A) : Prop :=
  forall w, exists a w' t, m w = (Ok a, w', t).

(** What the consolidations asked of the cognitive system gave, in order. *)
Definition consolidations (t : list Trace) : list (Result Stats) :=
  flat_map
    (fun e => match e with CallConsolidateMemories r => [r] | _ => [] end)
    t.

Definition is_dict (v : PyVal) : bool :=
  match v with
  | PyDict _ => true
  | _ => false
  end.

(** The entry of the statistics under [k] is a dict, or there is none. *)
Definition dict_entry (k : string) (stats : Stats) : bool :=
  match Dict.get k stats with
  | Some v => is_dict v
  | None => true
  end.

(** The statistics the status display can go through: the entries it
    reads as dicts are dicts. *)
Definition status_displayable (detailed : bool) (stats : Stats) : bool :=
  dict_entry "memory_counts" stats
  && (negb detailed
      || (dict_entry "system_config" stats
          && match Dict.get "storage_stats" stats with
             | Some v => negb (Py.truthy v) || is_dict v
             | None => true
             end
          && dict_entry "embedding_info" stats)).

(** A line that ends the session when typed at the prompt. *)
Definition is_quit (raw : string) : bool :=
  Session.among (Session.lower (PyStr.strip raw)) ["quit"; "exit"; "q"].

(** The lines a trace never holds, as shown below: the error line of the
    loop, the usage line of [load], and the complaints of
    [store_experience] and [retrieve_memories] about a blank input. *)
Definition unreachable_line (e : Trace) : bool :=
  match e with
  | Say (NoteLoopError _) | Say NoteLoadUsage => true
  | Cli (Print MsgEmptyText) | Cli (Print MsgEmptyQuery) => true
  | _ => false
  end.

(** A world for the further commands: one repository at [repo], and the
    statistics and the retrieval result given. *)
Module Desk.

Definition admin (stats : Result Stats) : Admin Z := {|
  get_memory_stats := fun w => (stats, w);
  cs_consolidate_memories := fun w => (Ok [("total_episodic", PyInt 3); ("consolidated", PyInt 1)], w + 1);
  path_exists := fun _ p => String.eqb p "repo" || String.eqb p "docs";
|}.

Definition files : FileSystem Z := {|
  is_dir := fun _ p => String.eqb p "repo" || String.eqb p "docs";
  dot_git_exists := fun _ p => String.eqb p "repo";
  walk := fun _ _ => [];
|}.

Definition env (stored : RetrievalResults) : Env Z := {|
  cognitive_system := Demo.store stored;
  MarkdownMemoryLoader := Demo.markdown;
  GitHistoryLoader := Demo.git;
  file_system := files;
  json_loads := Demo.loads;
  format_source_info := fun _ => None;
|}.

End Desk.

(** The complaint of [store_experience] or [retrieve_memories] about a
    blank input. *)
Definition blank_complaint (e : Event) : bool :=
  match e with
  | Print MsgEmptyText | Print MsgEmptyQuery => true
  | _ => false
  end.

(** A further command whose trace holds no event that [p] marks. *)
Definition session_avoids {W A} (p : Trace -> bool) (m : Session.Act W A) : Prop :=
  forall w, existsb p (session_trace (m w)) = false.

(** Every record of a result can be tallied. *)
Definition all_countable (results : RetrievalResults) : bool :=
  forallb (fun entry => forallb countable (snd entry)) results.

(** A git record whose pattern type is the value given. *)
Definition tagged (mid : string) (ptype : PyVal) : CognitiveMemory := {|
  id := mid;
  content := "pattern";
  memory_type := "semantic";
  hierarchy_level := 1;
  strength := 0.5%float;
  metadata := {[ "pattern_type" := ptype ]};
|}.

(** What the shutdowns asked for gave, in order. *)
Definition shutdowns (t : list Trace) : list (Result bool) :=
  flat_map
    (fun e => match e with CallGracefulShutdown r => [r] | _ => [] end)
    t.

(** How a loading command of [memory_system] ends, from how the start of
    the system ended and what [CognitiveCLI.load_memories] returned: it
    returns ([None]) after a start and a load that succeeded, and ends
    with [typer.Exit(1)] otherwise. *)
Definition command_verdict (started : Started) (loaded : Result bool) : option Z :=
  match started, loaded with
  | Ready, Ok true => None
  | _, _ => Some 1
  end.

(** A system that starts unless the configuration file is named
    [broken.env], and whose shutdown raises. *)
Definition desk_runtime (exit_is_exception : bool) : Runtime Z := {|
  initialize := fun config w =>
    match config with
    | Some "broken.env" => (InitializationError "cannot read broken.env", w)
    | _ => (Ready, w)
    end;
  graceful_shutdown := fun w => (Raise (Exception "store unreachable"), w);
  exit_is_exception := exit_is_exception;
|}.

(** * Properties *)

(** ** Strings *)

Lemma lstrip_all_space (s : string) :
  PyStr.all_space s = true -> PyStr.lstrip s = "".
Proof.
  induction s as [|c s IH]; simpl; [reflexivity|].
  intros H. apply andb_true_iff in H as [Hc Hs].
  rewrite Hc. exact (IH Hs).
Qed.

Lemma strip_all_space (s : string) :
  PyStr.all_space s = true -> PyStr.strip s = "".
Proof.
  intros H. unfold PyStr.strip. rewrite (lstrip_all_space s H). reflexivity.
Qed.

(** ** Empty input *)

(** C8: for a text (or query) made of white space only, or empty,
    [store_experience] returns [False] and [retrieve_memories] returns
    [None]; in both cases the world is untouched and the transcript holds
    the error line at most: no call reaches the cognitive system. *)
Theorem empty_input_not_attempted {W} (env : Env W) (blank : string) (context : PyVal)
    (context_json : option string) (types : option (list string)) (limit : Z)
    (display : bool) (w : W) :
  PyStr.all_space blank = true ->
  store_experience env blank context context_json w = (Ok false, w, [Print MsgEmptyText])
  /\ retrieve_memories env blank types limit display w
     = (Ok None, w, if display then [Print MsgEmptyQuery] else [])
  /\ calls (transcript (store_experience env blank context context_json w)) = []
  /\ calls (transcript (retrieve_memories env blank types limit display w)) = [].
Proof.
  intros Hblank.
  assert (Hs : store_experience env blank context context_json w
               = (Ok false, w, [Print MsgEmptyText])).
  { unfold store_experience. rewrite (strip_all_space _ Hblank). reflexivity. }
  assert (Hr : retrieve_memories env blank types limit display w
               = (Ok None, w, if display then [Print MsgEmptyQuery] else [])).
  { unfold retrieve_memories. rewrite (strip_all_space _ Hblank).
    destruct display; reflexivity. }
  rewrite Hs, Hr. repeat split. destruct display; reflexivity.
Qed.

Lemma empty_input_not_attempted_witness :
  PyStr.all_space "  " = true
  /\ store_experience (Demo.env []) "  " PyNone None 0
     = (Ok false, 0, [Print MsgEmptyText]).
Proof.
  split; [reflexivity|].
  apply (empty_input_not_attempted (Demo.env []) "  " PyNone None None 10 true 0).
  reflexivity.
Defined.

(** ** The refresh flag *)

(** C10: [load_git_patterns] does not look at [refresh]: with the flag set
    or not it is the same run (same result, same world, same transcript),
    the one of [load_memories] with loader type ["git"]. *)
Theorem load_git_patterns_refresh_ignored {W} (env : Env W) (repo_path : string)
    (dry_run refresh : bool) (kw : Kwargs) (w : W) :
  load_git_patterns env repo_path dry_run true kw w
  = load_git_patterns env repo_path dry_run false kw w
  /\ load_git_patterns env repo_path dry_run refresh kw w
     = load_memories env repo_path "git" dry_run false kw w.
Proof. split; reflexivity. Qed.

(** ** A directory without [recursive] *)

(** C3: when the source is a directory (and not a git repository root given
    to the git loader) and [recursive] is not set, [load_memories] returns
    [False] at once: the world is untouched, the transcript is the usage
    line (or the unsupported-loader lines) and holds no call. *)
Theorem directory_without_recursive {W} (env : Env W) (source_path loader_type : string)
    (dry_run : bool) (kw : Kwargs) (w : W) :
  is_dir (file_system env) w source_path = true ->
  ~ (loader_type = "git" /\ dot_git_exists (file_system env) w source_path = true) ->
  load_memories env source_path loader_type dry_run false kw w
  = (Ok false, w,
     match loader_kind loader_type with
     | Some _ => [Print (MsgIsDirectory source_path)]
     | None => [Print (MsgUnsupportedLoader loader_type); Print MsgSupportedLoaders]
     end)
  /\ calls (transcript (load_memories env source_path loader_type dry_run false kw w)) = [].
Proof.
  intros Hdir Hgit.
  assert (Heq : load_memories env source_path loader_type dry_run false kw w
                = (Ok false, w,
                   match loader_kind loader_type with
                   | Some _ => [Print (MsgIsDirectory source_path)]
                   | None => [Print (MsgUnsupportedLoader loader_type); Print MsgSupportedLoaders]
                   end)).
  { unfold load_memories.
    destruct (loader_kind loader_type) as [kind|] eqn:Hkind; [|reflexivity].
    assert (Hscan : is_directory_scan env kind source_path w = true).
    { unfold is_directory_scan. rewrite Hdir. simpl.
      destruct kind; [reflexivity|].
      destruct (dot_git_exists (file_system env) w source_path) eqn:Hdot; [|reflexivity].
      exfalso. apply Hgit. split; [|reflexivity].
      unfold loader_kind in Hkind.
      destruct (String.eqb loader_type "markdown") eqn:Hm; [discriminate|].
      destruct (String.eqb loader_type "git") eqn:Hg; [|discriminate].
      apply String.eqb_eq. exact Hg. }
    unfold try_except. rewrite Hscan. reflexivity. }
  rewrite Heq. split; [reflexivity|].
  destruct (loader_kind loader_type); reflexivity.
Qed.

Lemma directory_without_recursive_witness :
  load_memories (Demo.env []) "docs" "markdown" false false [] 0
  = (Ok false, 0, [Print (MsgIsDirectory "docs")]).
Proof.
  apply (directory_without_recursive (Demo.env []) "docs" "markdown" false [] 0).
  - reflexivity.
  - intros [H _]. discriminate H.
Defined.

(** ** The monad *)

Lemma bind_ok {W A B} (m : M W A) (k : A -> M W B) w a w1 t1 :
  m w = (Ok a, w1, t1) ->
  bind m k w = (let '(r, w2, t2) := k a w1 in (r, w2, t1 ++ t2)).
Proof. intros H. unfold bind. rewrite H. reflexivity. Qed.

Lemma bind_raise {W A B} (m : M W A) (k : A -> M W B) w e w1 t1 :
  m w = (Raise e, w1, t1) -> bind m k w = (Raise e, w1, t1).
Proof. intros H. unfold bind. rewrite H. reflexivity. Qed.

Lemma bind_run {W A B} (m : M W A) (k : A -> M W B) w a w1 t1 r w2 t2 :
  m w = (Ok a, w1, t1) -> k a w1 = (r, w2, t2) -> bind m k w = (r, w2, t1 ++ t2).
Proof. intros H1 H2. rewrite (bind_ok _ _ _ _ _ _ H1), H2. reflexivity. Qed.

Lemma bind_assoc {W A B C} (m : M W A) (f : A -> M W B) (g : B -> M W C) w :
  bind (bind m f) g w = bind m (fun a => bind (f a) g) w.
Proof.
  unfold bind. destruct (m w) as [[[a|e] w1] t1]; [|reflexivity].
  destruct (f a w1) as [[[b|e] w2] t2]; [|reflexivity].
  destruct (g b w2) as [[r w3] t3]. rewrite app_assoc. reflexivity.
Qed.

Lemma bind_ret_l {W A B} (a : A) (k : A -> M W B) w : bind (ret a) k w = k a w.
Proof. unfold bind, ret. destruct (k a w) as [[r w2] t2]. reflexivity. Qed.

Lemma bind_ext {W A B} (m : M W A) (k k' : A -> M W B) w :
  (forall a w1, k a w1 = k' a w1) -> bind m k w = bind m k' w.
Proof.
  intros H. unfold bind. destruct (m w) as [[[a|e] w1] t1]; [|reflexivity].
  rewrite H. reflexivity.
Qed.

Lemma for_each_cons {W A S} (body : S -> A -> M W S) (x : A) (l : list A) (s : S) (w : W) :
  for_each body (x :: l) s w = bind (body s x) (fun s' => for_each body l s') w.
Proof. reflexivity. Qed.

Lemma for_each_app {W A S} (body : S -> A -> M W S) (l1 l2 : list A) (s : S) (w : W) :
  for_each body (l1 ++ l2) s w = bind (for_each body l1 s) (for_each body l2) w.
Proof.
  revert s w. induction l1 as [|x l1 IH]; intros s w; simpl.
  - rewrite bind_ret_l. reflexivity.
  - rewrite bind_assoc. apply bind_ext. intros s' w'. apply IH.
Qed.

(** What follows a successful first part shows up in the whole run. *)
Lemma occurs_in_bind {W A B} (m : M W A) (k : A -> M W B) w a w1 t1 seg :
  m w = (Ok a, w1, t1) ->
  occurs_in seg (transcript (k a w1)) ->
  occurs_in seg (transcript (bind m k w)).
Proof.
  intros Hm (before & after & Hk).
  rewrite (bind_ok _ _ _ _ _ _ Hm).
  destruct (k a w1) as [[r w2] t2]. simpl in *. subst t2.
  exists (t1 ++ before), after. rewrite <- app_assoc. reflexivity.
Qed.

Lemma occurs_in_bind_l {W A B} (m : M W A) (k : A -> M W B) w seg :
  occurs_in seg (transcript (m w)) ->
  occurs_in seg (transcript (bind m k w)).
Proof.
  intros (before & after & Hm). unfold bind.
  destruct (m w) as [[[a|e] w1] t1]; simpl in *; subst t1.
  - destruct (k a w1) as [[r w2] t2]. simpl.
    exists before, (after ++ t2). rewrite <- !app_assoc. reflexivity.
  - exists before, after. reflexivity.
Qed.

Lemma occurs_in_try_except {W A} (m : M W A) (h : Exn -> M W A) w seg :
  occurs_in seg (transcript (m w)) ->
  occurs_in seg (transcript (try_except m h w)).
Proof.
  intros (before & after & Hm). unfold try_except.
  destruct (m w) as [[[a|e] w1] t1]; simpl in *; subst t1.
  - exists before, after. reflexivity.
  - destruct (h e w1) as [[r w2] t2]. simpl.
    exists before, (after ++ t2). rewrite <- !app_assoc. reflexivity.
Qed.


Lemma occurs_in_cons (e : Event) (seg t : list Event) :
  occurs_in seg t -> occurs_in seg (e :: t).
Proof. intros (b & a & ->). exists (e :: b), a. reflexivity. Qed.

(** ** The store command *)

Lemma store_with_context_submissions {W} (env : Env W) text context w :
  store_submissions (transcript (store_with_context env text context w)) = [(text, context)].
Proof.
  unfold store_with_context, try_except, bind, call_store_experience.
  destruct (cs_store_experience (cognitive_system env) text context w) as [[memory_id|e] w1].
  - destruct (PyStr.truthy memory_id); reflexivity.
  - reflexivity.
Qed.

Lemma store_with_context_total {W} (env : Env W) text context w :
  exists b w1 t, store_with_context env text context w = (Ok b, w1, t).
Proof.
  unfold store_with_context, try_except, bind, call_store_experience.
  destruct (cs_store_experience (cognitive_system env) text context w) as [[memory_id|e] w1].
  - destruct (PyStr.truthy memory_id); eauto.
  - eauto.
Qed.

Lemma store_submissions_app (t1 t2 : list Event) :
  store_submissions (t1 ++ t2) = store_submissions t1 ++ store_submissions t2.
Proof. unfold store_submissions. apply flat_map_app. Qed.

(** What the first [store_experience] of a [store] command does. *)
Lemma first_store_run {W} (env : Env W) (text : string) (context : option string) (w : W) :
  PyStr.truthy (PyStr.strip text) = true ->
  match first_call_raises env context with
  | Some e => store_experience env text PyNone context w = (Raise e, w, [])
  | None =>
      exists b w1 t1,
        store_experience env text PyNone context w = (Ok b, w1, t1)
        /\ store_submissions t1 = first_submission env text context
  end.
Proof.
  intros Htext.
  assert (Hplain : forall c,
    exists b w1 t1,
      store_with_context env text c w = (Ok b, w1, t1)
      /\ store_submissions t1 = [(text, c)]).
  { intros c. destruct (store_with_context_total env text c w) as (b & w1 & t1 & H).
    exists b, w1, t1. split; [exact H|].
    pose proof (store_with_context_submissions env text c w) as Hs.
    rewrite H in Hs. exact Hs. }
  unfold store_experience, first_call_raises, first_submission. rewrite Htext.
  cbn [negb Py.truthy andb].
  destruct context as [js|]; [|apply Hplain].
  destruct (PyStr.truthy js); cbn [andb]; [|apply Hplain].
  destruct (json_loads env js) as [parsed|msg|e].
  - apply Hplain.
  - eexists _, _, _. split; reflexivity.
  - reflexivity.
Qed.

(** C9 (as amended): a [store] command with non-blank text and a level
    runs [store_experience] twice, unless the first run is left by an
    exception.  The second run always submits the text with the context
    [{"hierarchy_level": level}].  The first run submits the text with no
    context, or with the parsed [--context] when that option holds valid
    JSON; when [json.loads] raises [JSONDecodeError] on the option, the
    first run stops at the parse error and the text is submitted once
    only; when [json.loads] raises anything else, the exception leaves the
    first run, the second run is never made, nothing is submitted and the
    command ends with exit code 1. *)
Theorem store_with_level_submissions {W} (env : Env W) (text : string)
    (context : option string) (level : Z) (w : W) :
  PyStr.truthy (PyStr.strip text) = true ->
  store_submissions (transcript (main env (ArgsStore text context (Some level)) w))
  = level_submissions env text context level
  /\ (forall e,
        first_call_raises env context = Some e ->
        main env (ArgsStore text context (Some level)) w
        = (Ok 1, w, [Print (MsgUnexpectedError e)])).
Proof.
  intros Htext.
  assert (Hsecond : forall w1,
    store_experience env text (PyDict [("hierarchy_level", PyInt level)]) None w1
    = store_with_context env text (PyDict [("hierarchy_level", PyInt level)]) w1).
  { intros w1. unfold store_experience. rewrite Htext. reflexivity. }
  pose proof (first_store_run env text context w Htext) as Hfirst.
  unfold level_submissions.
  destruct (first_call_raises env context) as [e|].
  - assert (Hrun : main env (ArgsStore text context (Some level)) w
                   = (Ok 1, w, [Print (MsgUnexpectedError e)])).
    { unfold main, try_except, dispatch. rewrite (bind_raise _ _ _ _ _ _ Hfirst).
      reflexivity. }
    split; [rewrite Hrun; reflexivity|].
    intros e' [= <-]. exact Hrun.
  - split; [|discriminate].
    destruct Hfirst as (b & w1 & t1 & Hrun & Hsub).
    destruct (store_with_context_total env text
                (PyDict [("hierarchy_level", PyInt level)]) w1)
      as (b2 & w2 & t2 & Hrun2).
    pose proof (store_with_context_submissions env text
                  (PyDict [("hierarchy_level", PyInt level)]) w1) as Hsub2.
    rewrite Hrun2 in Hsub2. simpl in Hsub2.
    assert (Hdispatch : dispatch env (ArgsStore text context (Some level)) w
                        = (Ok (exit_code b2), w2, t1 ++ t2 ++ [])).
    { unfold dispatch.
      apply bind_run with (a := b) (w1 := w1); [exact Hrun|].
      apply bind_run with (a := b2) (w1 := w2); [rewrite Hsecond; exact Hrun2|].
      reflexivity. }
    unfold main, try_except. rewrite Hdispatch. unfold transcript. cbn [snd].
    rewrite app_nil_r, store_submissions_app, Hsub, Hsub2. reflexivity.
Qed.

Lemma store_with_level_submissions_witness :
  store_submissions
    (transcript (main (Demo.env []) (ArgsStore "hello" None (Some 1)) 0))
  = [("hello", PyNone); ("hello", PyDict [("hierarchy_level", PyInt 1)])]
  /\ store_submissions
       (transcript (main (Demo.env []) (ArgsStore "hello" (Some "{}") (Some 1)) 0))
     = [("hello", PyDict []); ("hello", PyDict [("hierarchy_level", PyInt 1)])]
  /\ store_submissions
       (transcript (main (Demo.env []) (ArgsStore "hello" (Some "{bad") (Some 1)) 0))
     = [("hello", PyDict [("hierarchy_level", PyInt 1)])]
  /\ main (Demo.env []) (ArgsStore "hello" (Some Demo.deep) (Some 1)) 0
     = (Ok 1, 0, [Print (MsgUnexpectedError (Exception "maximum recursion depth exceeded"))]).
Proof.
  split; [|split; [|split]].
  - apply (store_with_level_submissions (Demo.env []) "hello" None 1 0). reflexivity.
  - apply (store_with_level_submissions (Demo.env []) "hello" (Some "{}") 1 0). reflexivity.
  - apply (store_with_level_submissions (Demo.env []) "hello" (Some "{bad") 1 0).
    reflexivity.
  - apply (store_with_level_submissions (Demo.env []) "hello" (Some Demo.deep) 1 0);
      reflexivity.
Defined.

(** C9 (as stated) fails: with a [--context] that is not JSON the first
    run of [store_experience] prints the parse error and returns before
    the call, so the text reaches the cognitive system once, not twice. *)
Lemma store_with_level_single_submission :
  PyStr.truthy (PyStr.strip "hello") = true
  /\ main (Demo.env []) (ArgsStore "hello" (Some "{bad") (Some 1)) 0
     = (Ok 0, 1,
        [Print (MsgInvalidJson "Expecting property name enclosed in double quotes");
         CallStoreExperience "hello" (PyDict [("hierarchy_level", PyInt 1)]) (Ok "mem-1");
         Print (MsgStored "mem-1")])
  /\ List.length
       (store_submissions
          (transcript (main (Demo.env []) (ArgsStore "hello" (Some "{bad") (Some 1)) 0)))
     <> 2%nat.
Proof. repeat split. vm_compute. discriminate. Qed.

(** ** The stratified display *)

Lemma len_nonneg {A} (l : list A) : 0 <= len l.
Proof. unfold len. lia. Qed.

Lemma len_cons {A} (x : A) (l : list A) : len (x :: l) = 1 + len l.
Proof. unfold len. simpl List.length. lia. Qed.

Lemma len_app {A} (l1 l2 : list A) : len (l1 ++ l2) = len l1 + len l2.
Proof. unfold len. rewrite length_app. lia. Qed.

Lemma total_results_nonneg (results : RetrievalResults) : 0 <= total_results results.
Proof.
  unfold total_results. induction results as [|entry results IH]; simpl; [lia|].
  pose proof (len_nonneg (snd entry)). lia.
Qed.

Lemma total_results_app (r1 r2 : RetrievalResults) :
  total_results (r1 ++ r2) = total_results r1 + total_results r2.
Proof.
  unfold total_results. induction r1 as [|entry r1 IH]; simpl; [reflexivity|].
  rewrite IH. lia.
Qed.

Lemma total_results_holds_item pre bucket (ipre : list MemoryItem) item ipost post :
  (total_results (pre ++ (bucket, ipre ++ item :: ipost) :: post) =? 0) = false.
Proof.
  apply Z.eqb_neq. rewrite total_results_app.
  change (total_results ((bucket, ipre ++ item :: ipost) :: post))
    with (len (ipre ++ item :: ipost) + total_results post).
  rewrite len_app, len_cons.
  pose proof (total_results_nonneg pre). pose proof (total_results_nonneg post).
  pose proof (len_nonneg ipre). pose proof (len_nonneg ipost). lia.
Qed.

Lemma print_source_runs {W} (source_info : option string) (w : W) :
  exists t, print_source source_info w = (Ok tt, w, t).
Proof.
  destruct source_info as [s|]; simpl; [|eauto].
  destruct (PyStr.truthy s); simpl; eauto.
Qed.

(** A displayable item is printed without an exception. *)
Lemma display_item_runs {W} (env : Env W) bucket i item (w : W) :
  displayable bucket item = true ->
  exists t, display_item env bucket i item w = (Ok tt, w, t).
Proof.
  intros Hd. destruct item as [m|b]; simpl in *.
  - destruct (print_source_runs (format_source_info env m) w) as [t Ht].
    unfold bind, print, lift. unfold format_2f.
    destruct (relevance m); try discriminate Hd; rewrite Ht; eauto.
  - rewrite Hd.
    destruct (print_source_runs (format_source_info env (memory b)) w) as [t Ht].
    unfold bind, print. rewrite Ht. eauto.
Qed.

Lemma display_items_run {W} (env : Env W) bucket (items : list MemoryItem) i (w : W) :
  forallb (displayable bucket) items = true ->
  exists t,
    for_each (fun i item => display_item env bucket i item ;; ret (i + 1)) items i w
    = (Ok (i + len items), w, t).
Proof.
  revert i. induction items as [|item items IH]; intros i Hall; simpl.
  - exists []. unfold ret, len. simpl. repeat f_equal. lia.
  - apply andb_true_iff in Hall as [Hitem Hall].
    destruct (display_item_runs env bucket i item w Hitem) as [t1 H1].
    destruct (IH (i + 1) Hall) as [t2 H2].
    exists (t1 ++ t2).
    replace (i + len (item :: items)) with (i + 1 + len items)
      by (rewrite len_cons; lia).
    apply bind_run with (a := i + 1) (w1 := w); [|exact H2].
    rewrite <- (app_nil_r t1). apply bind_run with (a := tt) (w1 := w); [exact H1|].
    reflexivity.
Qed.

Lemma display_bucket_runs {W} (env : Env W) entry (w : W) :
  bucket_displayable entry = true ->
  exists t, display_bucket env entry w = (Ok tt, w, t).
Proof.
  destruct entry as [bucket items]. unfold bucket_displayable. simpl. intros Hall.
  destruct items as [|item items]; [eexists; reflexivity|].
  destruct (display_items_run env bucket (item :: items) 1 w Hall) as [t Ht].
  eexists. unfold display_bucket.
  erewrite bind_run; [reflexivity|reflexivity|].
  erewrite bind_run; [reflexivity|exact Ht|reflexivity].
Qed.

Lemma display_bucket_nonempty {W} (env : Env W) bucket (items : list MemoryItem) (w : W) :
  items <> [] ->
  display_bucket env (bucket, items) w
  = (print (MsgBucketHeader bucket (len items)) ;;
     _ <- for_each (fun i item => display_item env bucket i item ;; ret (i + 1)) items 1 ;;
     ret tt) w.
Proof. destruct items; [congruence|reflexivity]. Qed.

Lemma display_buckets_run {W} (env : Env W) (buckets : RetrievalResults) (w : W) :
  forallb bucket_displayable buckets = true ->
  exists t, for_each (fun _ entry => display_bucket env entry) buckets tt w = (Ok tt, w, t).
Proof.
  induction buckets as [|entry buckets IH]; intros Hall; simpl; [eexists; reflexivity|].
  apply andb_true_iff in Hall as [Hentry Hall].
  destruct (display_bucket_runs env entry w Hentry) as [t1 H1].
  destruct (IH Hall) as [t2 H2].
  eexists. erewrite bind_run; [reflexivity|exact H1|exact H2].
Qed.

(** When the cognitive system returns a result and everything in front of
    an item is displayable, what [display_item] prints for the item is part
    of what [retrieve_memories] prints. *)
Lemma display_reaches {W} (env : Env W) query types limit (w w' : W)
    pre bucket ipre item ipost post seg :
  PyStr.truthy (PyStr.strip query) = true ->
  cs_retrieve_memories (cognitive_system env) query
    (default ["core"; "peripheral"; "bridge"] types) limit w
  = (Ok (pre ++ (bucket, ipre ++ item :: ipost) :: post), w') ->
  forallb bucket_displayable pre = true ->
  forallb (displayable bucket) ipre = true ->
  occurs_in seg (transcript (display_item env bucket (len ipre + 1) item w')) ->
  occurs_in seg (transcript (retrieve_memories env query types limit true w)).
Proof.
  intros Hquery Hcall Hpre Hipre Hseg.
  unfold retrieve_memories. rewrite Hquery. simpl negb. cbv iota.
  apply occurs_in_try_except.
  eapply occurs_in_bind.
  { unfold call_retrieve_memories. rewrite Hcall. reflexivity. }
  apply occurs_in_bind_l. unfold when, display_results.
  rewrite total_results_holds_item.
  eapply occurs_in_bind; [reflexivity|].
  destruct (display_buckets_run env pre w' Hpre) as [tpre Hrun_pre].
  rewrite for_each_app.
  eapply occurs_in_bind; [exact Hrun_pre|].
  rewrite for_each_cons. apply occurs_in_bind_l.
  rewrite display_bucket_nonempty by (destruct ipre; discriminate).
  eapply occurs_in_bind; [reflexivity|].
  apply occurs_in_bind_l.
  destruct (display_items_run env bucket ipre 1 w' Hipre) as [tipre Hrun_ipre].
  rewrite for_each_app.
  eapply occurs_in_bind; [exact Hrun_ipre|].
  rewrite for_each_cons. apply occurs_in_bind_l. apply occurs_in_bind_l.
  replace (1 + len ipre) with (len ipre + 1) by lia. exact Hseg.
Qed.


(** C7: a plain (non-bridge) item that the display reaches, with a score
    that can be rendered, is shown by two lines; the score on the second is
    [metadata["similarity_score"]] when the key is there and the record's
    [strength] when it is not. *)
Theorem regular_item_relevance {W} (env : Env W) (query : string)
    (types : option (list string)) (limit : Z) (w w' : W)
    (pre post : RetrievalResults) (bucket : string) (ipre ipost : list MemoryItem)
    (m : CognitiveMemory) :
  PyStr.truthy (PyStr.strip query) = true ->
  cs_retrieve_memories (cognitive_system env) query
    (default ["core"; "peripheral"; "bridge"] types) limit w
  = (Ok (pre ++ (bucket, ipre ++ Plain m :: ipost) :: post), w') ->
  forallb bucket_displayable pre = true ->
  forallb (displayable bucket) ipre = true ->
  Py.is_number (relevance m) = true ->
  occurs_in
    [Print (MsgMemoryItem (len ipre + 1) (memory_type m) (PyStr.slice_to 100 (content m)));
     Print (MsgMemoryDetails (id m) (hierarchy_level m)
              match metadata m !! "similarity_score" with
              | Some score => score
              | None => PyFloat (strength m)
              end)]
    (transcript (retrieve_memories env query types limit true w)).
Proof.
  intros Hquery Hcall Hpre Hipre Hnum.
  eapply display_reaches; try eassumption.
  simpl display_item.
  destruct (print_source_runs (format_source_info env m) w') as [t Ht].
  unfold bind, print, lift, format_2f.
  change (match metadata m !! "similarity_score" with
          | Some score => score
          | None => PyFloat (strength m)
          end) with (relevance m).
  destruct (relevance m); try discriminate Hnum; rewrite Ht; simpl;
    exists [], t; reflexivity.
Qed.


Lemma regular_item_relevance_witness :
  occurs_in
    [Print (MsgMemoryItem 1 "episodic" "token refresh fails after logout");
     Print (MsgMemoryDetails "mem-scored" 2 (PyFloat 0.9%float))]
    (transcript (retrieve_memories (Demo.env Sample.stratified) "auth" None 10 true 0))
  /\ occurs_in
       [Print (MsgMemoryItem 2 "semantic" "authentication flow");
        Print (MsgMemoryDetails "mem-unscored" 0 (PyFloat 0.5%float))]
       (transcript (retrieve_memories (Demo.env Sample.stratified) "auth" None 10 true 0)).
Proof.
  split.
  - apply (regular_item_relevance (Demo.env Sample.stratified) "auth" None 10 0 0
             [] [("peripheral", []); ("bridge", [Bridge Sample.bridged])] "core"
             [] [Plain Sample.unscored] Sample.scored); reflexivity.
  - apply (regular_item_relevance (Demo.env Sample.stratified) "auth" None 10 0 0
             [] [("peripheral", []); ("bridge", [Bridge Sample.bridged])] "core"
             [Plain Sample.scored] [] Sample.unscored); reflexivity.
Defined.

(** ** Counting git patterns *)

Lemma mem_pattern_counts (s : string) (a b c : Z) :
  Dict.mem s (pattern_counts a b c)
  = (String.eqb s "cochange" || String.eqb s "hotspot" || String.eqb s "solution").
Proof.
  unfold Dict.mem, pattern_counts. cbn [existsb fst].
  rewrite (String.eqb_sym "cochange"), (String.eqb_sym "hotspot"),
    (String.eqb_sym "solution"), orb_false_r, orb_assoc.
  reflexivity.
Qed.

Lemma add_pattern_counts (s : string) (a b c : Z) :
  Dict.add s 1 (pattern_counts a b c)
  = pattern_counts
      (a + if String.eqb s "cochange" then 1 else 0)
      (b + if String.eqb s "hotspot" then 1 else 0)
      (c + if String.eqb s "solution" then 1 else 0).
Proof.
  unfold pattern_counts. cbn [Dict.add].
  rewrite (String.eqb_sym "cochange"), (String.eqb_sym "hotspot"),
    (String.eqb_sym "solution").
  destruct (String.eqb_spec s "cochange") as [->|Hc].
  { cbn. rewrite !Z.add_0_r. reflexivity. }
  destruct (String.eqb_spec s "hotspot") as [->|Hh].
  { cbn. rewrite !Z.add_0_r. reflexivity. }
  destruct (String.eqb s "solution"); rewrite !Z.add_0_r; reflexivity.
Qed.

Lemma count_pattern_tally (a b c : Z) (item : MemoryItem) :
  countable item = true ->
  count_pattern (pattern_counts a b c) item
  = Ok (pattern_counts
          (a + len (List.filter (is_git_pattern "cochange") [item]))
          (b + len (List.filter (is_git_pattern "hotspot") [item]))
          (c + len (List.filter (is_git_pattern "solution") [item]))).
Proof.
  unfold countable, count_pattern, is_git_pattern, has_pattern_type.
  cbn [List.filter].
  destruct (PyStr.startswith (id (actual_memory item)) "git::"); cbn [andb negb orb].
  2:{ intros _. unfold len. cbn [List.length Z.of_nat]. rewrite !Z.add_0_r. reflexivity. }
  destruct (metadata (actual_memory item) !! "pattern_type") as [v|].
  2:{ intros _. cbn. rewrite !Z.add_0_r. reflexivity. }
  destruct v as [| | | |s| |]; intros Hhash; try discriminate Hhash;
    try (cbn; rewrite !Z.add_0_r; reflexivity).
  cbv beta iota delta [default from_option Datatypes.id].
  rewrite mem_pattern_counts, add_pattern_counts.
  destruct (String.eqb s "cochange"), (String.eqb s "hotspot"), (String.eqb s "solution");
    cbn [orb]; unfold len; cbn [List.length Z.of_nat Pos.of_succ_nat];
    rewrite ?Z.add_0_r; reflexivity.
Qed.

Lemma filter_len_cons {A} (f : A -> bool) (x : A) (l : list A) :
  len (List.filter f (x :: l)) = len (List.filter f [x]) + len (List.filter f l).
Proof. simpl. destruct (f x); [rewrite !len_cons|]; unfold len; simpl; lia. Qed.

Lemma count_items_tally {W} (items : list MemoryItem) (a b c : Z) (w : W) :
  forallb countable items = true ->
  for_each (fun counts item => lift (count_pattern counts item)) items (pattern_counts a b c) w
  = (Ok (pattern_counts
           (a + len (List.filter (is_git_pattern "cochange") items))
           (b + len (List.filter (is_git_pattern "hotspot") items))
           (c + len (List.filter (is_git_pattern "solution") items))), w, []).
Proof.
  revert a b c. induction items as [|item items IH]; intros a b c Hall.
  - simpl. unfold ret, len. simpl. rewrite !Z.add_0_r. reflexivity.
  - apply andb_true_iff in Hall as [Hitem Hall].
    rewrite for_each_cons. unfold bind, lift at 1.
    rewrite (count_pattern_tally a b c item Hitem), (IH _ _ _ Hall).
    rewrite !(filter_len_cons _ item items), !Z.add_assoc. reflexivity.
Qed.

Lemma count_patterns_from {W} (results : RetrievalResults) (a b c : Z) (w : W) :
  forallb (fun entry => forallb countable (snd entry)) results = true ->
  for_each
    (fun counts entry =>
       for_each (fun counts item => lift (count_pattern counts item)) (snd entry) counts)
    results (pattern_counts a b c) w
  = (Ok (pattern_counts
           (a + len (List.filter (is_git_pattern "cochange") (concat (map snd results))))
           (b + len (List.filter (is_git_pattern "hotspot") (concat (map snd results))))
           (c + len (List.filter (is_git_pattern "solution") (concat (map snd results))))),
     w, []).
Proof.
  revert a b c. induction results as [|entry results IH]; intros a b c Hall.
  - simpl. unfold ret, len. simpl. rewrite !Z.add_0_r. reflexivity.
  - apply andb_true_iff in Hall as [Hentry Hall].
    rewrite for_each_cons. unfold bind.
    rewrite (count_items_tally (snd entry) a b c w Hentry), (IH _ _ _ Hall).
    simpl. rewrite !List.filter_app, !len_app, !Z.add_assoc. reflexivity.
Qed.

(** The tally of the code is the count of occurrences. *)
Lemma count_patterns_occurrences {W} (results : RetrievalResults) (w : W) :
  forallb (fun entry => forallb countable (snd entry)) results = true ->
  count_patterns results w
  = (Ok (pattern_counts (occurrences "cochange" results) (occurrences "hotspot" results)
           (occurrences "solution" results)), w, []).
Proof.
  intros Hall. unfold count_patterns.
  change empty_pattern_counts with (pattern_counts 0 0 0).
  rewrite (count_patterns_from results 0 0 0 w Hall). reflexivity.
Qed.

Lemma git_pattern_summary_run {W} (env : Env W) (results : RetrievalResults) (w w' : W) :
  cs_retrieve_memories (cognitive_system env) "git pattern" ["core"; "peripheral"] 1000 w
  = (Ok results, w') ->
  forallb (fun entry => forallb countable (snd entry)) results = true ->
  git_pattern_summary env w = (Ok tt, w', summary_transcript results).
Proof.
  intros Hcall Hall.
  unfold git_pattern_summary, bind, print, call_retrieve_memories.
  rewrite Hcall, (count_patterns_occurrences results w' Hall).
  reflexivity.
Qed.

(** C5 (as amended): a count request ([limit = 0]) whose first retrieval
    returned a non-empty result dict asks the cognitive system a second
    time, for ["git pattern"] in the core and peripheral buckets with
    [max_results = 1000] (a bounded query), and reports for each of
    cochange, hotspot and solution the number of returned records, bridge
    items unwrapped, whose id starts with ["git::"] and whose pattern type
    it is (0 when there is none), the pattern types being hashable. *)
Theorem count_only_pattern_query {W} (env : Env W) (query : string)
    (pattern_type : option string) (w w1 w2 : W) (found results : RetrievalResults)
    (t1 : list Event) :
  retrieve_memories env (search_query_of query pattern_type)
    (Some ["core"; "peripheral"]) 0 true w
  = (Ok (Some found), w1, t1) ->
  found <> [] ->
  cs_retrieve_memories (cognitive_system env) "git pattern" ["core"; "peripheral"] 1000 w1
  = (Ok results, w2) ->
  forallb (fun entry => forallb countable (snd entry)) results = true ->
  search_git_patterns env query pattern_type 0 w
  = (Ok true, w2, t1 ++ summary_transcript results).
Proof.
  intros Hfirst Hfound Hcall Hall.
  unfold search_git_patterns, try_except.
  change (0 * 2) with 0.
  rewrite (bind_ok _ _ _ _ _ _ Hfirst).
  assert (Htruthy : results_truthy (Some found) = true).
  { destruct found; [congruence|reflexivity]. }
  rewrite Htruthy. simpl andb. unfold when.
  rewrite (bind_ok _ _ _ _ _ _ (git_pattern_summary_run env results w1 w2 Hcall Hall)).
  unfold ret. rewrite app_nil_r. reflexivity.
Qed.

Lemma count_only_pattern_query_witness :
  reported_counts
    (transcript (search_git_patterns (Demo.env Sample.three_patterns) "" None 0 0))
  = [("Co-change patterns", 2); ("Maintenance hotspots", 1); ("Solution patterns", 0)].
Proof.
  rewrite (count_only_pattern_query (Demo.env Sample.three_patterns) "" None 0 0 0
             [("core", []); ("peripheral", [])] Sample.three_patterns
             [CallRetrieveMemories "git pattern" ["core"; "peripheral"] 0
                (Ok [("core", []); ("peripheral", [])]);
              Print MsgNoMemories]);
    [reflexivity|reflexivity|discriminate|reflexivity|reflexivity].
Defined.

(** C5 (as stated) fails: the second query is not unlimited.  Of 1001
    stored co-change patterns it returns 1000, and 1000 is the count the
    summary reports. *)
Lemma count_only_query_is_bounded :
  occurrences "cochange" Sample.many_patterns = 1001
  /\ retrieval_limits
       (transcript (search_git_patterns (Demo.env Sample.many_patterns) "" None 0 0))
     = [0; 1000]
  /\ reported_counts
       (transcript (search_git_patterns (Demo.env Sample.many_patterns) "" None 0 0))
     = [("Co-change patterns", 1000); ("Maintenance hotspots", 0); ("Solution patterns", 0)].
Proof. repeat split; vm_compute; reflexivity. Qed.

(** ** The directory loop *)

Lemma dict_add_keys (k : string) (n : Z) (d : Dict.t Z) :
  map fst (Dict.add k n d) = map fst d.
Proof.
  induction d as [|[k' v] d IH]; simpl; [reflexivity|].
  destruct (String.eqb k' k); simpl; [reflexivity|]. rewrite IH. reflexivity.
Qed.

Lemma count_level_keys (d : Dict.t Z) (m : CognitiveMemory) :
  map fst (count_level d m) = map fst d.
Proof. unfold count_level. destruct (Dict.mem _ d); [apply dict_add_keys|reflexivity]. Qed.

Lemma count_levels_keys (memories : list CognitiveMemory) (d : Dict.t Z) :
  map fst (fold_left count_level memories d) = map fst d.
Proof.
  revert d. induction memories as [|m memories IH]; intros d; simpl; [reflexivity|].
  rewrite IH. apply count_level_keys.
Qed.

Lemma accumulate_keys (results : LoadReport) (acc : Totals) :
  map fst (hierarchy_dist_combined (accumulate results acc))
  = map fst (hierarchy_dist_combined acc).
Proof.
  unfold accumulate. simpl. destruct (hierarchy_distribution results) as [dist|]; [|reflexivity].
  generalize (hierarchy_dist_combined acc) as d.
  induction dist as [|entry dist IH]; intros d; simpl; [reflexivity|].
  rewrite IH. destruct (Dict.mem (fst entry) d); [apply dict_add_keys|reflexivity].
Qed.

(** The summary loop over the three levels finds every name. *)
Lemma print_levels_run {W} (line : string -> string -> Z -> Msg) (dist : Dict.t Z) (w : W) :
  map fst dist = ["L0"; "L1"; "L2"] ->
  print_levels line dist w
  = (Ok tt, w,
     match dist with
     | [(_, a); (_, b); (_, c)] =>
         [Print (line "L0" "Concepts" a); Print (line "L1" "Contexts" b);
          Print (line "L2" "Episodes" c)]
     | _ => []
     end).
Proof.
  destruct dist as [|[k0 a] [|[k1 b] [|[k2 c] [|]]]]; try discriminate.
  simpl. intros [= -> -> ->]. reflexivity.
Qed.

Lemma directory_summary_run {W} (dry_run : bool) (totals : Totals) (w : W) :
  map fst (hierarchy_dist_combined totals) = ["L0"; "L1"; "L2"] ->
  exists t, directory_summary dry_run totals w = (Ok tt, w, t)
            /\ forallb is_report_line t = true.
Proof.
  intros Hkeys. unfold directory_summary.
  pose proof (print_levels_run (W := W) MsgLevelMemories _ w Hkeys) as Hdry.
  pose proof (print_levels_run (W := W) MsgLevelCount _ w Hkeys) as Hwet.
  destruct (hierarchy_dist_combined totals) as [|[k0 a] [|[k1 b] [|[k2 c] [|]]]];
    try discriminate Hkeys.
  destruct dry_run.
  - unfold bind, print. rewrite Hdry. eexists. split; reflexivity.
  - unfold bind, print, when. rewrite Hwet.
    destruct (0 <? total_memories_failed totals), (0 <? total_connections_failed totals);
      eexists; split; reflexivity.
Qed.

Lemma file_listing_run {W} (top : Path.t) (files : list Path.t) (w : W) :
  exists t,
    for_each (fun _ f => print (MsgFileEntry (Path.relative_to f top))) files tt w
    = (Ok tt, w, t)
    /\ forallb is_report_line t = true.
Proof.
  induction files as [|f files (t & Hrun & Hlines)].
  - exists []. split; reflexivity.
  - exists (Print (MsgFileEntry (Path.relative_to f top)) :: t).
    rewrite for_each_cons.
    rewrite (bind_run _ _ w tt w [Print (MsgFileEntry (Path.relative_to f top))]
               (Ok tt) w t); [|reflexivity|exact Hrun].
    split; [reflexivity|exact Hlines].
Qed.

(** Report lines are neither calls nor records of a failure or a skip. *)
Lemma report_lines_silent (t : list Event) :
  forallb is_report_line t = true -> silent t.
Proof.
  unfold silent, batch_view.
  induction t as [|e t IH]; simpl; [reflexivity|].
  intros H. apply andb_true_iff in H as [He Ht].
  specialize (IH Ht). injection IH as H1 H2 H3 H4 H5 H6.
  destruct e as [m| | | | | | |]; try discriminate He.
  destruct m; try discriminate He; simpl; congruence.
Qed.

Lemma batch_view_app_l (t1 t2 : list Event) :
  silent t1 -> batch_view (t1 ++ t2) = batch_view t2.
Proof.
  unfold silent, batch_view, validated, loaded. intros H.
  injection H as H1 H2 H3 H4 H5 H6.
  rewrite !flat_map_app, !List.filter_app, H1, H2, H3, H4, H5, H6. reflexivity.
Qed.

Lemma batch_view_app_r (t1 t2 : list Event) :
  silent t2 -> batch_view (t1 ++ t2) = batch_view t1.
Proof.
  unfold silent, batch_view, validated, loaded. intros H.
  injection H as H1 H2 H3 H4 H5 H6.
  rewrite !flat_map_app, !List.filter_app, H1, H2, H3, H4, H5, H6, !app_nil_r. reflexivity.
Qed.

(** One turn of the loop never raises; what it leaves behind. *)
Lemma process_file_step {W} (env : Env W) kind top dry_run kw acc file (w : W) :
  exists acc' w' t,
    process_file env kind top dry_run kw acc file w = (Ok acc', w', t)
    /\ map fst (validated t) = [Path.to_string file]
    /\ loaded t = map fst (List.filter snd (validated t))
    /\ total_success acc' = total_success acc && negb (existsb unit_failed t)
    /\ count_where is_failure_line t = count_where unit_failed t
    /\ map fst (hierarchy_dist_combined acc') = map fst (hierarchy_dist_combined acc)
    /\ (dry_run = true -> List.filter is_store_call t = []).
Proof.
  unfold process_file, bind, call_validate_source.
  destruct (validate_source (loader env kind) (Path.to_string file) w) as [valid w1].
  destruct valid; cbn [negb]; cbv beta iota.
  2:{ eexists _, _, _. split; [reflexivity|]. simpl.
      rewrite andb_true_r. repeat split; congruence. }
  destruct dry_run; cbv beta iota.
  - unfold try_except, bind, call_load_from_source, call_extract_connections, print, ret.
    destruct (load_from_source (loader env kind) (Path.to_string file) kw w1)
      as [[memories|e] w2].
    + destruct (extract_connections (loader env kind) memories w2) as [[connections|e] w3].
      * eexists _, _, _. split; [reflexivity|]. simpl.
        rewrite andb_true_r, count_levels_keys. repeat split.
      * eexists _, _, _. split; [reflexivity|]. simpl.
        rewrite andb_false_r. repeat split.
    + eexists _, _, _. split; [reflexivity|]. simpl.
      rewrite andb_false_r. repeat split.
  - unfold try_except, bind, call_load_memories_from_source, print, ret.
    destruct (cs_load_memories_from_source (cognitive_system env) kind
                (Path.to_string file) kw w1) as [[results|e] w2].
    + destruct (success results) eqn:Hsuccess.
      * eexists _, _, _. split; [reflexivity|].
        unfold count_where. simpl. rewrite Hsuccess. simpl.
        rewrite andb_true_r. repeat split; try discriminate.
        apply accumulate_keys.
      * eexists _, _, _. split; [reflexivity|].
        unfold count_where. simpl. rewrite Hsuccess. simpl.
        rewrite andb_false_r. repeat split; discriminate.
    + eexists _, _, _. split; [reflexivity|]. simpl.
      rewrite andb_false_r. repeat split; discriminate.
Qed.

Lemma validated_app (t1 t2 : list Event) : validated (t1 ++ t2) = validated t1 ++ validated t2.
Proof. apply flat_map_app. Qed.

Lemma loaded_app (t1 t2 : list Event) : loaded (t1 ++ t2) = loaded t1 ++ loaded t2.
Proof. apply flat_map_app. Qed.

Lemma count_where_app (f : Event -> bool) (t1 t2 : list Event) :
  count_where f (t1 ++ t2) = (count_where f t1 + count_where f t2)%nat.
Proof. unfold count_where. rewrite List.filter_app, length_app. reflexivity. Qed.

(** The loop runs to its end whatever the units do: every unit is
    validated, in order; every unit that passed is loaded; the flag falls
    exactly when a unit failed; each failure leaves one line. *)
Lemma process_files_run {W} (env : Env W) kind top dry_run kw files acc (w : W) :
  exists acc' w' t,
    for_each (process_file env kind top dry_run kw) files acc w = (Ok acc', w', t)
    /\ map fst (validated t) = map Path.to_string files
    /\ loaded t = map fst (List.filter snd (validated t))
    /\ total_success acc' = total_success acc && negb (existsb unit_failed t)
    /\ count_where is_failure_line t = count_where unit_failed t
    /\ map fst (hierarchy_dist_combined acc') = map fst (hierarchy_dist_combined acc)
    /\ (dry_run = true -> List.filter is_store_call t = []).
Proof.
  revert acc w. induction files as [|file files IH]; intros acc w.
  - exists acc, w, []. simpl. rewrite andb_true_r. repeat split.
  - destruct (process_file_step env kind top dry_run kw acc file w)
      as (acc1 & w1 & t1 & Hrun1 & Hv1 & Hl1 & Hs1 & Hc1 & Hk1 & Hd1).
    destruct (IH acc1 w1) as (acc2 & w2 & t2 & Hrun2 & Hv2 & Hl2 & Hs2 & Hc2 & Hk2 & Hd2).
    exists acc2, w2, (t1 ++ t2).
    split; [rewrite for_each_cons; exact (bind_run _ _ _ _ _ _ _ _ _ Hrun1 Hrun2)|].
    repeat split.
    + rewrite validated_app, List.map_app, Hv1, Hv2. reflexivity.
    + rewrite validated_app, loaded_app, List.filter_app, List.map_app, Hl1, Hl2.
      reflexivity.
    + rewrite existsb_app, Hs2, Hs1, negb_orb, andb_assoc. reflexivity.
    + rewrite !count_where_app, Hc1, Hc2. reflexivity.
    + rewrite Hk2, Hk1. reflexivity.
    + intros Hdry. rewrite List.filter_app, (Hd1 Hdry), (Hd2 Hdry). reflexivity.
Qed.

(** When no unit passes validation the loop only skips. *)
Lemma process_files_all_invalid {W} (env : Env W) kind top dry_run kw files acc (w : W) :
  (forall p w', In p files ->
     fst (validate_source (loader env kind) (Path.to_string p) w') = false) ->
  exists w',
    for_each (process_file env kind top dry_run kw) files acc w
    = (Ok acc, w', skip_transcript kind top files).
Proof.
  revert w. induction files as [|file files IH]; intros w Hinvalid.
  - exists w. reflexivity.
  - assert (Hstep : exists w1,
      process_file env kind top dry_run kw acc file w
      = (Ok acc, w1, [CallValidateSource kind (Path.to_string file) false;
                      Print (MsgSkipInvalid (Path.relative_to file top))])).
    { unfold process_file, bind, call_validate_source.
      pose proof (Hinvalid file w (or_introl eq_refl)) as Hfile.
      destruct (validate_source (loader env kind) (Path.to_string file) w) as [valid w1].
      simpl in Hfile. subst valid. exists w1. reflexivity. }
    destruct Hstep as (w1 & Hstep).
    destruct (IH w1) as (w2 & Hrest).
    { intros p w' Hp. apply Hinvalid. right. exact Hp. }
    exists w2. rewrite for_each_cons.
    exact (bind_run _ _ _ _ _ _ _ _ _ Hstep Hrest).
Qed.

(** ** The directory branch *)

Lemma sorted_insert_perm (x : Path.t) (l : list Path.t) :
  Permutation (Path.insert x l) (x :: l).
Proof.
  induction l as [|y l IH]; simpl; [reflexivity|].
  destruct (Path.ltb y x); [|reflexivity].
  rewrite IH. apply perm_swap.
Qed.

(** [sorted] rearranges: the units are the files found, each once. *)
Lemma sorted_perm (l : list Path.t) : Permutation (Path.sorted l) l.
Proof.
  induction l as [|x l IH]; simpl; [reflexivity|].
  rewrite sorted_insert_perm. apply perm_skip. exact IH.
Qed.

Lemma load_memories_scan {W} (env : Env W) source_path loader_type kind dry_run kw (w : W)
    r w' t :
  loader_kind loader_type = Some kind ->
  is_directory_scan env kind source_path w = true ->
  load_directory env kind source_path dry_run kw w = (Ok r, w', t) ->
  load_memories env source_path loader_type dry_run true kw w = (Ok r, w', t).
Proof.
  intros Hkind Hscan Hrun. unfold load_memories. rewrite Hkind.
  unfold try_except. cbv beta. rewrite Hscan. cbn [negb]. cbv beta iota.
  rewrite Hrun. reflexivity.
Qed.

Lemma load_directory_empty {W} (env : Env W) kind source_path dry_run kw (w w1 : W)
    extensions :
  get_supported_extensions (loader env kind) w = (extensions, w1) ->
  units_of env source_path extensions w1 = [] ->
  load_directory env kind source_path dry_run kw w
  = (Ok false, w1,
     [CallGetSupportedExtensions kind extensions; Print (MsgNoFilesFound source_path)]).
Proof.
  intros Hext Hnone. unfold load_directory, bind, call_get_supported_extensions.
  rewrite Hext.
  assert (Hfiles : find_files (Path.of_string source_path) extensions
                     (walk (file_system env) w1 source_path) = []).
  { unfold units_of in Hnone.
    destruct (find_files _ _ _) as [|f files]; [reflexivity|].
    pose proof (sorted_perm (f :: files)) as Hperm. rewrite Hnone in Hperm.
    apply Permutation_nil in Hperm. discriminate Hperm. }
  rewrite Hfiles. reflexivity.
Qed.

Lemma when_listing_run {W} (dry_run : bool) (top : Path.t) (files : list Path.t) (w : W) :
  exists t,
    when (negb dry_run)
      (print MsgFilesToProcess ;;
       for_each (fun _ f => print (MsgFileEntry (Path.relative_to f top))) files tt) w
    = (Ok tt, w, t)
    /\ forallb is_report_line t = true.
Proof.
  destruct dry_run; simpl.
  - exists []. split; reflexivity.
  - destruct (file_listing_run top files w) as (t & Hrun & Hlines).
    exists (Print MsgFilesToProcess :: t). split; [|exact Hlines].
    change (Print MsgFilesToProcess :: t) with ([Print MsgFilesToProcess] ++ t).
    apply bind_run with (a := tt) (w1 := w); [reflexivity|exact Hrun].
Qed.

(** With units to process, the directory branch is the loop between two
    runs of report lines, and returns the flag the loop ends with. *)
Lemma load_directory_run {W} (env : Env W) kind source_path dry_run kw (w w1 w' : W)
    extensions acc' tloop :
  get_supported_extensions (loader env kind) w = (extensions, w1) ->
  units_of env source_path extensions w1 <> [] ->
  for_each (process_file env kind (Path.of_string source_path) dry_run kw)
    (units_of env source_path extensions w1) initial_totals w1
  = (Ok acc', w', tloop) ->
  map fst (hierarchy_dist_combined acc') = ["L0"; "L1"; "L2"] ->
  exists t,
    load_directory env kind source_path dry_run kw w = (Ok (total_success acc'), w', t)
    /\ batch_view t = batch_view tloop.
Proof.
  intros Hext Hsome Hloop Hkeys.
  unfold units_of in *.
  destruct (find_files (Path.of_string source_path) extensions
              (walk (file_system env) w1 source_path)) as [|f files] eqn:Hfiles;
    [contradiction Hsome; reflexivity|].
  destruct (when_listing_run dry_run (Path.of_string source_path)
              (Path.sorted (f :: files)) w1) as (tlist & Hlist & Hlist_lines).
  destruct (directory_summary_run dry_run acc' w' Hkeys) as (tsum & Hsum & Hsum_lines).
  exists ([CallGetSupportedExtensions kind extensions]
          ++ [] ++ [Print (MsgFoundFiles (len (f :: files)) source_path)]
          ++ tlist ++ tloop ++ tsum ++ []).
  split.
  - unfold load_directory.
    apply bind_run with (a := extensions) (w1 := w1).
    { unfold call_get_supported_extensions. rewrite Hext. reflexivity. }
    apply bind_run with (a := walk (file_system env) w1 source_path) (w1 := w1);
      [reflexivity|].
    cbv zeta. rewrite Hfiles.
    apply bind_run with (a := tt) (w1 := w1); [reflexivity|].
    apply bind_run with (a := tt) (w1 := w1); [exact Hlist|].
    apply bind_run with (a := acc') (w1 := w'); [exact Hloop|].
    apply bind_run with (a := tt) (w1 := w'); [exact Hsum|].
    reflexivity.
  - rewrite batch_view_app_l by reflexivity.
    rewrite batch_view_app_l by reflexivity.
    rewrite batch_view_app_l by reflexivity.
    rewrite batch_view_app_l by (apply report_lines_silent; exact Hlist_lines).
    rewrite batch_view_app_r; [reflexivity|].
    rewrite app_nil_r. apply report_lines_silent. exact Hsum_lines.
Qed.

(** ** Dry runs *)

Section StoreFree.

Context {W : Type} (env : Env W) (record_count : W -> Z).
Hypothesis Hframe : loaders_preserve env record_count.

Lemma store_free_ret {A} (a : A) : store_free record_count (ret a).
Proof. intros w. split; reflexivity. Qed.

Lemma store_free_raise {A} (e : Exn) : store_free record_count (raise (A := A) e).
Proof. intros w. split; reflexivity. Qed.

Lemma store_free_lift {A} (r : Result A) : store_free record_count (lift r).
Proof. intros w. split; reflexivity. Qed.

Lemma store_free_print (m : Msg) : store_free record_count (print m).
Proof. intros w. split; reflexivity. Qed.

Lemma store_free_bind {A B} (m : M W A) (k : A -> M W B) :
  store_free record_count m -> (forall a, store_free record_count (k a)) ->
  store_free record_count (bind m k).
Proof.
  intros Hm Hk w. destruct (Hm w) as [Ht Hw]. unfold bind.
  destruct (m w) as [[[a|e] w1] t1]; unfold transcript, final_world in *; simpl in *.
  - destruct (Hk a w1) as [Ht2 Hw2].
    destruct (k a w1) as [[r w2] t2]; unfold transcript, final_world in *; simpl in *.
    rewrite List.filter_app, Ht, Ht2. split; [reflexivity|congruence].
  - split; assumption.
Qed.

Lemma store_free_try_except {A} (m : M W A) (h : Exn -> M W A) :
  store_free record_count m -> (forall e, store_free record_count (h e)) ->
  store_free record_count (try_except m h).
Proof.
  intros Hm Hh w. destruct (Hm w) as [Ht Hw]. unfold try_except.
  destruct (m w) as [[[a|e] w1] t1]; unfold transcript, final_world in *; simpl in *.
  - split; assumption.
  - destruct (Hh e w1) as [Ht2 Hw2].
    destruct (h e w1) as [[r w2] t2]; unfold transcript, final_world in *; simpl in *.
    rewrite List.filter_app, Ht, Ht2. split; [reflexivity|congruence].
Qed.

Lemma store_free_when (c : bool) (m : M W unit) :
  store_free record_count m -> store_free record_count (when c m).
Proof. intros Hm. destruct c; [exact Hm|apply store_free_ret]. Qed.

Lemma store_free_for_each {A S} (body : S -> A -> M W S) (l : list A) (s : S) :
  (forall s x, store_free record_count (body s x)) ->
  store_free record_count (for_each body l s).
Proof.
  intros Hbody. revert s. induction l as [|x l IH]; intros s; simpl.
  - apply store_free_ret.
  - apply store_free_bind; [apply Hbody|exact IH].
Qed.

Lemma store_free_get_supported_extensions kind :
  store_free record_count (call_get_supported_extensions env kind).
Proof.
  intros w. destruct (Hframe kind w) as (H & _).
  unfold call_get_supported_extensions.
  destruct (get_supported_extensions (loader env kind) w) as [r w1].
  split; [reflexivity|exact H].
Qed.

Lemma store_free_validate_source kind path :
  store_free record_count (call_validate_source env kind path).
Proof.
  intros w. destruct (Hframe kind w) as (_ & H & _). specialize (H path).
  unfold call_validate_source.
  destruct (validate_source (loader env kind) path w) as [r w1].
  split; [reflexivity|exact H].
Qed.

Lemma store_free_load_from_source kind path kw :
  store_free record_count (call_load_from_source env kind path kw).
Proof.
  intros w. destruct (Hframe kind w) as (_ & _ & H & _). specialize (H path kw).
  unfold call_load_from_source.
  destruct (load_from_source (loader env kind) path kw w) as [r w1].
  split; [reflexivity|exact H].
Qed.

Lemma store_free_extract_connections kind memories :
  store_free record_count (call_extract_connections env kind memories).
Proof.
  intros w. destruct (Hframe kind w) as (_ & _ & _ & H). specialize (H memories).
  unfold call_extract_connections.
  destruct (extract_connections (loader env kind) memories w) as [r w1].
  split; [reflexivity|exact H].
Qed.

Lemma store_free_print_levels line dist : store_free record_count (print_levels line dist).
Proof.
  apply store_free_for_each. intros _ entry.
  apply store_free_bind; [apply store_free_lift|intros name; apply store_free_print].
Qed.

Ltac store_free_step :=
  first
    [ apply store_free_ret | apply store_free_print | apply store_free_lift
    | apply store_free_raise | apply store_free_print_levels
    | apply store_free_get_supported_extensions | apply store_free_validate_source
    | apply store_free_load_from_source | apply store_free_extract_connections
    | apply store_free_when
    | apply store_free_try_except; [|intros ?]
    | apply store_free_bind; [|intros ?]
    | apply store_free_for_each; intros ? ? ].

Lemma store_free_process_file kind top kw acc file :
  store_free record_count (process_file env kind top true kw acc file).
Proof.
  unfold process_file. store_free_step; [store_free_step|].
  destruct (negb a); repeat store_free_step.
Qed.

Lemma store_free_load_directory kind source_path kw :
  store_free record_count (load_directory env kind source_path true kw).
Proof.
  unfold load_directory. store_free_step; [store_free_step|].
  store_free_step; [intros w; split; reflexivity|]. cbv zeta.
  destruct (find_files _ _ _); [repeat store_free_step|].
  store_free_step; [store_free_step|].
  store_free_step; [apply store_free_ret|].
  store_free_step; [apply store_free_for_each; intros; apply store_free_process_file|].
  unfold directory_summary. repeat store_free_step.
Qed.

Lemma store_free_load_single kind source_path kw :
  store_free record_count (load_single env kind source_path true kw).
Proof.
  unfold load_single. store_free_step; [store_free_step|].
  destruct (negb a); repeat store_free_step.
Qed.

Lemma store_free_load_memories source_path loader_type recursive kw :
  store_free record_count (load_memories env source_path loader_type true recursive kw).
Proof.
  unfold load_memories. destruct (loader_kind loader_type) as [kind|];
    [|repeat store_free_step].
  store_free_step; [|repeat store_free_step].
  intros w. destruct (is_directory_scan env kind source_path w).
  - destruct recursive; cbn [negb].
    + apply store_free_load_directory.
    + assert (H : store_free record_count
                    (print (W := W) (MsgIsDirectory source_path) ;; ret false))
        by repeat store_free_step.
      apply H.
  - apply store_free_load_single.
Qed.

End StoreFree.

Lemma calls_without_store (t : list Event) :
  List.filter is_store_call t = [] -> calls t = List.filter is_loader_call t.
Proof.
  unfold calls. induction t as [|e t IH]; simpl; [reflexivity|].
  destruct e; simpl; intros H; try discriminate H; rewrite (IH H); reflexivity.
Qed.

(** C2: a dry run of [load_memories], whatever the source and the loader
    kind, with or without [recursive], never calls the cognitive system:
    [load_memories_from_source] is not invoked, nor any other of its
    operations; the calls it makes are the loader's.  The loader's
    operations leaving the store's record count alone, the count after the
    run is the count before. *)
Theorem dry_run_purity {W} (env : Env W) (record_count : W -> Z)
    (source_path loader_type : string) (recursive : bool) (kw : Kwargs) (w : W) :
  loaders_preserve env record_count ->
  List.filter is_store_call
    (transcript (load_memories env source_path loader_type true recursive kw w)) = []
  /\ calls (transcript (load_memories env source_path loader_type true recursive kw w))
     = List.filter is_loader_call
         (transcript (load_memories env source_path loader_type true recursive kw w))
  /\ record_count (final_world (load_memories env source_path loader_type true recursive kw w))
     = record_count w.
Proof.
  intros Hframe.
  destruct (store_free_load_memories env record_count Hframe source_path loader_type
              recursive kw w) as [Hcalls Hcount].
  split; [exact Hcalls|]. split; [|exact Hcount].
  apply calls_without_store. exact Hcalls.
Qed.

Lemma demo_loaders_preserve (stored : RetrievalResults) :
  loaders_preserve (Demo.env stored) (fun w => w).
Proof.
  intros kind w. repeat split; intros; destruct kind; simpl;
    try reflexivity; destruct (PyStr.endswith _ _); reflexivity.
Qed.

Lemma dry_run_purity_witness :
  List.filter is_store_call
    (transcript (load_memories (Demo.env []) "docs" "markdown" true true [] 7)) = []
  /\ final_world (load_memories (Demo.env []) "docs" "markdown" true true [] 7) = 7
  /\ calls (transcript (load_memories (Demo.env []) "docs/a.md" "markdown" true false [] 7))
     = [CallValidateSource Markdown "docs/a.md" true;
        CallLoadFromSource Markdown "docs/a.md" []
          (Ok [Demo.record "doc::1" "none"; Demo.record "doc::2" "none"]);
        CallExtractConnections Markdown
          [Demo.record "doc::1" "none"; Demo.record "doc::2" "none"] (Ok [])].
Proof.
  pose proof (dry_run_purity (Demo.env []) (fun w => w) "docs" "markdown" true [] 7
                (demo_loaders_preserve [])) as (H1 & _ & H3).
  split; [exact H1|]. split; [exact H3|]. reflexivity.
Defined.

(** ** Failure isolation *)

Lemma existsb_count_where (f : Event -> bool) (t : list Event) :
  existsb f t = negb (Nat.eqb (count_where f t) 0).
Proof.
  unfold count_where. induction t as [|e t IH]; simpl; [reflexivity|].
  destruct (f e); simpl; [reflexivity|exact IH].
Qed.

(** The whole run of a recursive directory scan that found units, read
    through the loop. *)
Lemma directory_scan_run {W} (env : Env W) source_path loader_type kind dry_run kw
    (w w1 : W) extensions :
  loader_kind loader_type = Some kind ->
  is_directory_scan env kind source_path w = true ->
  get_supported_extensions (loader env kind) w = (extensions, w1) ->
  units_of env source_path extensions w1 <> [] ->
  exists w' t,
    load_memories env source_path loader_type dry_run true kw w
    = (Ok (negb (existsb unit_failed t)), w', t)
    /\ map fst (validated t) = map Path.to_string (units_of env source_path extensions w1)
    /\ loaded t = map fst (List.filter snd (validated t))
    /\ count_where is_failure_line t = count_where unit_failed t.
Proof.
  intros Hkind Hscan Hext Hsome.
  destruct (process_files_run env kind (Path.of_string source_path) dry_run kw
              (units_of env source_path extensions w1) initial_totals w1)
    as (acc' & w' & tloop & Hloop & Hvalidated & Hloaded & Hflag & Hlines & Hkeys & _).
  destruct (load_directory_run env kind source_path dry_run kw w w1 w' extensions acc' tloop
              Hext Hsome Hloop Hkeys) as (t & Hrun & Hview).
  unfold batch_view in Hview. injection Hview as Hv Hl Hu Hf _ _.
  exists w', t. unfold count_where. rewrite Hv, Hl, Hf, Hu.
  repeat split; try assumption.
  apply (load_memories_scan env source_path loader_type kind dry_run kw w _ w' t Hkind Hscan).
  rewrite Hrun. repeat f_equal.
  rewrite Hflag. simpl.
  rewrite !existsb_count_where. unfold count_where. rewrite Hu. reflexivity.
Qed.

(** C1: in a directory ingestion (recursive, dry run or not) where exactly
    one unit's load or store raises or returns an unsuccessful report, the
    loop is not cut short: every unit is validated, in sorted order, every
    unit that passed validation has its load started (the other N-1 units
    as well as the failing one), exactly one failure line is printed, and
    the overall result is [False]. *)
Theorem failure_isolation {W} (env : Env W) (source_path loader_type : string)
    (kind : LoaderKind) (dry_run : bool) (kw : Kwargs) (w w1 : W)
    (extensions : list string) :
  loader_kind loader_type = Some kind ->
  is_directory_scan env kind source_path w = true ->
  get_supported_extensions (loader env kind) w = (extensions, w1) ->
  count_where unit_failed
    (transcript (load_memories env source_path loader_type dry_run true kw w)) = 1%nat ->
  outcome (load_memories env source_path loader_type dry_run true kw w) = Ok false
  /\ map fst (validated (transcript (load_memories env source_path loader_type dry_run true kw w)))
     = map Path.to_string (units_of env source_path extensions w1)
  /\ loaded (transcript (load_memories env source_path loader_type dry_run true kw w))
     = map fst
         (List.filter snd
            (validated (transcript (load_memories env source_path loader_type dry_run true kw w))))
  /\ count_where is_failure_line
       (transcript (load_memories env source_path loader_type dry_run true kw w)) = 1%nat.
Proof.
  intros Hkind Hscan Hext Hone.
  destruct (units_of env source_path extensions w1) as [|u units] eqn:Hunits.
  - rewrite (load_memories_scan env source_path loader_type kind dry_run kw w _ _ _ Hkind Hscan
               (load_directory_empty env kind source_path dry_run kw w w1 extensions Hext Hunits))
      in Hone.
    discriminate Hone.
  - destruct (directory_scan_run env source_path loader_type kind dry_run kw w w1 extensions
                Hkind Hscan Hext) as (w' & t & Hrun & Hvalidated & Hloaded & Hlines).
    { rewrite Hunits. discriminate. }
    rewrite Hrun in *. unfold transcript, outcome in *. simpl in *.
    rewrite Hunits in Hvalidated.
    rewrite existsb_count_where, Hone, Hlines.
    repeat split; assumption.
Qed.

Lemma failure_isolation_witness :
  count_where unit_failed
    (transcript (load_memories (Demo.env []) "docs" "markdown" false true [] 0)) = 1%nat
  /\ outcome (load_memories (Demo.env []) "docs" "markdown" false true [] 0) = Ok false
  /\ map fst (validated
                (transcript (load_memories (Demo.env []) "docs" "markdown" false true [] 0)))
     = ["docs/a.md"; "docs/bad.md"; "docs/c.md"]
  /\ loaded (transcript (load_memories (Demo.env []) "docs" "markdown" false true [] 0))
     = ["docs/a.md"; "docs/bad.md"; "docs/c.md"]
  /\ count_where is_failure_line
       (transcript (load_memories (Demo.env []) "docs" "markdown" false true [] 0)) = 1%nat.
Proof.
  split; [reflexivity|].
  pose proof (failure_isolation (Demo.env []) "docs" "markdown" Markdown false [] 0 0
                [".md"; ".markdown"] eq_refl eq_refl eq_refl eq_refl) as (H1 & H2 & H3 & H4).
  split; [exact H1|]. split; [exact H2|]. split; [|exact H4].
  rewrite H3. reflexivity.
Defined.

(** ** No matching file, no valid file *)

Lemma find_files_none (top : Path.t) (extensions : list string)
    (walked : list (Path.t * list string)) :
  (forall root files file,
     In (root, files) walked -> In file files ->
     existsb (PyStr.endswith file) extensions = false) ->
  find_files top extensions walked = [].
Proof.
  intros Hnone. unfold find_files.
  induction walked as [|[root files] walked IH]; simpl; [reflexivity|].
  rewrite IH by (intros r fs f Hin; apply (Hnone r fs f); right; exact Hin).
  rewrite app_nil_r.
  assert (Hfiles : forall file, In file files ->
                     existsb (PyStr.endswith file) extensions = false)
    by (intros file; apply (Hnone root files file); left; reflexivity).
  clear -Hfiles. induction files as [|file files IH]; simpl; [reflexivity|].
  rewrite (Hfiles file (or_introl eq_refl)).
  apply IH. intros f Hf. apply Hfiles. right. exact Hf.
Qed.

Lemma find_files_some (top : Path.t) (extensions : list string)
    (walked : list (Path.t * list string)) root files file :
  In (root, files) walked -> In file files ->
  existsb (PyStr.endswith file) extensions = true ->
  find_files top extensions walked <> [].
Proof.
  intros Hentry Hfile Hmatch Hnil.
  assert (Hin : In (Path.join (top ++ root) file) (find_files top extensions walked)).
  { unfold find_files. apply in_flat_map. exists (root, files). split; [exact Hentry|].
    simpl. apply in_map. apply filter_In. split; assumption. }
  rewrite Hnil in Hin. exact Hin.
Qed.

Lemma units_of_nil {W} (env : Env W) source_path extensions (w : W) :
  units_of env source_path extensions w = []
  <-> find_files (Path.of_string source_path) extensions
        (walk (file_system env) w source_path) = [].
Proof.
  unfold units_of. split; intros H.
  - pose proof (sorted_perm (find_files (Path.of_string source_path) extensions
                               (walk (file_system env) w source_path))) as Hperm.
    rewrite H in Hperm. apply Permutation_nil in Hperm. exact Hperm.
  - rewrite H. reflexivity.
Qed.

Lemma skip_transcript_view (kind : LoaderKind) (top : Path.t) (units : list Path.t) :
  batch_view (skip_transcript kind top units)
  = (map (fun p => (Path.to_string p, false)) units, [], [], [],
     map (fun p => Print (MsgSkipInvalid (Path.relative_to p top))) units, []).
Proof.
  unfold batch_view. induction units as [|p units IH]; simpl; [reflexivity|].
  injection IH as H1 H2 H3 H4 H5 H6.
  unfold skip_transcript in *. rewrite H1, H2, H3, H4, H5, H6. reflexivity.
Qed.

(** C4: in a recursive directory ingestion, (1) when no enumerated file
    name ends with a supported extension, [load_memories] returns [False]
    after asking the loader for its extensions only: no unit is validated
    or loaded; (2) when some file matched and every unit then fails
    [validate_source], each unit leaves one skip line, no load is started,
    no failure is recorded, and the result is [True]. *)
Theorem zero_match_and_all_invalid {W} (env : Env W) (source_path loader_type : string)
    (kind : LoaderKind) (dry_run : bool) (kw : Kwargs) (w w1 : W)
    (extensions : list string) :
  loader_kind loader_type = Some kind ->
  is_directory_scan env kind source_path w = true ->
  get_supported_extensions (loader env kind) w = (extensions, w1) ->
  ((forall root files file,
      In (root, files) (walk (file_system env) w1 source_path) -> In file files ->
      existsb (PyStr.endswith file) extensions = false) ->
   load_memories env source_path loader_type dry_run true kw w
   = (Ok false, w1,
      [CallGetSupportedExtensions kind extensions; Print (MsgNoFilesFound source_path)]))
  /\ ((exists root files file,
         In (root, files) (walk (file_system env) w1 source_path) /\ In file files
         /\ existsb (PyStr.endswith file) extensions = true) ->
      (forall p w',
         In p (units_of env source_path extensions w1) ->
         fst (validate_source (loader env kind) (Path.to_string p) w') = false) ->
      outcome (load_memories env source_path loader_type dry_run true kw w) = Ok true
      /\ batch_view (transcript (load_memories env source_path loader_type dry_run true kw w))
         = (map (fun p => (Path.to_string p, false)) (units_of env source_path extensions w1),
            [], [], [],
            map (fun p => Print (MsgSkipInvalid
                                   (Path.relative_to p (Path.of_string source_path))))
              (units_of env source_path extensions w1),
            [])).
Proof.
  intros Hkind Hscan Hext. split.
  - intros Hnone.
    apply (load_memories_scan env source_path loader_type kind dry_run kw w _ _ _ Hkind Hscan).
    apply load_directory_empty; [exact Hext|].
    apply units_of_nil. apply find_files_none. exact Hnone.
  - intros (root & files & file & Hentry & Hfile & Hmatch) Hinvalid.
    assert (Hsome : units_of env source_path extensions w1 <> []).
    { intros Hnil. apply units_of_nil in Hnil.
      exact (find_files_some _ _ _ root files file Hentry Hfile Hmatch Hnil). }
    destruct (process_files_all_invalid env kind (Path.of_string source_path) dry_run kw
                (units_of env source_path extensions w1) initial_totals w1 Hinvalid)
      as (w' & Hloop).
    destruct (load_directory_run env kind source_path dry_run kw w w1 w' extensions
                initial_totals _ Hext Hsome Hloop eq_refl) as (t & Hrun & Hview).
    rewrite (load_memories_scan env source_path loader_type kind dry_run kw w _ _ _
               Hkind Hscan Hrun).
    unfold outcome, transcript. simpl.
    rewrite Hview, skip_transcript_view. split; reflexivity.
Qed.

Lemma zero_match_and_all_invalid_witness :
  load_memories (Demo.env []) "docs" "git" false true [] 0
  = (Ok false, 0, [CallGetSupportedExtensions Git []; Print (MsgNoFilesFound "docs")])
  /\ outcome (load_memories Demo.rejecting_env "docs" "markdown" false true [] 0) = Ok true.
Proof.
  split.
  - apply (zero_match_and_all_invalid (Demo.env []) "docs" "git" Git false [] 0 0 []
             eq_refl eq_refl eq_refl).
    reflexivity.
  - apply (zero_match_and_all_invalid Demo.rejecting_env "docs" "markdown" Markdown false []
             0 0 [".md"] eq_refl eq_refl eq_refl).
    + exists [], ["c.md"; "bad.md"; "a.md"; "notes.txt"], "a.md".
      repeat split; [left; reflexivity|right; right; left; reflexivity].
    + reflexivity.
Defined.

(** * Further properties of the CLI *)

(** ** No exception escapes *)

Lemma returns_try_except {W A} (m : M W A) (h : Exn -> M W A) :
  (forall e, returns (h e)) -> returns (try_except m h).
Proof.
  intros Hh w. unfold try_except.
  destruct (m w) as [[[a|e] w1] t1]; [eauto|].
  destruct (Hh e w1) as (a & w2 & t2 & H). rewrite H. eauto.
Qed.

Lemma returns_bind {W A B} (m : M W A) (k : A -> M W B) :
  returns m -> (forall a, returns (k a)) -> returns (bind m k).
Proof.
  intros Hm Hk w. destruct (Hm w) as (a & w1 & t1 & H1).
  destruct (Hk a w1) as (b & w2 & t2 & H2).
  exists b, w2, (t1 ++ t2). exact (bind_run _ _ _ _ _ _ _ _ _ H1 H2).
Qed.

Lemma returns_ret {W A} (a : A) : returns (W := W) (ret a).
Proof. intros w. unfold ret. eauto. Qed.

Lemma returns_print {W} (m : Msg) : returns (W := W) (print m).
Proof. intros w. unfold print. eauto. Qed.

Lemma returns_when {W} (c : bool) (m : M W unit) : returns m -> returns (when c m).
Proof. intros Hm. destruct c; [exact Hm|apply returns_ret]. Qed.

Lemma returns_store_with_context {W} (env : Env W) text context :
  returns (store_with_context env text context).
Proof. intros w. apply store_with_context_total. Qed.

(** [store_experience] is left by an exception in one case only. *)
Lemma store_experience_escaping {W} (env : Env W) text context context_json :
  match escaping env text context context_json with
  | Some e => forall w, store_experience env text context context_json w = (Raise e, w, [])
  | None => returns (store_experience env text context context_json)
  end.
Proof.
  unfold escaping, store_experience.
  destruct (PyStr.truthy (PyStr.strip text)); cbn [negb].
  2:{ apply returns_bind; [apply returns_print|intros _; apply returns_ret]. }
  destruct context_json as [js|]; [|apply returns_store_with_context].
  destruct (PyStr.truthy js && negb (Py.truthy context));
    [|apply returns_store_with_context].
  destruct (json_loads env js) as [parsed|msg|e].
  - apply returns_store_with_context.
  - apply returns_bind; [apply returns_print|intros _; apply returns_ret].
  - reflexivity.
Qed.

Lemma returns_store_experience {W} (env : Env W) text context :
  returns (store_experience env text context None).
Proof.
  pose proof (store_experience_escaping env text context None) as H.
  unfold escaping in H. destruct (PyStr.truthy (PyStr.strip text)); exact H.
Qed.

Lemma returns_retrieve_memories {W} (env : Env W) query types limit display :
  returns (retrieve_memories env query types limit display).
Proof.
  unfold retrieve_memories.
  destruct (negb (PyStr.truthy (PyStr.strip query))).
  { apply returns_bind; [apply returns_when, returns_print|intros _; apply returns_ret]. }
  apply returns_try_except. intros e.
  apply returns_bind; [apply returns_when, returns_print|intros _; apply returns_ret].
Qed.

Lemma returns_load_memories {W} (env : Env W) source_path loader_type dry_run recursive kw :
  returns (load_memories env source_path loader_type dry_run recursive kw).
Proof.
  unfold load_memories. destruct (loader_kind loader_type).
  - apply returns_try_except. intros e.
    apply returns_bind; [apply returns_print|intros _; apply returns_ret].
  - apply returns_bind; [apply returns_print|intros _].
    apply returns_bind; [apply returns_print|intros _; apply returns_ret].
Qed.

Lemma returns_search_git_patterns {W} (env : Env W) query pattern_type limit :
  returns (search_git_patterns env query pattern_type limit).
Proof.
  unfold search_git_patterns. apply returns_try_except. intros e.
  apply returns_bind; [apply returns_print|intros _; apply returns_ret].
Qed.

(** X1: whatever the collaborators raise, [retrieve_memories],
    [load_memories] and [search_git_patterns] hand back their result:
    every exception is caught inside and none escapes to the caller.
    [store_experience] is left by an exception in one case only: when it
    parses the JSON string and [json.loads] raises something other than
    [JSONDecodeError]; then nothing was printed or called.  In every other
    case it hands back its result. *)
Theorem only_a_parse_exception_escapes {W} (env : Env W) :
  (forall text context context_json,
     match escaping env text context context_json with
     | Some e => forall w, store_experience env text context context_json w = (Raise e, w, [])
     | None => returns (store_experience env text context context_json)
     end)
  /\ (forall query types limit display, returns (retrieve_memories env query types limit display))
  /\ (forall source_path loader_type dry_run recursive kw,
        returns (load_memories env source_path loader_type dry_run recursive kw))
  /\ (forall query pattern_type limit, returns (search_git_patterns env query pattern_type limit)).
Proof.
  repeat split; intros.
  - apply store_experience_escaping.
  - apply returns_retrieve_memories.
  - apply returns_load_memories.
  - apply returns_search_git_patterns.
Qed.

Lemma exit_code_bind {W} (m : M W bool) (w w1 : W) (code : Z) (t1 : list Event) :
  bind m (fun success => ret (exit_code success)) w = (Ok code, w1, t1) ->
  code = 0 \/ code = 1.
Proof.
  unfold bind, ret. destruct (m w) as [[[b|e] w2] t2]; [|discriminate].
  intros [= <- _ _]. destruct b; [left|right]; reflexivity.
Qed.

(** The dispatch either ends with exit code 0 or 1 or is left by an
    exception. *)
Lemma dispatch_code {W} (env : Env W) (args : Args) (w w1 : W) (code : Z)
    (t1 : list Event) :
  dispatch env args w = (Ok code, w1, t1) -> code = 0 \/ code = 1.
Proof.
  destruct args as [text context level|query types limit
                   |source_path loader_type dry_run chunk_size recursive
                   |repo_path time_window dry_run refresh|query type limit];
    cbn [dispatch]; try apply exit_code_bind.
  - unfold bind at 1.
    destruct (store_experience env text PyNone context w) as [[[b|e] w2] t2];
      [|discriminate].
    match goal with
    | |- context [bind ?m ?k w2] => destruct (bind m k w2) as [[r w3] t3] eqn:Hrest
    end.
    intros [= -> _ _]. exact (exit_code_bind _ _ _ _ _ Hrest).
  - unfold bind, ret.
    destruct (retrieve_memories env query types limit true w) as [[[r|e] w2] t2];
      [|discriminate].
    intros [= <- _ _]. destruct (results_truthy r); [left|right]; reflexivity.
Qed.

(** X2: for each of the commands store, retrieve, load, git-load and
    git-patterns, the dispatch of [main] under its clause [except
    Exception] ends with exit code 0 or 1, whatever the collaborators and
    [json.loads] do (system start-up, shutdown and an interrupt from the
    keyboard, which are not part of the dispatch, apart). *)
Theorem main_exit_code {W} (env : Env W) (args : Args) (w : W) :
  outcome (main env args w) = Ok 0 \/ outcome (main env args w) = Ok 1.
Proof.
  unfold main, try_except.
  destruct (dispatch env args w) as [[[code|e] w1] t1] eqn:Hdispatch.
  - destruct (dispatch_code env args w w1 code t1 Hdispatch) as [-> | ->];
      [left|right]; reflexivity.
  - right. reflexivity.
Qed.

(** ** What a computation never emits *)

Section Avoids.

Context {W : Type} (p : Event -> bool).
Hypothesis Hprint : forall m, p (Print m) = false.

Lemma avoids_ret {A} (a : A) : avoids (W := W) p (ret a).
Proof. intros w. reflexivity. Qed.

Lemma avoids_raise {A} (e : Exn) : avoids (W := W) p (raise (A := A) e).
Proof. intros w. reflexivity. Qed.

Lemma avoids_lift {A} (r : Result A) : avoids (W := W) p (lift r).
Proof. intros w. reflexivity. Qed.

Lemma avoids_print (m : Msg) : avoids (W := W) p (print m).
Proof. intros w. unfold print, transcript. simpl. rewrite Hprint. reflexivity. Qed.

Lemma avoids_bind {A B} (m : M W A) (k : A -> M W B) :
  avoids p m -> (forall a, avoids p (k a)) -> avoids p (bind m k).
Proof.
  intros Hm Hk w. specialize (Hm w). unfold bind.
  destruct (m w) as [[[a|e] w1] t1]; unfold transcript in *; simpl in *; [|exact Hm].
  specialize (Hk a w1). destruct (k a w1) as [[r w2] t2]. simpl in *.
  rewrite List.filter_app, Hm, Hk. reflexivity.
Qed.

Lemma avoids_try_except {A} (m : M W A) (h : Exn -> M W A) :
  avoids p m -> (forall e, avoids p (h e)) -> avoids p (try_except m h).
Proof.
  intros Hm Hh w. specialize (Hm w). unfold try_except.
  destruct (m w) as [[[a|e] w1] t1]; unfold transcript in *; simpl in *; [exact Hm|].
  specialize (Hh e w1). destruct (h e w1) as [[r w2] t2]. simpl in *.
  rewrite List.filter_app, Hm, Hh. reflexivity.
Qed.

Lemma avoids_when (c : bool) (m : M W unit) : avoids p m -> avoids p (when c m).
Proof. intros Hm. destruct c; [exact Hm|apply avoids_ret]. Qed.

Lemma avoids_for_each {A S} (body : S -> A -> M W S) (l : list A) (s : S) :
  (forall s x, avoids p (body s x)) -> avoids p (for_each body l s).
Proof.
  intros Hbody. revert s. induction l as [|x l IH]; intros s; simpl.
  - apply avoids_ret.
  - apply avoids_bind; [apply Hbody|exact IH].
Qed.

Lemma avoids_print_source (source_info : option string) :
  avoids (W := W) p (print_source source_info).
Proof.
  destruct source_info as [s|]; simpl; [|apply avoids_ret].
  apply avoids_when, avoids_print.
Qed.

Lemma avoids_print_levels line dist : avoids (W := W) p (print_levels line dist).
Proof.
  apply avoids_for_each. intros _ entry.
  apply avoids_bind; [apply avoids_lift|intros name; apply avoids_print].
Qed.

End Avoids.

Ltac avoids_step :=
  first
    [ apply avoids_ret | apply avoids_print; assumption | apply avoids_lift
    | apply avoids_raise | apply avoids_print_source; assumption
    | apply avoids_print_levels; assumption
    | apply avoids_when
    | apply avoids_try_except; [|intros ?]
    | apply avoids_bind; [|intros ?]
    | apply avoids_for_each; intros ? ? ].

(** The display prints only. *)
Lemma avoids_display_results {W} (env : Env W) (p : Event -> bool) query results :
  (forall m, p (Print m) = false) ->
  avoids p (display_results env query results).
Proof.
  intros Hprint. unfold display_results.
  destruct (total_results results =? 0); [avoids_step|].
  avoids_step; [avoids_step|].
  apply avoids_for_each. intros _ [bucket items]. unfold display_bucket.
  destruct items as [|item items]; [avoids_step|].
  avoids_step; [avoids_step|]. avoids_step; [|avoids_step].
  apply avoids_for_each. intros i it.
  avoids_step; [|avoids_step].
  destruct it as [m|b]; simpl.
  - repeat avoids_step.
  - destruct (String.eqb bucket "bridge"); repeat avoids_step.
Qed.

(** ** store_experience *)

Lemma store_with_context_run {W} (env : Env W) text context (w : W) :
  store_with_context env text context w
  = match cs_store_experience (cognitive_system env) text context w with
    | (Ok memory_id, w1) =>
        (Ok (PyStr.truthy memory_id), w1,
         [CallStoreExperience text context (Ok memory_id);
          Print (if PyStr.truthy memory_id then MsgStored memory_id else MsgStoreFailed)])
    | (Raise e, w1) =>
        (Ok false, w1, [CallStoreExperience text context (Raise e); Print (MsgStoreError e)])
    end.
Proof.
  unfold store_with_context, try_except, bind, call_store_experience.
  destruct (cs_store_experience (cognitive_system env) text context w) as [[memory_id|e] w1].
  - destruct (PyStr.truthy memory_id); reflexivity.
  - reflexivity.
Qed.

Lemma store_with_context_success {W} (env : Env W) text context (w : W) :
  outcome (store_with_context env text context w) = Ok true
  <-> exists c memory_id,
        In (CallStoreExperience text c (Ok memory_id))
          (transcript (store_with_context env text context w))
        /\ PyStr.truthy memory_id = true.
Proof.
  rewrite store_with_context_run.
  destruct (cs_store_experience (cognitive_system env) text context w) as [[memory_id|e] w1];
    unfold outcome, transcript; simpl.
  - split.
    + intros [= H]. exists context, memory_id. split; [left; reflexivity|exact H].
    + intros (c & mid & [Hin|[Hin|[]]] & Hmid).
      * injection Hin as _ <-. rewrite Hmid. reflexivity.
      * destruct (PyStr.truthy memory_id); discriminate Hin.
  - split; [discriminate|].
    intros (c & mid & [Hin|[Hin|[]]] & _); discriminate Hin.
Qed.

(** X3: [store_experience] returns [True] exactly when the cognitive
    system was called with the text and handed back a non-empty memory id:
    success is never reported for a blank text, a context that does not
    parse, a call that raised, or an empty id. *)
Theorem store_success_means_stored {W} (env : Env W) (text : string) (context : PyVal)
    (context_json : option string) (w : W) :
  outcome (store_experience env text context context_json w) = Ok true
  <-> exists c memory_id,
        In (CallStoreExperience text c (Ok memory_id))
          (transcript (store_experience env text context context_json w))
        /\ PyStr.truthy memory_id = true.
Proof.
  assert (Hprint : forall m : Msg,
            (outcome (W := W) (bind (print m) (fun _ => ret false) w) = Ok true
             <-> exists c memory_id,
                   In (CallStoreExperience text c (Ok memory_id))
                     (transcript (bind (print m) (fun _ => ret false) w))
                   /\ PyStr.truthy memory_id = true)).
  { intros m. unfold outcome, transcript. simpl. split; [discriminate|].
    intros (c & mid & [Hin|[]] & _). discriminate Hin. }
  unfold store_experience.
  destruct (negb (PyStr.truthy (PyStr.strip text))); [apply Hprint|].
  destruct context_json as [js|]; [|apply store_with_context_success].
  destruct (PyStr.truthy js && negb (Py.truthy context));
    [|apply store_with_context_success].
  destruct (json_loads env js) as [parsed|msg|e];
    [apply store_with_context_success|apply Hprint|].
  unfold outcome, transcript, raise. simpl. split; [discriminate|].
  intros (c & mid & [] & _).
Qed.

(** X4: a given context wins over [context_json]: with a non-blank text
    and a context that is true (a non-empty dict), [context_json] is not
    even parsed, so the run is the one without it whatever the string
    holds. *)
Theorem explicit_context_wins {W} (env : Env W) (text : string) (context : PyVal)
    (context_json : option string) (w : W) :
  Py.truthy context = true ->
  store_experience env text context context_json w
  = store_experience env text context None w.
Proof.
  intros Hcontext. unfold store_experience.
  destruct (negb (PyStr.truthy (PyStr.strip text))); [reflexivity|].
  destruct context_json as [js|]; [|reflexivity].
  rewrite Hcontext, andb_false_r. reflexivity.
Qed.

Lemma explicit_context_wins_witness :
  store_experience (Demo.env []) "hello" (PyDict [("source", PyStr "cli")]) (Some "{bad") 0
  = (Ok true, 1,
     [CallStoreExperience "hello" (PyDict [("source", PyStr "cli")]) (Ok "mem-1");
      Print (MsgStored "mem-1")]).
Proof.
  rewrite (explicit_context_wins (Demo.env []) "hello" (PyDict [("source", PyStr "cli")])
             (Some "{bad") 0 eq_refl).
  reflexivity.
Defined.

(** X5: when [json.loads] raises [JSONDecodeError] on the [--context] of a
    store command, a level hides it: the error is printed, yet the command
    ends with exit code 0 once the second call stores the text, the exit
    code being the one of the second call alone; without a level the same
    context ends the command with exit code 1 and nothing is stored.  When
    [json.loads] raises anything else on the [--context], the command ends
    with exit code 1 with or without a level: the exception leaves the
    first call, no JSON error is printed, no second call is made and
    nothing is stored. *)
Theorem level_masks_context_error {W} (env : Env W) (text js : string) (w : W) :
  PyStr.truthy (PyStr.strip text) = true ->
  PyStr.truthy js = true ->
  (forall msg memory_id level w',
     json_loads env js = JSONDecodeError msg ->
     cs_store_experience (cognitive_system env) text
       (PyDict [("hierarchy_level", PyInt level)]) w
     = (Ok memory_id, w') ->
     PyStr.truthy memory_id = true ->
     main env (ArgsStore text (Some js) (Some level)) w
     = (Ok 0, w',
        [Print (MsgInvalidJson msg);
         CallStoreExperience text (PyDict [("hierarchy_level", PyInt level)]) (Ok memory_id);
         Print (MsgStored memory_id)])
     /\ main env (ArgsStore text (Some js) None) w = (Ok 1, w, [Print (MsgInvalidJson msg)]))
  /\ (forall e level,
        json_loads env js = JsonRaises e ->
        main env (ArgsStore text (Some js) level) w
        = (Ok 1, w, [Print (MsgUnexpectedError e)])).
Proof.
  intros Htext Hjs. split.
  - intros msg memory_id level w' Hloads Hcall Hid.
    assert (Hfirst : store_experience env text PyNone (Some js) w
                     = (Ok false, w, [Print (MsgInvalidJson msg)])).
    { unfold store_experience. rewrite Htext, Hjs, Hloads. reflexivity. }
    assert (Hsecond : store_experience env text
                        (PyDict [("hierarchy_level", PyInt level)]) None w
                      = (Ok true, w',
                         [CallStoreExperience text
                            (PyDict [("hierarchy_level", PyInt level)]) (Ok memory_id);
                          Print (MsgStored memory_id)])).
    { unfold store_experience. rewrite Htext. cbn [negb]. cbv beta iota.
      rewrite store_with_context_run, Hcall, Hid. reflexivity. }
    split.
    + unfold main, try_except, dispatch.
      rewrite (bind_ok _ _ _ _ _ _ Hfirst), (bind_ok _ _ _ _ _ _ Hsecond). reflexivity.
    + unfold main, try_except, dispatch. rewrite (bind_ok _ _ _ _ _ _ Hfirst). reflexivity.
  - intros e level Hloads.
    assert (Hfirst : store_experience env text PyNone (Some js) w = (Raise e, w, [])).
    { unfold store_experience. rewrite Htext, Hjs, Hloads. reflexivity. }
    unfold main, try_except, dispatch. rewrite (bind_raise _ _ _ _ _ _ Hfirst). reflexivity.
Qed.

Lemma level_masks_context_error_witness :
  main (Demo.env []) (ArgsStore "hello" (Some "{bad") (Some 1)) 0
  = (Ok 0, 1,
     [Print (MsgInvalidJson "Expecting property name enclosed in double quotes");
      CallStoreExperience "hello" (PyDict [("hierarchy_level", PyInt 1)]) (Ok "mem-1");
      Print (MsgStored "mem-1")])
  /\ main (Demo.env []) (ArgsStore "hello" (Some "{bad") None) 0
     = (Ok 1, 0, [Print (MsgInvalidJson "Expecting property name enclosed in double quotes")])
  /\ main (Demo.env []) (ArgsStore "hello" (Some Demo.deep) (Some 1)) 0
     = (Ok 1, 0, [Print (MsgUnexpectedError (Exception "maximum recursion depth exceeded"))]).
Proof.
  destruct (level_masks_context_error (Demo.env []) "hello" "{bad" 0 eq_refl eq_refl)
    as [Hdecode _].
  destruct (level_masks_context_error (Demo.env []) "hello" Demo.deep 0 eq_refl eq_refl)
    as [_ Hraise].
  destruct (Hdecode "Expecting property name enclosed in double quotes" "mem-1" 1 1
              eq_refl eq_refl eq_refl) as [Hlevel Hplain].
  split; [exact Hlevel|split; [exact Hplain|]].
  exact (Hraise (Exception "maximum recursion depth exceeded") (Some 1) eq_refl).
Defined.

(** ** retrieve_memories *)

Lemma is_call_print (m : Msg) : is_call (Print m) = false.
Proof. reflexivity. Qed.

(** The run of [retrieve_memories] on a non-blank query, by what the
    cognitive system and the display do. *)
Lemma retrieve_memories_run {W} (env : Env W) query types limit display (w : W) :
  PyStr.truthy (PyStr.strip query) = true ->
  retrieve_memories env query types limit display w
  = match cs_retrieve_memories (cognitive_system env) query
            (default ["core"; "peripheral"; "bridge"] types) limit w with
    | (Ok results, w1) =>
        match when display (display_results env query results) w1 with
        | (Ok _, w2, t2) =>
            (Ok (Some results), w2,
             CallRetrieveMemories query (default ["core"; "peripheral"; "bridge"] types)
               limit (Ok results) :: t2)
        | (Raise e, w2, t2) =>
            (Ok None, w2,
             CallRetrieveMemories query (default ["core"; "peripheral"; "bridge"] types)
               limit (Ok results)
             :: t2 ++ (if display then [Print (MsgRetrieveError e)] else []))
        end
    | (Raise e, w1) =>
        (Ok None, w1,
         CallRetrieveMemories query (default ["core"; "peripheral"; "bridge"] types)
           limit (Raise e)
         :: (if display then [Print (MsgRetrieveError e)] else []))
    end.
Proof.
  intros Hquery. unfold retrieve_memories. rewrite Hquery. cbn [negb]. cbv beta iota.
  unfold try_except, bind at 1, call_retrieve_memories.
  destruct (cs_retrieve_memories (cognitive_system env) query
              (default ["core"; "peripheral"; "bridge"] types) limit w) as [[results|e] w1].
  - unfold bind.
    destruct (when display (display_results env query results) w1) as [[[u|e] w2] t2].
    + unfold ret. simpl. rewrite app_nil_r. reflexivity.
    + destruct display; simpl; rewrite ?app_nil_r; reflexivity.
  - destruct display; reflexivity.
Qed.

(** X6: for a non-blank query [retrieve_memories] calls the cognitive
    system once, with the query as given (not stripped), the types as
    given or the three buckets by default, and the limit; when it returns
    a result, with or without display, it is the dict the cognitive system
    returned, untouched. *)
Theorem retrieval_returns_collaborator_result {W} (env : Env W) (query : string)
    (types : option (list string)) (limit : Z) (display : bool) (w : W) :
  PyStr.truthy (PyStr.strip query) = true ->
  calls (transcript (retrieve_memories env query types limit display w))
  = [CallRetrieveMemories query (default ["core"; "peripheral"; "bridge"] types) limit
       (fst (cs_retrieve_memories (cognitive_system env) query
               (default ["core"; "peripheral"; "bridge"] types) limit w))]
  /\ (forall results,
        outcome (retrieve_memories env query types limit display w) = Ok (Some results) ->
        fst (cs_retrieve_memories (cognitive_system env) query
               (default ["core"; "peripheral"; "bridge"] types) limit w) = Ok results).
Proof.
  intros Hquery.
  rewrite (retrieve_memories_run env query types limit display w Hquery).
  destruct (cs_retrieve_memories (cognitive_system env) query
              (default ["core"; "peripheral"; "bridge"] types) limit w) as [[results|e] w1].
  - pose proof (avoids_when is_call display (display_results env query results)
                  (avoids_display_results env is_call query results is_call_print) w1)
      as Hquiet.
    cbn [fst].
    destruct (when display (display_results env query results) w1) as [[[u|e] w2] t2];
      unfold transcript in Hquiet; simpl in Hquiet;
      unfold calls, outcome, transcript; simpl.
    + rewrite Hquiet. split; [reflexivity|]. intros r Hr. congruence.
    + rewrite List.filter_app, Hquiet. destruct display; simpl;
        (split; [reflexivity|discriminate]).
  - unfold calls, outcome, transcript. destruct display; simpl;
      (split; [reflexivity|discriminate]).
Qed.

Lemma retrieval_returns_collaborator_result_witness :
  calls (transcript (retrieve_memories (Demo.env Sample.stratified) " auth " None 10 true 0))
  = [CallRetrieveMemories " auth " ["core"; "peripheral"; "bridge"] 10
       (Ok Sample.stratified)].
Proof.
  apply (retrieval_returns_collaborator_result (Demo.env Sample.stratified) " auth " None 10
           true 0 eq_refl).
Defined.

Lemma raises_bind_l {W A B} (m : M W A) (k : A -> M W B) (w : W) :
  raises m w -> raises (bind m k) w.
Proof. intros (e & w1 & t1 & H). unfold raises. rewrite (bind_raise _ _ _ _ _ _ H). eauto. Qed.

Lemma raises_bind_r {W A B} (m : M W A) (k : A -> M W B) (w w1 : W) a t1 :
  m w = (Ok a, w1, t1) -> raises (k a) w1 -> raises (bind m k) w.
Proof.
  intros Hm (e & w2 & t2 & Hk). unfold raises.
  rewrite (bind_run _ _ _ _ _ _ _ _ _ Hm Hk). eauto.
Qed.

(** The display stops at an item that is not displayable. *)
Lemma display_item_raises {W} (env : Env W) bucket i item (w : W) :
  displayable bucket item = false -> raises (display_item env bucket i item) w.
Proof.
  intros Hd. destruct item as [m|b]; simpl in *.
  - unfold raises, bind, print, lift, format_2f.
    destruct (relevance m); try discriminate Hd; eauto.
  - rewrite Hd. unfold raises, raise. eauto.
Qed.

Lemma display_results_raises {W} (env : Env W) query (w : W)
    pre bucket ipre item ipost post :
  forallb bucket_displayable pre = true ->
  forallb (displayable bucket) ipre = true ->
  displayable bucket item = false ->
  raises (display_results env query (pre ++ (bucket, ipre ++ item :: ipost) :: post)) w.
Proof.
  intros Hpre Hipre Hitem. unfold display_results.
  rewrite total_results_holds_item.
  eapply raises_bind_r; [reflexivity|].
  destruct (display_buckets_run env pre w Hpre) as [tpre Hrun_pre].
  unfold raises. rewrite for_each_app. fold (raises
    (bind (for_each (fun _ entry => display_bucket env entry) pre tt)
       (for_each (fun _ entry => display_bucket env entry)
          ((bucket, ipre ++ item :: ipost) :: post))) w).
  eapply raises_bind_r; [exact Hrun_pre|].
  unfold raises. rewrite for_each_cons.
  apply raises_bind_l.
  unfold raises. rewrite display_bucket_nonempty by (destruct ipre; discriminate).
  eapply raises_bind_r; [reflexivity|].
  apply raises_bind_l.
  destruct (display_items_run env bucket ipre 1 w Hipre) as [tipre Hrun_ipre].
  unfold raises. rewrite for_each_app.
  eapply raises_bind_r; [exact Hrun_ipre|].
  unfold raises. rewrite for_each_cons.
  apply raises_bind_l. apply raises_bind_l.
  apply display_item_raises. exact Hitem.
Qed.

(** X7: when the result holds an item the display cannot print (a bridge
    item outside the ["bridge"] bucket, or a plain record whose relevance
    is not a number), a retrieval with display ends with [None] although
    the cognitive system answered; the same retrieval without display
    returns the result. *)
Theorem display_failure_hides_results {W} (env : Env W) (query : string)
    (types : option (list string)) (limit : Z) (w w' : W)
    (pre post : RetrievalResults) (bucket : string) (ipre ipost : list MemoryItem)
    (item : MemoryItem) :
  PyStr.truthy (PyStr.strip query) = true ->
  cs_retrieve_memories (cognitive_system env) query
    (default ["core"; "peripheral"; "bridge"] types) limit w
  = (Ok (pre ++ (bucket, ipre ++ item :: ipost) :: post), w') ->
  forallb bucket_displayable pre = true ->
  forallb (displayable bucket) ipre = true ->
  displayable bucket item = false ->
  outcome (retrieve_memories env query types limit true w) = Ok None
  /\ outcome (retrieve_memories env query types limit false w)
     = Ok (Some (pre ++ (bucket, ipre ++ item :: ipost) :: post)).
Proof.
  intros Hquery Hcall Hpre Hipre Hitem.
  rewrite !(retrieve_memories_run env query types limit _ w Hquery), Hcall.
  split; [|reflexivity].
  destruct (display_results_raises env query w' pre bucket ipre item ipost post
              Hpre Hipre Hitem) as (e & w2 & t2 & Hraise).
  unfold when. rewrite Hraise. reflexivity.
Qed.

Lemma display_failure_hides_results_witness :
  outcome (retrieve_memories
             (Demo.env [("core", [Plain Sample.scored; Bridge Sample.bridged])])
             "auth" None 10 true 0) = Ok None
  /\ outcome (retrieve_memories
                (Demo.env [("core", [Plain Sample.scored; Bridge Sample.bridged])])
                "auth" None 10 false 0)
     = Ok (Some [("core", [Plain Sample.scored; Bridge Sample.bridged])]).
Proof.
  apply (display_failure_hides_results
           (Demo.env [("core", [Plain Sample.scored; Bridge Sample.bridged])])
           "auth" None 10 0 0 [] [] "core" [Plain Sample.scored] [] (Bridge Sample.bridged));
    reflexivity.
Defined.

Lemma shown_ids_app (t1 t2 : list Event) : shown_ids (t1 ++ t2) = shown_ids t1 ++ shown_ids t2.
Proof. apply flat_map_app. Qed.

Lemma print_source_shown {W} (source_info : option string) (w : W) :
  exists t, print_source source_info w = (Ok tt, w, t) /\ shown_ids t = [].
Proof.
  destruct source_info as [s|]; simpl; [|exists []; split; reflexivity].
  destruct (PyStr.truthy s); simpl; eexists; split; reflexivity.
Qed.

Lemma display_item_shown {W} (env : Env W) bucket i item (w : W) :
  displayable bucket item = true ->
  exists t, display_item env bucket i item w = (Ok tt, w, t)
            /\ shown_ids t = [id (actual_memory item)].
Proof.
  intros Hd. destruct item as [m|b]; simpl in *.
  - destruct (print_source_shown (format_source_info env m) w) as (t & Ht & Hids).
    unfold bind, print, lift. unfold format_2f.
    destruct (relevance m); try discriminate Hd; rewrite Ht; eexists;
      (split; [reflexivity|]); simpl; rewrite Hids; reflexivity.
  - rewrite Hd.
    destruct (print_source_shown (format_source_info env (memory b)) w) as (t & Ht & Hids).
    unfold bind, print. rewrite Ht. eexists. split; [reflexivity|].
    simpl. rewrite Hids. reflexivity.
Qed.

Lemma display_items_shown {W} (env : Env W) bucket (items : list MemoryItem) i (w : W) :
  forallb (displayable bucket) items = true ->
  exists j t,
    for_each (fun i item => display_item env bucket i item ;; ret (i + 1)) items i w
    = (Ok j, w, t)
    /\ shown_ids t = map (fun item => id (actual_memory item)) items.
Proof.
  revert i. induction items as [|item items IH]; intros i Hall.
  - exists i, []. split; reflexivity.
  - apply andb_true_iff in Hall as [Hitem Hall].
    destruct (display_item_shown env bucket i item w Hitem) as (t1 & H1 & Hids1).
    destruct (IH (i + 1) Hall) as (j & t2 & H2 & Hids2).
    exists j, (t1 ++ t2). split.
    + rewrite for_each_cons. apply bind_run with (a := i + 1) (w1 := w); [|exact H2].
      rewrite <- (app_nil_r t1). apply bind_run with (a := tt) (w1 := w); [exact H1|].
      reflexivity.
    + rewrite shown_ids_app, Hids1, Hids2. reflexivity.
Qed.

Lemma display_bucket_shown {W} (env : Env W) entry (w : W) :
  bucket_displayable entry = true ->
  exists t, display_bucket env entry w = (Ok tt, w, t)
            /\ shown_ids t = map (fun item => id (actual_memory item)) (snd entry).
Proof.
  destruct entry as [bucket items]. unfold bucket_displayable. simpl. intros Hall.
  destruct items as [|item items]; [exists []; split; reflexivity|].
  destruct (display_items_shown env bucket (item :: items) 1 w Hall) as (j & t & Ht & Hids).
  exists ([Print (MsgBucketHeader bucket (len (item :: items)))] ++ t ++ []).
  split.
  - unfold display_bucket.
    apply bind_run with (a := tt) (w1 := w); [reflexivity|].
    apply bind_run with (a := j) (w1 := w); [exact Ht|reflexivity].
  - rewrite app_nil_r, shown_ids_app, Hids. reflexivity.
Qed.

Lemma display_buckets_shown {W} (env : Env W) (buckets : RetrievalResults) (w : W) :
  forallb bucket_displayable buckets = true ->
  exists t, for_each (fun _ entry => display_bucket env entry) buckets tt w = (Ok tt, w, t)
            /\ shown_ids t = map (fun item => id (actual_memory item)) (all_items buckets).
Proof.
  induction buckets as [|entry buckets IH]; intros Hall.
  - exists []. split; reflexivity.
  - apply andb_true_iff in Hall as [Hentry Hall].
    destruct (display_bucket_shown env entry w Hentry) as (t1 & H1 & Hids1).
    destruct (IH Hall) as (t2 & H2 & Hids2).
    exists (t1 ++ t2). split.
    + rewrite for_each_cons. exact (bind_run _ _ _ _ _ _ _ _ _ H1 H2).
    + rewrite shown_ids_app, Hids1, Hids2. unfold all_items. simpl.
      rewrite List.map_app. reflexivity.
Qed.

Lemma no_results_no_items (results : RetrievalResults) :
  total_results results = 0 -> all_items results = [].
Proof.
  unfold all_items. induction results as [|[bucket items] results IH]; [reflexivity|].
  change (total_results ((bucket, items) :: results))
    with (len items + total_results results).
  intros Hzero. pose proof (total_results_nonneg results) as Hrest.
  destruct items as [|item items].
  - simpl. apply IH. unfold len in Hzero. simpl in Hzero. lia.
  - rewrite len_cons in Hzero. pose proof (len_nonneg items). lia.
Qed.

(** X8: the display keeps the order of the cognitive system: when every
    item of the result can be printed, the ids on the detail lines are the
    ids of the items, bucket after bucket and item after item as they were
    returned (bridge items by the id of the wrapped record), and the
    result is returned unchanged. *)
Theorem display_keeps_order {W} (env : Env W) (query : string)
    (types : option (list string)) (limit : Z) (w w' : W) (results : RetrievalResults) :
  PyStr.truthy (PyStr.strip query) = true ->
  cs_retrieve_memories (cognitive_system env) query
    (default ["core"; "peripheral"; "bridge"] types) limit w
  = (Ok results, w') ->
  forallb bucket_displayable results = true ->
  outcome (retrieve_memories env query types limit true w) = Ok (Some results)
  /\ shown_ids (transcript (retrieve_memories env query types limit true w))
     = map (fun item => id (actual_memory item)) (all_items results).
Proof.
  intros Hquery Hcall Hall.
  rewrite (retrieve_memories_run env query types limit true w Hquery), Hcall.
  unfold when, display_results.
  destruct (total_results results =? 0) eqn:Htotal.
  - apply Z.eqb_eq in Htotal. rewrite (no_results_no_items results Htotal).
    split; reflexivity.
  - destruct (display_buckets_shown env results w' Hall) as (t & Ht & Hids).
    assert (Hdisplay :
      (print (MsgRetrieved (total_results results) query) ;;
       for_each (fun _ entry => display_bucket env entry) results tt) w'
      = (Ok tt, w', [Print (MsgRetrieved (total_results results) query)] ++ t))
      by (apply bind_run with (a := tt) (w1 := w'); [reflexivity|exact Ht]).
    rewrite Hdisplay. split; [reflexivity|].
    unfold transcript. simpl. exact Hids.
Qed.

Lemma display_keeps_order_witness :
  shown_ids
    (transcript (retrieve_memories (Demo.env Sample.stratified) "auth" None 10 true 0))
  = ["mem-scored"; "mem-unscored"; "mem-unscored"].
Proof.
  apply (display_keeps_order (Demo.env Sample.stratified) "auth" None 10 0 0
           Sample.stratified eq_refl eq_refl eq_refl).
Defined.

(** ** search_git_patterns *)

(** X9: with a limit other than 0, [search_git_patterns] is one retrieval
    and nothing more: the query is rewritten by [search_query_of], the
    buckets are core and peripheral, the limit is doubled; what is shown is
    what that retrieval shows (no record is filtered out for not being a
    git pattern, no second query is made), and the result is the truth
    value of what it returned. *)
Theorem pattern_search_is_retrieval {W} (env : Env W) (query : string)
    (pattern_type : option string) (limit : Z) (w : W) :
  limit <> 0 ->
  transcript (search_git_patterns env query pattern_type limit w)
  = transcript (retrieve_memories env (search_query_of query pattern_type)
                  (Some ["core"; "peripheral"]) (limit * 2) true w)
  /\ final_world (search_git_patterns env query pattern_type limit w)
     = final_world (retrieve_memories env (search_query_of query pattern_type)
                      (Some ["core"; "peripheral"]) (limit * 2) true w)
  /\ (forall found,
        outcome (retrieve_memories env (search_query_of query pattern_type)
                   (Some ["core"; "peripheral"]) (limit * 2) true w) = Ok found ->
        outcome (search_git_patterns env query pattern_type limit w)
        = Ok (results_truthy found)).
Proof.
  intros Hlimit. apply Z.eqb_neq in Hlimit.
  destruct (returns_retrieve_memories env (search_query_of query pattern_type)
              (Some ["core"; "peripheral"]) (limit * 2) true w) as (found & w1 & t1 & Hrun).
  unfold search_git_patterns, try_except.
  rewrite (bind_ok _ _ _ _ _ _ Hrun), Hrun, Hlimit. simpl.
  rewrite app_nil_r. repeat split. intros f [= <-]. reflexivity.
Qed.

Lemma pattern_search_is_retrieval_witness :
  transcript (search_git_patterns (Demo.env Sample.three_patterns) "auth" (Some "hotspot") 5 0)
  = transcript (retrieve_memories (Demo.env Sample.three_patterns) "hotspot git pattern auth"
                  (Some ["core"; "peripheral"]) 10 true 0).
Proof.
  apply (pattern_search_is_retrieval (Demo.env Sample.three_patterns) "auth" (Some "hotspot")
           5 0).
  discriminate.
Defined.

(** ** load_memories and load_git_patterns *)

(** X10: a recursive directory ingestion that found units returns [True]
    exactly when no unit's load or store failed: skipped units, failed
    memories or connections counted inside a successful report, and level
    keys the combined distribution does not know leave the result [True]. *)
Theorem directory_result {W} (env : Env W) (source_path loader_type : string)
    (kind : LoaderKind) (dry_run : bool) (kw : Kwargs) (w w1 : W)
    (extensions : list string) :
  loader_kind loader_type = Some kind ->
  is_directory_scan env kind source_path w = true ->
  get_supported_extensions (loader env kind) w = (extensions, w1) ->
  units_of env source_path extensions w1 <> [] ->
  outcome (load_memories env source_path loader_type dry_run true kw w)
  = Ok (Nat.eqb
          (count_where unit_failed
             (transcript (load_memories env source_path loader_type dry_run true kw w)))
          0).
Proof.
  intros Hkind Hscan Hext Hsome.
  destruct (directory_scan_run env source_path loader_type kind dry_run kw w w1 extensions
              Hkind Hscan Hext Hsome) as (w' & t & Hrun & _).
  rewrite Hrun. unfold outcome, transcript. simpl.
  rewrite existsb_count_where, negb_involutive. reflexivity.
Qed.

Lemma directory_result_witness :
  outcome (load_memories Demo.rejecting_env "docs" "markdown" false true [] 0) = Ok true
  /\ outcome (load_memories (Demo.env []) "docs" "markdown" false true [] 0) = Ok false.
Proof.
  split.
  - apply (directory_result Demo.rejecting_env "docs" "markdown" Markdown false [] 0 0
             [".md"] eq_refl eq_refl eq_refl).
    discriminate.
  - apply (directory_result (Demo.env []) "docs" "markdown" Markdown false [] 0 0
             [".md"; ".markdown"] eq_refl eq_refl eq_refl).
    discriminate.
Defined.

(** X11: [load_git_patterns] never asks for a recursive scan, so a
    directory that holds no [.git] entry is refused at once, dry run or
    not: the usage line is printed, the result is [False], no loader is
    called and the world is untouched; [main] ends the git-load command
    with exit code 1. *)
Theorem git_load_needs_repository {W} (env : Env W) (repo_path time_window : string)
    (dry_run refresh : bool) (kw : Kwargs) (w : W) :
  is_dir (file_system env) w repo_path = true ->
  dot_git_exists (file_system env) w repo_path = false ->
  load_git_patterns env repo_path dry_run refresh kw w
  = (Ok false, w, [Print (MsgIsDirectory repo_path)])
  /\ main env (ArgsGitLoad repo_path time_window dry_run refresh) w
     = (Ok 1, w, [Print (MsgIsDirectory repo_path)]).
Proof.
  intros Hdir Hgit.
  assert (Hload : forall kwargs,
            load_memories env repo_path "git" dry_run false kwargs w
            = (Ok false, w, [Print (MsgIsDirectory repo_path)])).
  { intros kwargs. unfold load_memories.
    change (loader_kind "git") with (Some Git). cbv beta iota.
    unfold try_except. cbv beta. unfold is_directory_scan.
    rewrite Hdir, Hgit. reflexivity. }
  split; [apply Hload|].
  unfold main, try_except, dispatch, load_git_patterns.
  rewrite (bind_ok _ _ _ _ _ _ (Hload _)). reflexivity.
Qed.

Lemma git_load_needs_repository_witness :
  main (Demo.env []) (ArgsGitLoad "docs" "3m" false true) 0
  = (Ok 1, 0, [Print (MsgIsDirectory "docs")]).
Proof.
  apply (git_load_needs_repository (Demo.env []) "docs" "3m" false true [] 0);
    reflexivity.
Defined.

(** ** Level keys *)

Lemma of_int_inj (z1 z2 : Z) : PyStr.of_int z1 = PyStr.of_int z2 -> z1 = z2.
Proof.
  unfold PyStr.of_int. intros H.
  assert (Hnonnil : forall z, Z.to_int z <> Decimal.Pos Decimal.Nil
                              /\ Z.to_int z <> Decimal.Neg Decimal.Nil).
  { intros [|p|p]; simpl; split; try discriminate; intros [= Hp];
      exact (Unsigned.to_uint_nonnil p Hp). }
  apply DecimalZ.to_int_inj.
  assert (Hsome : Some (Z.to_int z1) = Some (Z.to_int z2)).
  { rewrite <- (NilZero.isi (Z.to_int z1)) by apply Hnonnil.
    rewrite <- (NilZero.isi (Z.to_int z2)) by apply Hnonnil.
    rewrite H. reflexivity. }
  congruence.
Qed.

Lemma level_key_eqb (z k : Z) :
  String.eqb ("L" +:+ PyStr.of_int z) ("L" +:+ PyStr.of_int k) = (z =? k).
Proof.
  destruct (Z.eqb_spec z k) as [->|Hne].
  - apply String.eqb_refl.
  - apply String.eqb_neq. intros H. apply Hne. apply of_int_inj.
    injection H as H. exact H.
Qed.

Lemma count_level_tally (a b c : Z) (m : CognitiveMemory) :
  count_level [("L0", a); ("L1", b); ("L2", c)] m
  = [("L0", a + at_level 0 [m]); ("L1", b + at_level 1 [m]); ("L2", c + at_level 2 [m])].
Proof.
  unfold count_level, at_level, Dict.mem. cbn [existsb fst Dict.add List.filter].
  change "L0" with ("L" +:+ PyStr.of_int 0).
  change "L1" with ("L" +:+ PyStr.of_int 1).
  change "L2" with ("L" +:+ PyStr.of_int 2).
  rewrite !(String.eqb_sym _ ("L" +:+ PyStr.of_int (hierarchy_level m))), !level_key_eqb.
  destruct (Z.eqb_spec (hierarchy_level m) 0) as [H0|H0],
           (Z.eqb_spec (hierarchy_level m) 1) as [H1|H1],
           (Z.eqb_spec (hierarchy_level m) 2) as [H2|H2];
    try lia; unfold len; cbn; rewrite ?Z.add_0_r; reflexivity.
Qed.

Lemma at_level_cons (level : Z) (m : CognitiveMemory) (memories : list CognitiveMemory) :
  at_level level (m :: memories) = at_level level [m] + at_level level memories.
Proof.
  unfold at_level. simpl. destruct (hierarchy_level m =? level);
    [rewrite !len_cons|]; unfold len; simpl; lia.
Qed.

(** The counting loop of a dry run counts the memories of each level. *)
Lemma count_levels_tally (memories : list CognitiveMemory) (a b c : Z) :
  fold_left count_level memories [("L0", a); ("L1", b); ("L2", c)]
  = [("L0", a + at_level 0 memories); ("L1", b + at_level 1 memories);
     ("L2", c + at_level 2 memories)].
Proof.
  revert a b c. induction memories as [|m memories IH]; intros a b c.
  - unfold at_level, len. simpl. rewrite !Z.add_0_r. reflexivity.
  - simpl fold_left. rewrite count_level_tally, IH.
    rewrite !(at_level_cons _ m memories), !Z.add_assoc. reflexivity.
Qed.

(** ** A single source *)


Lemma load_memories_single {W} (env : Env W) source_path loader_type kind dry_run recursive
    kw (w : W) :
  loader_kind loader_type = Some kind ->
  is_directory_scan env kind source_path w = false ->
  load_memories env source_path loader_type dry_run recursive kw w
  = try_except (load_single env kind source_path dry_run kw)
      (fun e => print (MsgLoadMemoriesError e) ;; ret false) w.
Proof.
  intros Hkind Hscan. unfold load_memories. rewrite Hkind.
  unfold try_except. cbv beta. rewrite Hscan. reflexivity.
Qed.

Lemma print_levels_tally {W} (line : string -> string -> Z -> Msg)
    (memories : list CognitiveMemory) (w : W) :
  print_levels line (fold_left count_level memories empty_distribution) w
  = (Ok tt, w,
     [Print (line "L0" "Concepts" (at_level 0 memories));
      Print (line "L1" "Contexts" (at_level 1 memories));
      Print (line "L2" "Episodes" (at_level 2 memories))]).
Proof.
  unfold empty_distribution. rewrite count_levels_tally. reflexivity.
Qed.



Lemma print_levels_known {W} (line : string -> string -> Z -> Msg) (dist : Dict.t Z) (w : W) :
  forallb known_level (map fst dist) = true ->
  exists t, print_levels line dist w = (Ok tt, w, t).
Proof.
  unfold print_levels. induction dist as [|[level count] dist IH]; intros Hknown.
  - exists []. reflexivity.
  - simpl in Hknown. apply andb_true_iff in Hknown as [Hlevel Hknown].
    destruct (IH Hknown) as [t Ht].
    unfold known_level in Hlevel. rewrite for_each_cons. cbn [fst snd].
    destruct (level_name level) as [name|e] eqn:Hname; [|discriminate Hlevel].
    exists ([Print (line level name count)] ++ t).
    apply bind_run with (a := tt) (w1 := w); [|exact Ht].
    unfold bind, lift, print. reflexivity.
Qed.

Lemma print_levels_unknown {W} (line : string -> string -> Z -> Msg) (dist : Dict.t Z)
    (w : W) :
  forallb known_level (map fst dist) = false ->
  exists e t, print_levels line dist w = (Raise e, w, t).
Proof.
  unfold print_levels. induction dist as [|[level count] dist IH]; intros Hknown.
  - discriminate Hknown.
  - simpl in Hknown. rewrite for_each_cons. cbn [fst snd].
    unfold known_level in Hknown.
    destruct (level_name level) as [name|e] eqn:Hname.
    + simpl in Hknown. destruct (IH Hknown) as (e & t & Ht).
      exists e, ([Print (line level name count)] ++ t).
      apply bind_run with (a := tt) (w1 := w); [|exact Ht].
      unfold bind, lift, print. reflexivity.
    + exists e, []. unfold bind, lift. reflexivity.
Qed.

(** X13: when a single valid source is stored and the report is a
    success, [load_memories] returns [True] only if every level key of the
    report's hierarchy distribution is L0, L1 or L2; with any other key the
    lookup of the level name fails while the summary is printed and the
    result is [False], although the store has done its work (the world is
    the one after [load_memories_from_source]). *)
Theorem single_load_result {W} (env : Env W) (source_path loader_type : string)
    (kind : LoaderKind) (recursive : bool) (kw : Kwargs) (w w1 w2 : W)
    (report : LoadReport) :
  loader_kind loader_type = Some kind ->
  is_directory_scan env kind source_path w = false ->
  validate_source (loader env kind) source_path w = (true, w1) ->
  cs_load_memories_from_source (cognitive_system env) kind source_path kw w1
  = (Ok report, w2) ->
  success report = true ->
  outcome (load_memories env source_path loader_type false recursive kw w)
  = Ok match hierarchy_distribution report with
       | Some dist => forallb known_level (map fst dist)
       | None => true
       end
  /\ final_world (load_memories env source_path loader_type false recursive kw w) = w2.
Proof.
  intros Hkind Hscan Hvalid Hcall Hsuccess.
  assert (Hrun : exists t,
    load_memories env source_path loader_type false recursive kw w
    = (Ok match hierarchy_distribution report with
          | Some dist => forallb known_level (map fst dist)
          | None => true
          end, w2, t)).
  { rewrite (load_memories_single env source_path loader_type kind false recursive kw w
               Hkind Hscan).
    unfold try_except, load_single, bind at 1, call_validate_source. rewrite Hvalid.
    cbn [negb]. cbv beta iota.
    unfold bind at 1, print at 1. cbv beta iota.
    unfold bind at 1, call_load_memories_from_source. rewrite Hcall. cbv beta iota.
    rewrite Hsuccess.
    unfold bind at 1 2 3 4, print at 1 2 3 4. cbv beta iota.
    destruct (hierarchy_distribution report) as [dist|].
    - destruct (forallb known_level (map fst dist)) eqn:Hknown.
      + destruct (print_levels_known MsgLevelCount dist w2 Hknown) as [t Ht].
        unfold bind, print, when. rewrite Ht.
        destruct (0 <? memories_failed report), (0 <? connections_failed report);
          eexists; reflexivity.
      + destruct (print_levels_unknown MsgLevelCount dist w2 Hknown) as (e & t & Ht).
        unfold bind, print. rewrite Ht. eexists; reflexivity.
    - unfold bind, print, when, ret.
      destruct (0 <? memories_failed report), (0 <? connections_failed report);
        eexists; reflexivity. }
  destruct Hrun as [t Hrun]. rewrite Hrun. split; reflexivity.
Qed.

Lemma single_load_result_witness :
  outcome (load_memories (Demo.env []) "docs/a.md" "markdown" false false [] 0) = Ok true
  /\ final_world (load_memories (Demo.env []) "docs/a.md" "markdown" false false [] 0) = 2.
Proof.
  apply (single_load_result (Demo.env []) "docs/a.md" "markdown" Markdown false [] 0 0 2
           Demo.report); reflexivity.
Defined.

(** ** The order of the units *)

Lemma compare_refl (s : string) : String.compare s s = Eq.
Proof.
  pose proof (String.compare_antisym s s) as H.
  destruct (String.compare s s); [reflexivity|discriminate H|discriminate H].
Qed.

Lemma compare_lt_trans (a b c : string) :
  String.compare a b = Lt -> String.compare b c = Lt -> String.compare a c = Lt.
Proof.
  intros Hab Hbc. apply String_as_OT.cmp_lt.
  apply String_as_OT.lt_trans with b; apply String_as_OT.cmp_lt; assumption.
Qed.

Lemma compare_gt_lt (a b : string) : String.compare a b = Gt -> String.compare b a = Lt.
Proof. intros H. rewrite String.compare_antisym, H. reflexivity. Qed.

Lemma ltb_trans (p q r : Path.t) :
  Path.ltb p q = true -> Path.ltb q r = true -> Path.ltb p r = true.
Proof.
  revert q r. induction p as [|a p IH]; intros [|b q] [|c r]; simpl; try congruence.
  destruct (String.compare a b) eqn:Hab; try discriminate.
  - apply String.compare_eq_iff in Hab as ->.
    destruct (String.compare b c); try congruence. apply IH.
  - destruct (String.compare b c) eqn:Hbc; try discriminate.
    + apply String.compare_eq_iff in Hbc as <-. rewrite Hab. reflexivity.
    + rewrite (compare_lt_trans a b c Hab Hbc). reflexivity.
Qed.

Lemma ltb_total (p q : Path.t) :
  Path.ltb p q = false -> Path.ltb q p = false -> p = q.
Proof.
  revert q. induction p as [|a p IH]; intros [|b q]; simpl; try congruence.
  rewrite (String.compare_antisym a b).
  destruct (String.compare b a) eqn:Hba; simpl; try discriminate.
  apply String.compare_eq_iff in Hba as ->.
  intros H1 H2. rewrite (IH q H1 H2). reflexivity.
Qed.

Lemma ltb_irrefl (p : Path.t) : Path.ltb p p = false.
Proof.
  induction p as [|a p IH]; simpl; [reflexivity|]. rewrite compare_refl. exact IH.
Qed.

Lemma ltb_asym (p q : Path.t) : Path.ltb p q = true -> Path.ltb q p = false.
Proof.
  intros Hpq. destruct (Path.ltb q p) eqn:Hqp; [|reflexivity].
  pose proof (ltb_trans p q p Hpq Hqp) as H. rewrite ltb_irrefl in H. discriminate H.
Qed.

Lemma path_le_trans (p q r : Path.t) : path_le p q -> path_le q r -> path_le p r.
Proof.
  unfold path_le. intros Hpq Hqr.
  destruct (Path.ltb r p) eqn:Hrp; [|reflexivity].
  destruct (Path.ltb q r) eqn:Hq.
  - rewrite (ltb_trans q r p Hq Hrp) in Hpq. discriminate Hpq.
  - rewrite (ltb_total q r Hq Hqr) in Hpq. congruence.
Qed.

Lemma insert_sorted (x : Path.t) (l : list Path.t) :
  StronglySorted path_le l -> StronglySorted path_le (Path.insert x l).
Proof.
  induction 1 as [|y l Hsorted IH Hall]; simpl.
  - repeat constructor.
  - destruct (Path.ltb y x) eqn:Hyx.
    + constructor; [exact IH|].
      assert (Hperm : Permutation (Path.insert x l) (x :: l)) by apply sorted_insert_perm.
      apply (Permutation_Forall (Permutation_sym Hperm)).
      constructor; [apply ltb_asym; exact Hyx|exact Hall].
    + constructor; [constructor; assumption|].
      constructor; [exact Hyx|].
      revert Hall. apply List.Forall_impl.
      intros z Hz. apply path_le_trans with y; assumption.
Qed.

(** X14: the units of a directory scan are processed in ascending order
    of their paths, compared part by part: [sorted] puts every unit before
    all units that are not smaller, and it rearranges the files found
    without dropping or repeating one. *)
Theorem units_in_path_order {W} (env : Env W) (source_path : string)
    (extensions : list string) (w : W) :
  StronglySorted path_le (units_of env source_path extensions w)
  /\ Permutation (units_of env source_path extensions w)
       (find_files (Path.of_string source_path) extensions
          (walk (file_system env) w source_path)).
Proof.
  unfold units_of. split; [|apply sorted_perm].
  induction (find_files (Path.of_string source_path) extensions
               (walk (file_system env) w source_path)) as [|f files IH]; simpl.
  - constructor.
  - apply insert_sorted. exact IH.
Qed.








(** ** The totals of a directory *)

Lemma successful_reports_app (t1 t2 : list Event) :
  successful_reports (t1 ++ t2) = successful_reports t1 ++ successful_reports t2.
Proof. apply flat_map_app. Qed.

Lemma analysed_app (t1 t2 : list Event) : analysed (t1 ++ t2) = analysed t1 ++ analysed t2.
Proof. apply flat_map_app. Qed.

Lemma sum_of_app (f : LoadReport -> Z) (r1 r2 : list LoadReport) :
  sum_of f (r1 ++ r2) = sum_of f r1 + sum_of f r2.
Proof.
  unfold sum_of. induction r1 as [|r r1 IH]; simpl; [reflexivity|]. rewrite IH. lia.
Qed.

(** Report lines and the question for the extensions are no loads. *)
Lemma report_lines_no_load (t : list Event) :
  forallb is_report_line t = true ->
  successful_reports t = [] /\ analysed t = [] /\ existsb unit_failed t = false.
Proof.
  induction t as [|e t IH]; simpl; [repeat split|].
  intros H. apply andb_true_iff in H as [He Ht].
  destruct (IH Ht) as (H1 & H2 & H3).
  destruct e as [m| | | | | | |]; try discriminate He.
  simpl. repeat split; assumption.
Qed.

(** One stored unit adds its report to the totals when it is a success,
    and nothing otherwise. *)
Lemma store_file_step {W} (env : Env W) kind top kw acc file (w : W) :
  exists acc' w' t,
    process_file env kind top false kw acc file w = (Ok acc', w', t)
    /\ total_success acc' = total_success acc && negb (existsb unit_failed t)
    /\ map fst (hierarchy_dist_combined acc') = map fst (hierarchy_dist_combined acc)
    /\ total_memories_loaded acc'
       = total_memories_loaded acc + sum_of memories_loaded (successful_reports t)
    /\ total_connections_created acc'
       = total_connections_created acc + sum_of connections_created (successful_reports t)
    /\ total_processing_time acc'
       = fold_left PrimFloat.add (map processing_time (successful_reports t))
           (total_processing_time acc).
Proof.
  unfold process_file, bind, call_validate_source.
  destruct (validate_source (loader env kind) (Path.to_string file) w) as [valid w1].
  destruct valid; cbn [negb]; cbv beta iota.
  2:{ eexists _, _, _. split; [reflexivity|]. simpl.
      rewrite andb_true_r. unfold sum_of. simpl. repeat split; lia. }
  unfold try_except, bind, call_load_memories_from_source, print, ret.
  destruct (cs_load_memories_from_source (cognitive_system env) kind
              (Path.to_string file) kw w1) as [[results|e] w2].
  - destruct (success results) eqn:Hsuccess.
    + eexists _, _, _. split; [reflexivity|].
      unfold sum_of. simpl. rewrite Hsuccess. simpl.
      rewrite andb_true_r. repeat split; try lia.
      apply accumulate_keys.
    + eexists _, _, _. split; [reflexivity|].
      unfold sum_of. simpl. rewrite Hsuccess. simpl.
      rewrite andb_false_r. repeat split; lia.
  - eexists _, _, _. split; [reflexivity|]. unfold sum_of. simpl.
    rewrite andb_false_r. repeat split; lia.
Qed.

Lemma store_files_run {W} (env : Env W) kind top kw files acc (w : W) :
  exists acc' w' t,
    for_each (process_file env kind top false kw) files acc w = (Ok acc', w', t)
    /\ total_success acc' = total_success acc && negb (existsb unit_failed t)
    /\ map fst (hierarchy_dist_combined acc') = map fst (hierarchy_dist_combined acc)
    /\ total_memories_loaded acc'
       = total_memories_loaded acc + sum_of memories_loaded (successful_reports t)
    /\ total_connections_created acc'
       = total_connections_created acc + sum_of connections_created (successful_reports t)
    /\ total_processing_time acc'
       = fold_left PrimFloat.add (map processing_time (successful_reports t))
           (total_processing_time acc).
Proof.
  revert acc w. induction files as [|file files IH]; intros acc w.
  - exists acc, w, []. unfold sum_of. simpl. rewrite andb_true_r. repeat split; lia.
  - destruct (store_file_step env kind top kw acc file w)
      as (acc1 & w1 & t1 & Hrun1 & Hs1 & Hk1 & Hm1 & Hc1 & Hp1).
    destruct (IH acc1 w1) as (acc2 & w2 & t2 & Hrun2 & Hs2 & Hk2 & Hm2 & Hc2 & Hp2).
    exists acc2, w2, (t1 ++ t2).
    split; [rewrite for_each_cons; exact (bind_run _ _ _ _ _ _ _ _ _ Hrun1 Hrun2)|].
    rewrite successful_reports_app, !sum_of_app, List.map_app, fold_left_app.
    repeat split.
    + rewrite existsb_app, Hs2, Hs1, negb_orb, andb_assoc. reflexivity.
    + rewrite Hk2, Hk1. reflexivity.
    + lia.
    + lia.
    + rewrite Hp2, Hp1. reflexivity.
Qed.

(** With units to process, the transcript of the directory branch is the
    question for the extensions and report lines, then the loop, then the
    summary. *)
Lemma load_directory_parts {W} (env : Env W) kind source_path dry_run kw (w w1 w' : W)
    extensions acc' tloop :
  get_supported_extensions (loader env kind) w = (extensions, w1) ->
  units_of env source_path extensions w1 <> [] ->
  for_each (process_file env kind (Path.of_string source_path) dry_run kw)
    (units_of env source_path extensions w1) initial_totals w1
  = (Ok acc', w', tloop) ->
  map fst (hierarchy_dist_combined acc') = ["L0"; "L1"; "L2"] ->
  exists thead tsum,
    load_directory env kind source_path dry_run kw w
    = (Ok (total_success acc'), w',
       (CallGetSupportedExtensions kind extensions :: thead) ++ tloop ++ tsum)
    /\ forallb is_report_line thead = true
    /\ directory_summary dry_run acc' w' = (Ok tt, w', tsum)
    /\ forallb is_report_line tsum = true.
Proof.
  intros Hext Hsome Hloop Hkeys.
  unfold units_of in *.
  destruct (find_files (Path.of_string source_path) extensions
              (walk (file_system env) w1 source_path)) as [|f files] eqn:Hfiles;
    [contradiction Hsome; reflexivity|].
  destruct (when_listing_run dry_run (Path.of_string source_path)
              (Path.sorted (f :: files)) w1) as (tlist & Hlist & Hlist_lines).
  destruct (directory_summary_run dry_run acc' w' Hkeys) as (tsum & Hsum & Hsum_lines).
  exists (Print (MsgFoundFiles (len (f :: files)) source_path) :: tlist), tsum.
  split; [|split; [exact Hlist_lines|split; assumption]].
  unfold load_directory.
  change ((CallGetSupportedExtensions kind extensions
           :: Print (MsgFoundFiles (len (f :: files)) source_path) :: tlist) ++ tloop ++ tsum)
    with ([CallGetSupportedExtensions kind extensions]
          ++ [] ++ [Print (MsgFoundFiles (len (f :: files)) source_path)]
          ++ tlist ++ tloop ++ tsum).
  apply bind_run with (a := extensions) (w1 := w1).
  { unfold call_get_supported_extensions. rewrite Hext. reflexivity. }
  apply bind_run with (a := walk (file_system env) w1 source_path) (w1 := w1);
    [reflexivity|].
  cbv zeta. rewrite Hfiles.
  apply bind_run with (a := tt) (w1 := w1); [reflexivity|].
  apply bind_run with (a := tt) (w1 := w1); [exact Hlist|].
  apply bind_run with (a := acc') (w1 := w'); [exact Hloop|].
  rewrite <- (app_nil_r tsum) at 1.
  apply bind_run with (a := tt) (w1 := w'); [exact Hsum|].
  reflexivity.
Qed.

Lemma directory_summary_head {W} (totals : Totals) (w w' : W) (t : list Event) :
  directory_summary false totals w = (Ok tt, w', t) ->
  exists rest,
    t = [Print (MsgDirectoryDone (total_success totals));
         Print (MsgTotalLoaded (total_memories_loaded totals));
         Print (MsgTotalConnections (total_connections_created totals));
         Print (MsgTotalTime (total_processing_time totals))] ++ rest.
Proof.
  unfold directory_summary.
  unfold bind at 1 2 3 4, print at 1 2 3 4. cbv beta iota.
  destruct ((match hierarchy_dist_combined totals with
             | [] => ret tt
             | _ :: _ =>
                 print MsgCombinedDistribution ;;
                 print_levels MsgLevelCount (hierarchy_dist_combined totals)
             end ;;
             when (0 <? total_memories_failed totals)
               (print (MsgTotalFailedMemories (total_memories_failed totals))) ;;
             when (0 <? total_connections_failed totals)
               (print (MsgTotalFailedConnections (total_connections_failed totals)))) w)
    as [[r w2] rest].
  intros [= _ _ <-]. exists rest. reflexivity.
Qed.

(** X16: the totals printed after a directory was stored are those of the
    units that were stored: the loaded memories, the connections and the
    processing time are summed, in the order of the units, over the reports
    [load_memories_from_source] handed back as a success; a report that is
    not a success and a unit whose load raised add nothing, and the first
    line tells whether there was such a unit. *)
Theorem directory_totals_sum {W} (env : Env W) (source_path loader_type : string)
    (kind : LoaderKind) (kw : Kwargs) (w w1 : W) (extensions : list string) :
  loader_kind loader_type = Some kind ->
  is_directory_scan env kind source_path w = true ->
  get_supported_extensions (loader env kind) w = (extensions, w1) ->
  units_of env source_path extensions w1 <> [] ->
  occurs_in
    (directory_totals
       (negb (existsb unit_failed
                (transcript (load_memories env source_path loader_type false true kw w))))
       (successful_reports
          (transcript (load_memories env source_path loader_type false true kw w))))
    (transcript (load_memories env source_path loader_type false true kw w)).
Proof.
  intros Hkind Hscan Hext Hsome.
  destruct (store_files_run env kind (Path.of_string source_path) kw
              (units_of env source_path extensions w1) initial_totals w1)
    as (acc' & w' & tloop & Hloop & Hs & Hk & Hm & Hc & Hp).
  destruct (load_directory_parts env kind source_path false kw w w1 w' extensions acc' tloop
              Hext Hsome Hloop Hk)
    as (thead & tsum & Hrun & Hhead & Hsum & Hsum_lines).
  rewrite (load_memories_scan env source_path loader_type kind false kw w _ _ _
             Hkind Hscan Hrun).
  unfold transcript. cbn [snd].
  destruct (report_lines_no_load thead Hhead) as (Hh1 & _ & Hh3).
  destruct (report_lines_no_load tsum Hsum_lines) as (Ht1 & _ & Ht3).
  destruct (directory_summary_head acc' w' w' tsum Hsum) as [rest Hrest].
  assert (Hreports : successful_reports
                       ((CallGetSupportedExtensions kind extensions :: thead) ++ tloop ++ tsum)
                     = successful_reports tloop).
  { rewrite !successful_reports_app, Ht1, app_nil_r. simpl. rewrite Hh1. reflexivity. }
  assert (Hfailed : existsb unit_failed
                      ((CallGetSupportedExtensions kind extensions :: thead) ++ tloop ++ tsum)
                    = existsb unit_failed tloop).
  { rewrite !existsb_app, Ht3, orb_false_r. simpl. rewrite Hh3. reflexivity. }
  rewrite Hreports, Hfailed.
  exists ((CallGetSupportedExtensions kind extensions :: thead) ++ tloop), rest.
  rewrite <- app_assoc. f_equal. f_equal. rewrite Hrest. f_equal.
  unfold directory_totals. rewrite Hs, Hm, Hc, Hp. reflexivity.
Qed.

Lemma directory_totals_sum_witness :
  occurs_in
    [Print (MsgDirectoryDone false);
     Print (MsgTotalLoaded 4);
     Print (MsgTotalConnections 2);
     Print (MsgTotalTime (PrimFloat.add (PrimFloat.add 0 0.25) 0.25)%float)]
    (transcript (load_memories (Demo.env []) "docs" "markdown" false true [] 0)).
Proof.
  apply (directory_totals_sum (Demo.env []) "docs" "markdown" Markdown [] 0 0
           [".md"; ".markdown"] eq_refl eq_refl eq_refl).
  discriminate.
Defined.

Lemma at_level_app (level : Z) (l1 l2 : list CognitiveMemory) :
  at_level level (l1 ++ l2) = at_level level l1 + at_level level l2.
Proof. unfold at_level. rewrite List.filter_app, len_app. reflexivity. Qed.

Lemma at_levels_in_hierarchy (memories : list CognitiveMemory) :
  at_level 0 memories + at_level 1 memories + at_level 2 memories
  = len (List.filter in_hierarchy memories).
Proof.
  induction memories as [|m memories IH]; [reflexivity|].
  rewrite !(at_level_cons _ m memories). cbn [List.filter].
  assert (Hm : at_level 0 [m] + at_level 1 [m] + at_level 2 [m]
               = if in_hierarchy m then 1 else 0).
  { unfold at_level, in_hierarchy, len. cbn [List.filter].
    destruct (Z.eqb_spec (hierarchy_level m) 0), (Z.eqb_spec (hierarchy_level m) 1),
             (Z.eqb_spec (hierarchy_level m) 2),
             (Z.leb_spec 0 (hierarchy_level m)), (Z.leb_spec (hierarchy_level m) 2);
      simpl; lia. }
  destruct (in_hierarchy m); [rewrite len_cons|]; lia.
Qed.

(** One analysed unit adds its memories of level 0, 1 and 2 to the
    combined distribution; a unit that is skipped or fails adds nothing. *)
Lemma analyse_file_step {W} (env : Env W) kind top kw acc file (w : W) (a b c : Z) :
  hierarchy_dist_combined acc = [("L0", a); ("L1", b); ("L2", c)] ->
  exists acc' w' t,
    process_file env kind top true kw acc file w = (Ok acc', w', t)
    /\ hierarchy_dist_combined acc'
       = [("L0", a + at_level 0 (analysed t)); ("L1", b + at_level 1 (analysed t));
          ("L2", c + at_level 2 (analysed t))].
Proof.
  intros Hdist.
  assert (Hnone : [("L0", a + at_level 0 []); ("L1", b + at_level 1 []);
                   ("L2", c + at_level 2 [])]
                  = [("L0", a); ("L1", b); ("L2", c)]).
  { unfold at_level, len. simpl. rewrite !Z.add_0_r. reflexivity. }
  unfold process_file, bind, call_validate_source.
  destruct (validate_source (loader env kind) (Path.to_string file) w) as [valid w1].
  destruct valid; cbn [negb]; cbv beta iota.
  2:{ eexists _, _, _. split; [reflexivity|]. simpl. rewrite Hnone. exact Hdist. }
  unfold try_except, bind, call_load_from_source, call_extract_connections, print, ret.
  destruct (load_from_source (loader env kind) (Path.to_string file) kw w1)
    as [[memories|e] w2].
  - destruct (extract_connections (loader env kind) memories w2) as [[connections|e] w3].
    + eexists _, _, _. split; [reflexivity|]. simpl.
      rewrite Hdist, count_levels_tally, app_nil_r. reflexivity.
    + eexists _, _, _. split; [reflexivity|]. simpl. rewrite Hnone. exact Hdist.
  - eexists _, _, _. split; [reflexivity|]. simpl. rewrite Hnone. exact Hdist.
Qed.

Lemma analyse_files_run {W} (env : Env W) kind top kw files acc (w : W) (a b c : Z) :
  hierarchy_dist_combined acc = [("L0", a); ("L1", b); ("L2", c)] ->
  exists acc' w' t,
    for_each (process_file env kind top true kw) files acc w = (Ok acc', w', t)
    /\ hierarchy_dist_combined acc'
       = [("L0", a + at_level 0 (analysed t)); ("L1", b + at_level 1 (analysed t));
          ("L2", c + at_level 2 (analysed t))].
Proof.
  revert acc w a b c. induction files as [|file files IH]; intros acc w a b c Hdist.
  - exists acc, w, []. split; [reflexivity|].
    unfold at_level, len. simpl. rewrite !Z.add_0_r. exact Hdist.
  - destruct (analyse_file_step env kind top kw acc file w a b c Hdist)
      as (acc1 & w1 & t1 & Hrun1 & Hdist1).
    destruct (IH acc1 w1 _ _ _ Hdist1) as (acc2 & w2 & t2 & Hrun2 & Hdist2).
    exists acc2, w2, (t1 ++ t2).
    split; [rewrite for_each_cons; exact (bind_run _ _ _ _ _ _ _ _ _ Hrun1 Hrun2)|].
    rewrite Hdist2, analysed_app, !at_level_app, !Z.add_assoc. reflexivity.
Qed.

(** X17: the summary of a directory dry run counts, over the units whose
    memories were read and whose connections were found, the memories of
    level 0, 1 and 2, level by level; the total it announces is the sum of
    these three counts, so a memory of any other level is left out of the
    total although its unit counted it in. *)
Theorem directory_dry_run_totals {W} (env : Env W) (source_path loader_type : string)
    (kind : LoaderKind) (kw : Kwargs) (w w1 : W) (extensions : list string) :
  loader_kind loader_type = Some kind ->
  is_directory_scan env kind source_path w = true ->
  get_supported_extensions (loader env kind) w = (extensions, w1) ->
  units_of env source_path extensions w1 <> [] ->
  exists before,
    transcript (load_memories env source_path loader_type true true kw w)
    = before
      ++ dry_run_totals
           (analysed (transcript (load_memories env source_path loader_type true true kw w))).
Proof.
  intros Hkind Hscan Hext Hsome.
  destruct (analyse_files_run env kind (Path.of_string source_path) kw
              (units_of env source_path extensions w1) initial_totals w1 0 0 0 eq_refl)
    as (acc' & w' & tloop & Hloop & Hdist).
  assert (Hk : map fst (hierarchy_dist_combined acc') = ["L0"; "L1"; "L2"])
    by (rewrite Hdist; reflexivity).
  destruct (load_directory_parts env kind source_path true kw w w1 w' extensions acc' tloop
              Hext Hsome Hloop Hk)
    as (thead & tsum & Hrun & Hhead & Hsum & Hsum_lines).
  rewrite (load_memories_scan env source_path loader_type kind true kw w _ _ _
             Hkind Hscan Hrun).
  unfold transcript. cbn [snd].
  destruct (report_lines_no_load thead Hhead) as (_ & Hh2 & _).
  destruct (report_lines_no_load tsum Hsum_lines) as (_ & Ht2 & _).
  assert (Hanalysed : analysed
                        ((CallGetSupportedExtensions kind extensions :: thead) ++ tloop ++ tsum)
                      = analysed tloop).
  { rewrite !analysed_app, Ht2, app_nil_r. simpl. rewrite Hh2. reflexivity. }
  rewrite Hanalysed.
  exists ((CallGetSupportedExtensions kind extensions :: thead) ++ tloop).
  rewrite <- app_assoc. f_equal. f_equal.
  unfold directory_summary in Hsum. rewrite Hdist in Hsum.
  unfold bind, print, print_levels in Hsum. simpl in Hsum.
  injection Hsum as <-.
  unfold dry_run_totals. rewrite <- at_levels_in_hierarchy.
  unfold Dict.sum_values. cbn [map snd fold_right].
  repeat first [lia | reflexivity | progress f_equal].
Qed.

Lemma directory_dry_run_totals_witness :
  exists before,
    transcript (load_memories
                  (Lab.env [Lab.memory "a" 1 None; Lab.memory "b" 3 None] Demo.report)
                  "docs" "markdown" true true [] 0)
    = before
      ++ [Print (MsgDryRunComplete 3);
          Print MsgCombinedDistribution;
          Print (MsgLevelMemories "L0" "Concepts" 0);
          Print (MsgLevelMemories "L1" "Contexts" 3);
          Print (MsgLevelMemories "L2" "Episodes" 0)].
Proof.
  apply (directory_dry_run_totals
           (Lab.env [Lab.memory "a" 1 None; Lab.memory "b" 3 None] Demo.report)
           "docs" "markdown" Markdown [] 0 0 [".md"] eq_refl eq_refl eq_refl).
  discriminate.
Defined.

(** ** The sample of a dry run *)

Lemma sample_loop_run {W} (memories : list CognitiveMemory) (i : Z) (w : W) :
  exists r t,
    for_each
      (fun i m =>
         title60 <- lift (slice_60 (default (PyStr "Untitled") (metadata m !! "title"))) ;;
         print (MsgSample (i + 1) (hierarchy_level m) title60) ;;
         ret (i + 1))
      memories i w
    = (r, w, t)
    /\ (forallb (fun m => sliceable (sample_title m)) memories = true ->
        exists n, r = Ok n)
    /\ (forallb (fun m => sliceable (sample_title m)) memories = false ->
        exists e, r = Raise e).
Proof.
  revert i. induction memories as [|m memories IH]; intros i.
  - exists (Ok i), []. split; [reflexivity|]. split; [eauto|discriminate].
  - rewrite for_each_cons. cbn [forallb]. cbv beta.
    change (default (PyStr "Untitled") (metadata m !! "title")) with (sample_title m).
    unfold sliceable at 1 3.
    destruct (slice_60 (sample_title m)) as [title60|e].
    + destruct (IH (i + 1)) as (r & t & Hrun & Hok & Hraise).
      exists r, ([Print (MsgSample (i + 1) (hierarchy_level m) title60)] ++ t).
      split; [|split; assumption].
      apply bind_run with (a := i + 1) (w1 := w); [|exact Hrun].
      reflexivity.
    + exists (Raise e), []. split; [|split; [discriminate|eauto]].
      reflexivity.
Qed.

(** X18: a dry run of a single valid source whose memories were read and
    whose connections were found returns [True] exactly when the title of
    each of the first five memories can be cut to 60 characters (a string
    or a list; a missing title counts as "Untitled"): a title that is a
    number or [None] among the first five makes the dry run fail, and the
    titles of the memories after the fifth are never looked at. *)
Theorem dry_run_sample {W} (env : Env W) (source_path loader_type : string)
    (kind : LoaderKind) (recursive : bool) (kw : Kwargs) (w w1 w2 w3 : W)
    (memories : list CognitiveMemory) (connections : list Connection) :
  loader_kind loader_type = Some kind ->
  is_directory_scan env kind source_path w = false ->
  validate_source (loader env kind) source_path w = (true, w1) ->
  load_from_source (loader env kind) source_path kw w1 = (Ok memories, w2) ->
  extract_connections (loader env kind) memories w2 = (Ok connections, w3) ->
  outcome (load_memories env source_path loader_type true recursive kw w)
  = Ok (forallb (fun m => sliceable (sample_title m)) (take 5 memories))
  /\ final_world (load_memories env source_path loader_type true recursive kw w) = w3.
Proof.
  intros Hkind Hscan Hvalid Hload Hextract.
  assert (Hrun : exists t,
    load_memories env source_path loader_type true recursive kw w
    = (Ok (forallb (fun m => sliceable (sample_title m)) (take 5 memories)), w3, t)).
  { rewrite (load_memories_single env source_path loader_type kind true recursive kw w
               Hkind Hscan).
    unfold try_except at 1, load_single, bind at 1, call_validate_source. rewrite Hvalid.
    cbn [negb]. cbv beta iota.
    unfold bind at 1, print at 1. cbv beta iota.
    unfold try_except, bind at 1, call_load_from_source. rewrite Hload. cbv beta iota.
    unfold bind at 1, call_extract_connections. rewrite Hextract. cbv beta iota.
    unfold bind at 1, print at 1. cbv beta iota zeta.
    unfold bind at 1. rewrite print_levels_tally. cbv beta iota.
    unfold bind at 1 2, print at 1 2. cbv beta iota.
    destruct (sample_loop_run (take 5 memories) 0 w3) as (r & t & Hloop & Hok & Hraise).
    unfold bind at 1. rewrite Hloop.
    destruct (forallb (fun m => sliceable (sample_title m)) (take 5 memories)).
    - destruct (Hok eq_refl) as [n ->]. cbv beta iota.
      unfold bind, when, print, ret. destruct (5 <? len memories); eexists; reflexivity.
    - destruct (Hraise eq_refl) as [e ->]. cbv beta iota.
      unfold bind, print, ret. eexists; reflexivity. }
  destruct Hrun as [t Hrun]. rewrite Hrun. split; reflexivity.
Qed.

Lemma dry_run_sample_witness :
  outcome (load_memories
             (Lab.env [Lab.memory "a" 1 (Some (PyStr "Notes")); Lab.memory "b" 1 None;
                       Lab.memory "c" 1 (Some (PyInt 7))] Demo.report)
             "guide.md" "markdown" true false [] 0) = Ok false
  /\ outcome (load_memories
                (Lab.env [Lab.memory "a" 1 None; Lab.memory "b" 1 None; Lab.memory "c" 1 None;
                          Lab.memory "d" 1 None; Lab.memory "e" 1 None;
                          Lab.memory "f" 1 (Some (PyInt 7))] Demo.report)
                "guide.md" "markdown" true false [] 0) = Ok true.
Proof.
  split.
  - apply (dry_run_sample
             (Lab.env [Lab.memory "a" 1 (Some (PyStr "Notes")); Lab.memory "b" 1 None;
                       Lab.memory "c" 1 (Some (PyInt 7))] Demo.report)
             "guide.md" "markdown" Markdown false [] 0 0 0 0 _ [] eq_refl eq_refl eq_refl
             eq_refl eq_refl).
  - apply (dry_run_sample
             (Lab.env [Lab.memory "a" 1 None; Lab.memory "b" 1 None; Lab.memory "c" 1 None;
                       Lab.memory "d" 1 None; Lab.memory "e" 1 None;
                       Lab.memory "f" 1 (Some (PyInt 7))] Demo.report)
             "guide.md" "markdown" Markdown false [] 0 0 0 0 _ [] eq_refl eq_refl eq_refl
             eq_refl eq_refl).
Defined.

(** * Properties of the further commands *)

Lemma session_bind_run {W A B} (m : Session.Act W A) (k : A -> Session.Act W B) (w : W)
    a w1 t1 r w2 t2 :
  m w = (Ok a, w1, t1) -> k a w1 = (r, w2, t2) ->
  Session.bind m k w = (r, w2, t1 ++ t2).
Proof. intros Hm Hk. unfold Session.bind. rewrite Hm, Hk. reflexivity. Qed.

Lemma session_bind_raise {W A B} (m : Session.Act W A) (k : A -> Session.Act W B) (w : W)
    e w1 t1 :
  m w = (Raise e, w1, t1) -> Session.bind m k w = (Raise e, w1, t1).
Proof. intros Hm. unfold Session.bind. rewrite Hm. reflexivity. Qed.

Lemma session_returns_bind {W A B} (m : Session.Act W A) (k : A -> Session.Act W B) :
  session_returns m -> (forall a, session_returns (k a)) -> session_returns (Session.bind m k).
Proof.
  intros Hm Hk w. destruct (Hm w) as (a & w1 & t1 & H1).
  destruct (Hk a w1) as (b & w2 & t2 & H2).
  exists b, w2, (t1 ++ t2). exact (session_bind_run _ _ _ _ _ _ _ _ _ H1 H2).
Qed.

Lemma session_returns_try_except {W A} (m : Session.Act W A) (h : Exn -> Session.Act W A) :
  (forall e, session_returns (h e)) -> session_returns (Session.try_except m h).
Proof.
  intros Hh w. unfold Session.try_except.
  destruct (m w) as [[[a|e] w1] t1].
  - exists a, w1, t1. reflexivity.
  - destruct (Hh e w1) as (a & w2 & t2 & H2). rewrite H2.
    exists a, w2, (t1 ++ t2). reflexivity.
Qed.

Lemma session_returns_ret {W A} (a : A) : session_returns (Session.ret (W := W) a).
Proof. intros w. exists a, w, []. reflexivity. Qed.

Lemma session_returns_say {W} (n : Note) : session_returns (Session.say (W := W) n).
Proof. intros w. exists tt, w, [Say n]. reflexivity. Qed.

Lemma session_returns_when {W} (c : bool) (m : Session.Act W unit) :
  session_returns m -> session_returns (Session.when c m).
Proof. intros Hm. destruct c; [exact Hm|apply session_returns_ret]. Qed.

Lemma session_returns_cli {W A} (m : M W A) : returns m -> session_returns (Session.cli m).
Proof.
  intros Hm w. destruct (Hm w) as (a & w' & t & H).
  exists a, w', (map Cli t). unfold Session.cli. rewrite H. reflexivity.
Qed.

Lemma session_returns_for_each {W A} (body : A -> Session.Act W unit) (l : list A) :
  (forall x, session_returns (body x)) -> session_returns (Session.for_each body l).
Proof.
  intros Hbody. induction l as [|x l IH]; simpl.
  - apply session_returns_ret.
  - apply session_returns_bind; [apply Hbody|intros _; exact IH].
Qed.

(** ** Consolidation *)

Lemma consolidate_memories_run {W} (admin : Admin W) (dry_run : bool) (w : W) :
  Session.consolidate_memories admin dry_run w
  = (Ok match fst (cs_consolidate_memories admin w) with
        | Ok _ => true
        | Raise _ => false
        end,
     snd (cs_consolidate_memories admin w),
     (if dry_run then [Say NoteConsolidationDryRun] else [])
     ++ Say NoteConsolidationStart
     :: CallConsolidateMemories (fst (cs_consolidate_memories admin w))
     :: match fst (cs_consolidate_memories admin w) with
        | Ok results =>
            [Say NoteConsolidationDone;
             Say (NoteTotalEpisodic (Session.get_or_zero "total_episodic" results));
             Say (NoteConsolidated (Session.get_or_zero "consolidated" results));
             Say (NoteConsolidationFailed (Session.get_or_zero "failed" results));
             Say (NoteConsolidationSkipped (Session.get_or_zero "skipped" results))]
        | Raise e => [Say (NoteConsolidationError e)]
        end).
Proof.
  unfold Session.consolidate_memories, Session.try_except, Session.bind,
    Session.call_consolidate_memories, Session.when, Session.say, Session.ret.
  destruct dry_run; cbv beta iota;
    destruct (cs_consolidate_memories admin w) as [[results|e] w']; reflexivity.
Qed.

(** X19: a dry run of the consolidation is no dry run: apart from one more
    line in front, it is the run without the flag.  Either way the
    cognitive system is asked to consolidate once and the world is left as
    that call leaves it; the result is [True] exactly when the call did not
    raise. *)
Theorem consolidation_dry_run_consolidates {W} (admin : Admin W) (w : W) :
  Session.consolidate_memories admin true w
  = (session_outcome (Session.consolidate_memories admin false w),
     session_world (Session.consolidate_memories admin false w),
     Say NoteConsolidationDryRun
     :: session_trace (Session.consolidate_memories admin false w))
  /\ (forall dry_run,
        consolidations (session_trace (Session.consolidate_memories admin dry_run w))
        = [fst (cs_consolidate_memories admin w)]
        /\ session_world (Session.consolidate_memories admin dry_run w)
           = snd (cs_consolidate_memories admin w)
        /\ session_outcome (Session.consolidate_memories admin dry_run w)
           = Ok match fst (cs_consolidate_memories admin w) with
                | Ok _ => true
                | Raise _ => false
                end).
Proof.
  split.
  - rewrite !consolidate_memories_run. reflexivity.
  - intros dry_run. rewrite consolidate_memories_run.
    unfold session_trace, session_world, session_outcome. cbn [fst snd].
    split; [|split; reflexivity].
    unfold consolidations. rewrite flat_map_app.
    destruct dry_run, (fst (cs_consolidate_memories admin w)); reflexivity.
Qed.

(** ** The status *)

(** A loop whose body only prints goes through and leaves the world. *)
Lemma for_each_quiet {W A} (body : A -> Session.Act W unit) (l : list A) (w : W) :
  (forall x, exists t, body x w = (Ok tt, w, t)) ->
  exists t, Session.for_each body l w = (Ok tt, w, t).
Proof.
  intros Hbody. induction l as [|x l [t2 IH]]; simpl.
  - exists []. reflexivity.
  - destruct (Hbody x) as [t1 H1]. exists (t1 ++ t2).
    exact (session_bind_run _ _ _ _ _ _ _ _ _ H1 IH).
Qed.

(** Each part of the display goes through exactly when the entry it
    reads is a dict (or is not there); the world is left alone. *)
Lemma show_memory_counts_run {W} (stats : Stats) (w : W) :
  exists r t,
    Session.show_memory_counts stats w = (r, w, t)
    /\ (dict_entry "memory_counts" stats = true -> r = Ok tt)
    /\ (dict_entry "memory_counts" stats = false -> exists e, r = Raise e).
Proof.
  unfold Session.show_memory_counts, dict_entry.
  destruct (Dict.get "memory_counts" stats) as [counts|].
  2:{ exists (Ok tt), []. split; [reflexivity|]. split; [reflexivity|discriminate]. }
  destruct counts as [| | | | | |d]; cbn [is_dict];
    try (eexists _, _; split; [reflexivity|]; split; [discriminate|eauto]).
  destruct (for_each_quiet
              (fun entry : string * PyVal =>
                 Session.when (Session.isinstance_int (snd entry))
                   (Session.say (NoteCount (fst entry) (snd entry)))) d w) as [t Ht].
  { intros x. destruct (Session.isinstance_int (snd x)); eexists; reflexivity. }
  exists (Ok tt), ([Say NoteMemoryCounts] ++ [] ++ t).
  split; [|split; [reflexivity|discriminate]].
  apply session_bind_run with (a := tt) (w1 := w); [reflexivity|].
  apply session_bind_run with (a := d) (w1 := w); [reflexivity|exact Ht].
Qed.

Lemma show_configuration_run {W} (stats : Stats) (w : W) :
  exists r t,
    Session.show_configuration stats w = (r, w, t)
    /\ (dict_entry "system_config" stats = true -> r = Ok tt)
    /\ (dict_entry "system_config" stats = false -> exists e, r = Raise e).
Proof.
  unfold Session.show_configuration, dict_entry.
  destruct (Dict.get "system_config" stats) as [config|].
  2:{ exists (Ok tt), []. split; [reflexivity|]. split; [reflexivity|discriminate]. }
  destruct config; cbn [is_dict];
    (eexists _, _; split; [reflexivity|split; [try discriminate; eauto|try discriminate; eauto]]).
Qed.

Lemma show_embedding_run {W} (stats : Stats) (w : W) :
  exists r t,
    Session.show_embedding stats w = (r, w, t)
    /\ (dict_entry "embedding_info" stats = true -> r = Ok tt)
    /\ (dict_entry "embedding_info" stats = false -> exists e, r = Raise e).
Proof.
  unfold Session.show_embedding, dict_entry.
  destruct (Dict.get "embedding_info" stats) as [info|].
  2:{ exists (Ok tt), []. split; [reflexivity|]. split; [reflexivity|discriminate]. }
  destruct info; cbn [is_dict];
    (eexists _, _; split; [reflexivity|split; [try discriminate; eauto|try discriminate; eauto]]).
Qed.

Lemma show_storage_run {W} (stats : Stats) (w : W) :
  exists r t,
    Session.show_storage stats w = (r, w, t)
    /\ (match Dict.get "storage_stats" stats with
        | Some v => negb (Py.truthy v) || is_dict v
        | None => true
        end = true -> r = Ok tt)
    /\ (match Dict.get "storage_stats" stats with
        | Some v => negb (Py.truthy v) || is_dict v
        | None => true
        end = false -> exists e, r = Raise e).
Proof.
  unfold Session.show_storage.
  destruct (Dict.get "storage_stats" stats) as [storage|].
  2:{ exists (Ok tt), []. split; [reflexivity|]. split; [reflexivity|discriminate]. }
  destruct (Py.truthy storage) eqn:Htruthy; cbn [negb orb Session.when].
  2:{ exists (Ok tt), []. split; [reflexivity|]. split; [reflexivity|discriminate]. }
  destruct storage as [| | | | | |d]; cbn [is_dict];
    try (eexists _, _; split; [reflexivity|]; split; [discriminate|eauto]).
  destruct (for_each_quiet
              (fun entry : string * PyVal =>
                 match snd entry with
                 | PyDict level_stats =>
                     match Dict.get "vectors_count" level_stats with
                     | Some count => Session.say (NoteVectors (fst entry) count)
                     | None => Session.ret tt
                     end
                 | _ => Session.ret tt
                 end) d w) as [t Ht].
  { intros [k v]. cbn [fst snd].
    destruct v as [| | | | | |level_stats]; try (eexists; reflexivity).
    destruct (Dict.get "vectors_count" level_stats); eexists; reflexivity. }
  exists (Ok tt), ([Say NoteStorageStatistics] ++ [] ++ t).
  split; [|split; [reflexivity|discriminate]].
  apply session_bind_run with (a := tt) (w1 := w); [reflexivity|].
  apply session_bind_run with (a := d) (w1 := w); [reflexivity|exact Ht].
Qed.

(** What the display of the status does with given statistics. *)
Lemma status_display_run {W} (detailed : bool) (stats : Stats) (w : W) :
  exists r t,
    (Session.bind (Session.say NoteStatusHeader) (fun _ =>
     Session.bind (Session.say (NoteRule 40)) (fun _ =>
     Session.bind (Session.show_memory_counts stats) (fun _ =>
     Session.bind (Session.when detailed (Session.show_configuration stats)) (fun _ =>
     Session.bind (Session.when detailed (Session.show_storage stats)) (fun _ =>
     Session.when detailed (Session.show_embedding stats))))))) w
    = (r, w, t)
    /\ (status_displayable detailed stats = true -> r = Ok tt)
    /\ (status_displayable detailed stats = false -> exists e, r = Raise e).
Proof.
  unfold status_displayable.
  destruct (show_memory_counts_run stats w) as (r1 & t1 & H1 & Hok1 & Hno1).
  destruct (show_configuration_run stats w) as (r2 & t2 & H2 & Hok2 & Hno2).
  destruct (show_storage_run stats w) as (r3 & t3 & H3 & Hok3 & Hno3).
  destruct (show_embedding_run stats w) as (r4 & t4 & H4 & Hok4 & Hno4).
  unfold Session.bind at 1 2, Session.say. cbv beta iota.
  unfold Session.bind at 1. rewrite H1.
  destruct (dict_entry "memory_counts" stats).
  2:{ destruct (Hno1 eq_refl) as [e ->]. eexists _, _.
      split; [reflexivity|]. split; [discriminate|eauto]. }
  rewrite (Hok1 eq_refl). cbv beta iota. cbn [andb].
  destruct detailed; cbn [negb orb Session.when].
  2:{ eexists _, _. split; [reflexivity|]. split; [reflexivity|discriminate]. }
  unfold Session.bind at 1. rewrite H2.
  destruct (dict_entry "system_config" stats).
  2:{ destruct (Hno2 eq_refl) as [e ->]. eexists _, _.
      split; [reflexivity|]. split; [discriminate|eauto]. }
  rewrite (Hok2 eq_refl). cbv beta iota. cbn [andb].
  unfold Session.bind at 1. rewrite H3.
  destruct (match Dict.get "storage_stats" stats with
            | Some v => negb (Py.truthy v) || is_dict v
            | None => true
            end).
  2:{ destruct (Hno3 eq_refl) as [e ->]. eexists _, _.
      split; [reflexivity|]. split; [discriminate|eauto]. }
  rewrite (Hok3 eq_refl). cbv beta iota. cbn [andb].
  rewrite H4.
  destruct (dict_entry "embedding_info" stats).
  - rewrite (Hok4 eq_refl). eexists _, _. split; [reflexivity|].
    split; [reflexivity|discriminate].
  - destruct (Hno4 eq_refl) as [e ->]. eexists _, _.
    split; [reflexivity|]. split; [discriminate|eauto].
Qed.

Lemma show_status_run {W} (admin : Admin W) (detailed display : bool) (w w' : W)
    (stats : Stats) :
  get_memory_stats admin w = (Ok stats, w') ->
  exists t,
    Session.show_status admin detailed display w
    = (Ok (if display && negb (status_displayable detailed stats) then None else Some stats),
       w', t).
Proof.
  intros Hstats. unfold Session.show_status, Session.try_except.
  unfold Session.bind at 1, Session.call_get_memory_stats. rewrite Hstats. cbv beta iota.
  destruct display; cbn [andb Session.when].
  2:{ unfold Session.bind, Session.ret. eexists. reflexivity. }
  destruct (status_display_run detailed stats w') as (r & t & Hrun & Hok & Hno).
  unfold Session.bind at 1. rewrite Hrun.
  destruct (status_displayable detailed stats).
  - rewrite (Hok eq_refl). unfold Session.ret. eexists. reflexivity.
  - destruct (Hno eq_refl) as [e ->]. unfold Session.bind, Session.say, Session.ret.
    eexists. reflexivity.
Qed.

(** X20: once [get_memory_stats] has answered, [show_status] hands the
    statistics back as they are, unless it displays them and an entry it
    reads as a dict is something else: [memory_counts]; with [detailed]
    also [system_config], a true [storage_stats] and [embedding_info].
    Then the result is [None], as if the statistics could not be had.
    The world is the one [get_memory_stats] left. *)
Theorem status_returns_statistics {W} (admin : Admin W) (detailed display : bool)
    (w w' : W) (stats : Stats) :
  get_memory_stats admin w = (Ok stats, w') ->
  session_outcome (Session.show_status admin detailed display w)
  = Ok (if display && negb (status_displayable detailed stats) then None else Some stats)
  /\ session_world (Session.show_status admin detailed display w) = w'.
Proof.
  intros Hstats.
  destruct (show_status_run admin detailed display w w' stats Hstats) as [t Hrun].
  rewrite Hrun. split; reflexivity.
Qed.

Lemma status_returns_statistics_witness :
  session_outcome
    (Session.show_status (Desk.admin (Ok [("memory_counts", PyInt 3)])) false true 0)
  = Ok None
  /\ session_outcome
       (Session.show_status (Desk.admin (Ok [("memory_counts", PyInt 3)])) false false 0)
     = Ok (Some [("memory_counts", PyInt 3)])
  /\ session_outcome
       (Session.show_status
          (Desk.admin (Ok [("memory_counts", PyDict [("level_0", PyInt 3)]);
                           ("system_config", PyNone)])) false true 0)
     = Ok (Some [("memory_counts", PyDict [("level_0", PyInt 3)]); ("system_config", PyNone)]).
Proof.
  split; [|split].
  - apply (status_returns_statistics (Desk.admin (Ok [("memory_counts", PyInt 3)]))
             false true 0 0 _ eq_refl).
  - apply (status_returns_statistics (Desk.admin (Ok [("memory_counts", PyInt 3)]))
             false false 0 0 _ eq_refl).
  - apply (status_returns_statistics
             (Desk.admin (Ok [("memory_counts", PyDict [("level_0", PyInt 3)]);
                              ("system_config", PyNone)])) false true 0 0 _ eq_refl).
Defined.

(** ** The status of the git analysis *)

Lemma cli_run {W A} (m : M W A) (w : W) :
  Session.cli m w = (outcome (m w), final_world (m w), map Cli (transcript (m w))).
Proof. unfold Session.cli. destruct (m w) as [[r w'] t]. reflexivity. Qed.

(** X21: for a repository path that is given, [show_git_status] looks at
    the path twice and never again: a path that does not exist, or holds no
    [.git], ends it with [False] and no call; for any other path it is the
    count request [search_git_patterns("", limit=0)] under a heading, whose
    query does not name the repository, so what is shown and returned is
    the same for every repository. *)
Theorem git_status_of_repository {W} (env : Env W) (admin : Admin W) (p : string) (w : W) :
  PyStr.truthy p = true ->
  Session.show_git_status env admin (Some p) w
  = if negb (path_exists admin w p) then (Ok false, w, [Say (NoteRepositoryMissing p)])
    else if negb (dot_git_exists (file_system env) w p)
    then (Ok false, w, [Say (NoteNotARepository p)])
    else (outcome (search_git_patterns env "" None 0 w),
          final_world (search_git_patterns env "" None 0 w),
          Say (NoteGitStatusFor p) :: Say (NoteRule 50)
          :: map Cli (transcript (search_git_patterns env "" None 0 w))).
Proof.
  intros Hp. unfold Session.show_git_status, Session.given. rewrite Hp.
  unfold Session.try_except. cbv beta.
  destruct (negb (path_exists admin w p)); [reflexivity|].
  destruct (negb (dot_git_exists (file_system env) w p)); [reflexivity|].
  unfold Session.bind, Session.say. cbv beta iota. rewrite cli_run.
  destruct (returns_search_git_patterns env "" None 0 w) as (a & w' & t & Hrun).
  rewrite Hrun. reflexivity.
Qed.

Lemma git_status_of_repository_witness :
  Session.show_git_status (Desk.env Sample.three_patterns) (Desk.admin (Ok [])) (Some "repo") 0
  = (Ok true, 0,
     Say (NoteGitStatusFor "repo") :: Say (NoteRule 50)
     :: map Cli (transcript
                   (search_git_patterns (Desk.env Sample.three_patterns) "" None 0 0)))
  /\ Session.show_git_status (Desk.env Sample.three_patterns) (Desk.admin (Ok []))
       (Some "docs") 0
     = (Ok false, 0, [Say (NoteNotARepository "docs")])
  /\ Session.show_git_status (Desk.env Sample.three_patterns) (Desk.admin (Ok []))
       (Some "elsewhere") 0
     = (Ok false, 0, [Say (NoteRepositoryMissing "elsewhere")]).
Proof.
  split; [|split].
  - exact (git_status_of_repository (Desk.env Sample.three_patterns) (Desk.admin (Ok []))
             "repo" 0 eq_refl).
  - exact (git_status_of_repository (Desk.env Sample.three_patterns) (Desk.admin (Ok []))
             "docs" 0 eq_refl).
  - exact (git_status_of_repository (Desk.env Sample.three_patterns) (Desk.admin (Ok []))
             "elsewhere" 0 eq_refl).
Defined.

(** X22: without a repository path the result of [show_git_status] is the
    truth value of what [show_status] returned and nothing else: [True]
    when the statistics are a non-empty dict whose memory counts can be
    displayed, whatever the count request that follows finds or fails on;
    [False] for empty statistics, and then no retrieval is made. *)
Theorem git_status_without_repository {W} (env : Env W) (admin : Admin W)
    (repo_path : option string) (w w' : W) (stats : Stats) :
  Session.given repo_path = None ->
  get_memory_stats admin w = (Ok stats, w') ->
  dict_entry "memory_counts" stats = true ->
  session_outcome (Session.show_git_status env admin repo_path w)
  = Ok (Session.stats_truthy (Some stats))
  /\ session_world (Session.show_git_status env admin repo_path w)
     = (if Session.stats_truthy (Some stats)
        then final_world (search_git_patterns env "" None 0 w')
        else w').
Proof.
  intros Hnone Hstats Hcounts.
  destruct (show_status_run admin false true w w' stats Hstats) as [t Hrun].
  assert (Hshown : status_displayable false stats = true).
  { unfold status_displayable. rewrite Hcounts. reflexivity. }
  rewrite Hshown in Hrun. cbn [negb andb] in Hrun.
  assert (Hgit : exists t',
    Session.show_git_status env admin repo_path w
    = (Ok (Session.stats_truthy (Some stats)),
       (if Session.stats_truthy (Some stats)
        then final_world (search_git_patterns env "" None 0 w')
        else w'), t')).
  { unfold Session.show_git_status. rewrite Hnone.
    unfold Session.try_except.
    unfold Session.bind at 1 2, Session.say. cbv beta iota.
    unfold Session.bind at 1. rewrite Hrun. cbv beta iota.
    destruct (Session.stats_truthy (Some stats)); cbn [Session.when].
    - unfold Session.bind, Session.say, Session.ret. cbv beta iota. rewrite cli_run.
      destruct (returns_search_git_patterns env "" None 0 w') as (a & w2 & t2 & Hsearch).
      rewrite Hsearch. eexists. reflexivity.
    - eexists. reflexivity. }
  destruct Hgit as [t' Hgit]. rewrite Hgit. split; reflexivity.
Qed.

Lemma git_status_without_repository_witness :
  session_outcome
    (Session.show_git_status (Desk.env [])
       (Desk.admin (Ok [("memory_counts", PyDict [("level_0", PyInt 3)])])) None 0)
  = Ok true
  /\ session_outcome
       (Session.show_git_status (Desk.env Sample.three_patterns) (Desk.admin (Ok []))
          (Some "") 0)
     = Ok false.
Proof.
  split.
  - apply (git_status_without_repository (Desk.env [])
             (Desk.admin (Ok [("memory_counts", PyDict [("level_0", PyInt 3)])])) None 0 0 _
             eq_refl eq_refl eq_refl).
  - apply (git_status_without_repository (Desk.env Sample.three_patterns)
             (Desk.admin (Ok [])) (Some "") 0 0 _ eq_refl eq_refl eq_refl).
Defined.

(** ** What a command line holds *)

Lemma rev_app_list (s acc : string) :
  list_ascii_of_string (String.rev_app s acc)
  = List.rev (list_ascii_of_string s) ++ list_ascii_of_string acc.
Proof.
  revert acc. induction s as [|c s IH]; intros acc; simpl; [reflexivity|].
  rewrite IH. simpl. rewrite <- app_assoc. reflexivity.
Qed.

Lemma rev_list (s : string) :
  list_ascii_of_string (String.rev s) = List.rev (list_ascii_of_string s).
Proof. unfold String.rev. rewrite rev_app_list. simpl. apply app_nil_r. Qed.

Lemma append_list (s1 s2 : string) :
  list_ascii_of_string (s1 +:+ s2) = list_ascii_of_string s1 ++ list_ascii_of_string s2.
Proof. induction s1 as [|c s1 IH]; simpl; [reflexivity|]. rewrite IH. reflexivity. Qed.

Lemma list_nil_string (s : string) : list_ascii_of_string s = [] -> s = "".
Proof. destruct s; [reflexivity|discriminate]. Qed.

(** [lstrip] stops at a character that is no white space. *)
Lemma lstrip_cases (s : string) :
  PyStr.lstrip s = ""
  \/ exists c s', PyStr.lstrip s = String c s' /\ PyStr.isspace c = false.
Proof.
  induction s as [|c s IH]; simpl; [left; reflexivity|].
  destruct (PyStr.isspace c) eqn:Hc; [exact IH|]. right. exists c, s. split; [reflexivity|exact Hc].
Qed.

Lemma lstrip_empty (s : string) : PyStr.lstrip s = "" -> PyStr.all_space s = true.
Proof.
  unfold PyStr.all_space. induction s as [|c s IH]; simpl; [reflexivity|].
  destruct (PyStr.isspace c); [exact IH|discriminate].
Qed.

Lemma forallb_rev {A} (f : A -> bool) (l : list A) : forallb f (List.rev l) = forallb f l.
Proof.
  induction l as [|x l IH]; simpl; [reflexivity|].
  rewrite forallb_app, IH. simpl. rewrite andb_true_r. apply andb_comm.
Qed.

(** A string with a character that is no white space is not stripped to
    nothing. *)
Lemma strip_text (s : string) :
  PyStr.all_space s = false -> PyStr.truthy (PyStr.strip s) = true.
Proof.
  intros Htext. destruct (PyStr.strip s) as [|c s'] eqn:Hstrip; [|reflexivity].
  exfalso. unfold PyStr.strip, PyStr.rstrip in Hstrip.
  assert (Hinner : PyStr.lstrip (String.rev (PyStr.lstrip s)) = "").
  { apply list_nil_string. apply (f_equal list_ascii_of_string) in Hstrip.
    rewrite rev_list in Hstrip. simpl in Hstrip.
    destruct (list_ascii_of_string (PyStr.lstrip (String.rev (PyStr.lstrip s))));
      [reflexivity|].
    simpl in Hstrip. destruct (List.rev l); discriminate Hstrip. }
  apply lstrip_empty in Hinner. unfold PyStr.all_space in Hinner.
  rewrite rev_list, forallb_rev in Hinner.
  destruct (lstrip_cases s) as [Hnone|(c & s' & Hsome & Hc)].
  - apply lstrip_empty in Hnone. congruence.
  - rewrite Hsome in Hinner. simpl in Hinner. rewrite Hc in Hinner. discriminate Hinner.
Qed.

(** What [strip] leaves is empty or ends with a character that is no
    white space. *)
Lemma strip_cases (s : string) :
  PyStr.strip s = ""
  \/ exists front c,
       list_ascii_of_string (PyStr.strip s) = front ++ [c] /\ PyStr.isspace c = false.
Proof.
  unfold PyStr.strip, PyStr.rstrip.
  destruct (lstrip_cases (String.rev (PyStr.lstrip s))) as [Hnone|(c & s' & Hsome & Hc)].
  - left. rewrite Hnone. reflexivity.
  - right. exists (List.rev (list_ascii_of_string s')), c.
    rewrite rev_list, Hsome. split; [reflexivity|exact Hc].
Qed.

Lemma strip_not_blank (s : string) :
  PyStr.truthy (PyStr.strip s) = true -> PyStr.all_space (PyStr.strip s) = false.
Proof.
  intros Htruthy. destruct (strip_cases s) as [Hnone|(front & c & Hlist & Hc)].
  - rewrite Hnone in Htruthy. discriminate Htruthy.
  - unfold PyStr.all_space. rewrite Hlist, forallb_app. simpl. rewrite Hc.
    apply andb_false_r.
Qed.

Lemma startswith_split (s p : string) :
  PyStr.startswith s p = true -> s = p +:+ Session.slice_from (String.length p) s.
Proof.
  unfold PyStr.startswith. revert s. induction p as [|c p IH]; intros [|d s]; simpl;
    try reflexivity; try discriminate.
  destruct (Ascii.ascii_dec c d) as [->|Hne]; [|discriminate].
  intros H. change (String d p +:+ Session.slice_from (String.length p) s)
    with (String d (p +:+ Session.slice_from (String.length p) s)).
  rewrite <- (IH s H). reflexivity.
Qed.

(** A stripped line that starts with a word and a space holds something
    after them: what follows is not blank. *)
Lemma command_argument (raw word : string) :
  PyStr.startswith (PyStr.strip raw) (word +:+ " ") = true ->
  PyStr.all_space
    (Session.slice_from (String.length (word +:+ " ")) (PyStr.strip raw)) = false.
Proof.
  intros Hstart. apply startswith_split in Hstart.
  destruct (PyStr.all_space (Session.slice_from _ _)) eqn:Hblank; [|reflexivity].
  exfalso. apply (f_equal list_ascii_of_string) in Hstart.
  rewrite !append_list, <- app_assoc in Hstart.
  cbn [list_ascii_of_string app] in Hstart.
  destruct (strip_cases raw) as [Hnone|(front & c & Hlist & Hc)].
  - rewrite Hnone in Hstart at 1. cbn [list_ascii_of_string] in Hstart.
    destruct (list_ascii_of_string word); discriminate Hstart.
  - rewrite Hlist in Hstart.
    unfold PyStr.all_space in Hblank.
    destruct (exists_last (l := " "%char :: list_ascii_of_string
                (Session.slice_from (String.length (word +:+ " ")) (PyStr.strip raw))))
      as (body & d & Hlast); [discriminate|].
    assert (Hd : PyStr.isspace d = true).
    { assert (Hall : forallb PyStr.isspace
                       (" "%char :: list_ascii_of_string
                          (Session.slice_from (String.length (word +:+ " "))
                             (PyStr.strip raw))) = true)
        by (simpl; exact Hblank).
      rewrite Hlast, forallb_app in Hall. apply andb_true_iff in Hall as [_ Hall].
      simpl in Hall. rewrite andb_true_r in Hall. exact Hall. }
    rewrite Hlast, app_assoc in Hstart.
    apply app_inj_tail in Hstart as [_ ->]. congruence.
Qed.

Lemma command_text (raw word : string) :
  PyStr.startswith (PyStr.strip raw) (word +:+ " ") = true ->
  PyStr.truthy
    (PyStr.strip (Session.slice_from (String.length (word +:+ " ")) (PyStr.strip raw)))
  = true
  /\ PyStr.truthy
       (PyStr.strip
          (PyStr.strip
             (Session.slice_from (String.length (word +:+ " ")) (PyStr.strip raw))))
     = true.
Proof.
  intros Hstart. pose proof (strip_text _ (command_argument raw word Hstart)) as Htext.
  split; [exact Htext|]. apply strip_text, strip_not_blank. exact Htext.
Qed.

(** ** No complaint about a blank input *)

Lemma avoids_print_line {W} (p : Event -> bool) (m : Msg) :
  p (Print m) = false -> avoids (W := W) p (print m).
Proof. intros Hm w. unfold print, transcript. simpl. rewrite Hm. reflexivity. Qed.

Lemma calm_print_source {W} (source_info : option string) :
  avoids (W := W) blank_complaint (print_source source_info).
Proof.
  destruct source_info as [s|]; simpl; [|apply avoids_ret].
  apply avoids_when, avoids_print_line. reflexivity.
Qed.

Ltac calm_step :=
  first
    [ apply avoids_ret | apply avoids_lift | apply avoids_raise
    | apply avoids_print_line; reflexivity
    | apply calm_print_source
    | apply avoids_when
    | apply avoids_try_except; [|intros ?]
    | apply avoids_bind; [|intros ?]
    | apply avoids_for_each; intros ? ? ].

Lemma calm_call_retrieve_memories {W} (env : Env W) query types limit :
  avoids blank_complaint (call_retrieve_memories env query types limit).
Proof.
  intros w. unfold call_retrieve_memories, transcript.
  destruct (cs_retrieve_memories _ _ _ _ _) as [r w']. reflexivity.
Qed.

Lemma calm_call_load_memories_from_source {W} (env : Env W) kind path kw :
  avoids blank_complaint (call_load_memories_from_source env kind path kw).
Proof.
  intros w. unfold call_load_memories_from_source, transcript.
  destruct (cs_load_memories_from_source _ _ _ _ _) as [r w']. reflexivity.
Qed.

Lemma calm_call_get_supported_extensions {W} (env : Env W) kind :
  avoids blank_complaint (call_get_supported_extensions env kind).
Proof.
  intros w. unfold call_get_supported_extensions, transcript.
  destruct (get_supported_extensions _ _) as [r w']. reflexivity.
Qed.

Lemma calm_call_validate_source {W} (env : Env W) kind path :
  avoids blank_complaint (call_validate_source env kind path).
Proof.
  intros w. unfold call_validate_source, transcript.
  destruct (validate_source _ _ _) as [r w']. reflexivity.
Qed.

Lemma calm_call_load_from_source {W} (env : Env W) kind path kw :
  avoids blank_complaint (call_load_from_source env kind path kw).
Proof.
  intros w. unfold call_load_from_source, transcript.
  destruct (load_from_source _ _ _ _) as [r w']. reflexivity.
Qed.

Lemma calm_call_extract_connections {W} (env : Env W) kind memories :
  avoids blank_complaint (call_extract_connections env kind memories).
Proof.
  intros w. unfold call_extract_connections, transcript.
  destruct (extract_connections _ _ _) as [r w']. reflexivity.
Qed.

Lemma calm_print_levels {W} line dist :
  (forall level name count, blank_complaint (Print (line level name count)) = false) ->
  avoids (W := W) blank_complaint (print_levels line dist).
Proof.
  intros Hline. unfold print_levels. apply avoids_for_each. intros _ entry.
  apply avoids_bind; [apply avoids_lift|intros name].
  apply avoids_print_line, Hline.
Qed.

Lemma calm_store_experience {W} (env : Env W) text :
  PyStr.truthy (PyStr.strip text) = true ->
  avoids blank_complaint (store_experience env text PyNone None).
Proof.
  intros Htext w. unfold store_experience. rewrite Htext. cbn [negb].
  rewrite store_with_context_run.
  destruct (cs_store_experience _ _ _ _) as [[memory_id|e] w1]; unfold transcript; simpl;
    [destruct (PyStr.truthy memory_id)|]; reflexivity.
Qed.

Lemma calm_display_results {W} (env : Env W) query results :
  avoids blank_complaint (display_results env query results).
Proof.
  unfold display_results.
  destruct (total_results results =? 0); [calm_step|].
  calm_step; [calm_step|].
  apply avoids_for_each. intros _ [bucket items]. unfold display_bucket.
  destruct items as [|item items]; [calm_step|].
  calm_step; [calm_step|]. calm_step; [|calm_step].
  apply avoids_for_each. intros i it.
  calm_step; [|calm_step].
  unfold display_item.
  destruct it as [m|b]; simpl.
  - repeat calm_step.
  - destruct (String.eqb bucket "bridge"); repeat calm_step.
Qed.

Lemma calm_retrieve_memories {W} (env : Env W) query types limit display :
  PyStr.truthy (PyStr.strip query) = true ->
  avoids blank_complaint (retrieve_memories env query types limit display).
Proof.
  intros Hquery. unfold retrieve_memories. rewrite Hquery. cbn [negb].
  calm_step; [|repeat calm_step].
  calm_step; [apply calm_call_retrieve_memories|].
  calm_step; [|calm_step].
  calm_step. apply calm_display_results.
Qed.

Lemma calm_process_file {W} (env : Env W) kind top dry_run kw acc file :
  avoids blank_complaint (process_file env kind top dry_run kw acc file).
Proof.
  unfold process_file.
  apply avoids_bind; [apply calm_call_validate_source|intros valid].
  destruct (negb valid); [repeat calm_step|].
  destruct dry_run.
  - calm_step; [calm_step|]. calm_step; [|repeat calm_step].
    calm_step; [apply calm_call_load_from_source|].
    calm_step; [apply calm_call_extract_connections|].
    repeat calm_step.
  - calm_step; [calm_step|]. calm_step; [|repeat calm_step].
    apply avoids_bind; [apply calm_call_load_memories_from_source|intros results].
    destruct (success results); repeat calm_step.
Qed.

Lemma calm_directory_summary {W} dry_run totals :
  avoids (W := W) blank_complaint (directory_summary dry_run totals).
Proof.
  unfold directory_summary. destruct dry_run.
  - calm_step; [calm_step|]. calm_step; [calm_step|].
    apply calm_print_levels. reflexivity.
  - do 4 (calm_step; [calm_step|]).
    calm_step; [|repeat calm_step].
    destruct (hierarchy_dist_combined totals); [calm_step|].
    calm_step; [calm_step|]. apply calm_print_levels. reflexivity.
Qed.

Lemma calm_load_directory {W} (env : Env W) kind source_path dry_run kw :
  avoids blank_complaint (load_directory env kind source_path dry_run kw).
Proof.
  unfold load_directory. calm_step; [apply calm_call_get_supported_extensions|].
  calm_step; [intros w; reflexivity|]. cbv zeta.
  destruct (find_files _ _ _); [repeat calm_step|].
  calm_step; [calm_step|].
  calm_step; [repeat calm_step|].
  calm_step; [apply avoids_for_each; intros; apply calm_process_file|].
  calm_step; [apply calm_directory_summary|calm_step].
Qed.

Lemma calm_load_single {W} (env : Env W) kind source_path dry_run kw :
  avoids blank_complaint (load_single env kind source_path dry_run kw).
Proof.
  unfold load_single.
  apply avoids_bind; [apply calm_call_validate_source|intros valid].
  destruct (negb valid); [repeat calm_step|].
  destruct dry_run.
  - calm_step; [calm_step|]. calm_step; [|repeat calm_step].
    calm_step; [apply calm_call_load_from_source|].
    calm_step; [apply calm_call_extract_connections|].
    calm_step; [calm_step|]. cbv zeta.
    calm_step; [apply calm_print_levels; reflexivity|].
    repeat calm_step.
  - calm_step; [calm_step|].
    apply avoids_bind; [apply calm_call_load_memories_from_source|intros results].
    destruct (success results); [|repeat calm_step].
    do 4 (calm_step; [calm_step|]).
    calm_step; [|repeat calm_step].
    destruct (hierarchy_distribution results); [|calm_step].
    calm_step; [calm_step|]. apply calm_print_levels. reflexivity.
Qed.

Lemma calm_load_memories {W} (env : Env W) source_path loader_type dry_run recursive kw :
  avoids blank_complaint (load_memories env source_path loader_type dry_run recursive kw).
Proof.
  unfold load_memories. destruct (loader_kind loader_type) as [kind|];
    [|repeat calm_step].
  apply avoids_try_except; [|intros e; repeat calm_step].
  intros w. destruct (is_directory_scan env kind source_path w).
  - destruct (negb recursive).
    + assert (H : avoids (W := W) blank_complaint
                    (print (MsgIsDirectory source_path) ;; ret false))
        by repeat calm_step.
      exact (H w).
    + exact (calm_load_directory env kind source_path dry_run kw w).
  - exact (calm_load_single env kind source_path dry_run kw w).
Qed.

(** ** The interactive session *)

Section SessionAvoids.

Context {W : Type} (p : Trace -> bool).

Lemma session_avoids_ret {A} (a : A) : session_avoids (W := W) p (Session.ret a).
Proof. intros w. reflexivity. Qed.

Lemma session_avoids_say (n : Note) :
  p (Say n) = false -> session_avoids (W := W) p (Session.say n).
Proof. intros Hn w. unfold Session.say, session_trace. simpl. rewrite Hn. reflexivity. Qed.

Lemma session_avoids_lift {A} (r : Result A) : session_avoids (W := W) p (Session.lift r).
Proof. intros w. reflexivity. Qed.

Lemma session_avoids_bind {A B} (m : Session.Act W A) (k : A -> Session.Act W B) :
  session_avoids p m -> (forall a, session_avoids p (k a)) ->
  session_avoids p (Session.bind m k).
Proof.
  intros Hm Hk w. specialize (Hm w). unfold Session.bind.
  destruct (m w) as [[[a|e] w1] t1]; unfold session_trace in *; simpl in *; [|exact Hm].
  specialize (Hk a w1). destruct (k a w1) as [[r w2] t2]. simpl in *.
  rewrite existsb_app, Hm, Hk. reflexivity.
Qed.

Lemma session_avoids_try_except {A} (m : Session.Act W A) (h : Exn -> Session.Act W A) :
  session_avoids p m -> (forall e, session_avoids p (h e)) ->
  session_avoids p (Session.try_except m h).
Proof.
  intros Hm Hh w. specialize (Hm w). unfold Session.try_except.
  destruct (m w) as [[[a|e] w1] t1]; unfold session_trace in *; simpl in *; [exact Hm|].
  specialize (Hh e w1). destruct (h e w1) as [[r w2] t2]. simpl in *.
  rewrite existsb_app, Hm, Hh. reflexivity.
Qed.

Lemma session_avoids_when (c : bool) (m : Session.Act W unit) :
  session_avoids p m -> session_avoids p (Session.when c m).
Proof. intros Hm. destruct c; [exact Hm|apply session_avoids_ret]. Qed.

Lemma session_avoids_for_each {A} (body : A -> Session.Act W unit) (l : list A) :
  (forall x, session_avoids p (body x)) -> session_avoids p (Session.for_each body l).
Proof.
  intros Hbody. induction l as [|x l IH]; simpl.
  - apply session_avoids_ret.
  - apply session_avoids_bind; [apply Hbody|intros _; exact IH].
Qed.

Lemma session_avoids_cli {A} (m : M W A) :
  avoids (fun e => p (Cli e)) m -> session_avoids p (Session.cli m).
Proof.
  intros Hm w. specialize (Hm w). rewrite cli_run. unfold session_trace. cbn [snd].
  induction (transcript (m w)) as [|e t IH]; [reflexivity|].
  simpl in *. destruct (p (Cli e)); [discriminate Hm|]. exact (IH Hm).
Qed.

End SessionAvoids.

Ltac hush_step :=
  first
    [ apply session_avoids_ret | apply session_avoids_lift
    | apply session_avoids_say; reflexivity
    | apply session_avoids_when
    | apply session_avoids_try_except; [|intros ?]
    | apply session_avoids_bind; [|intros ?]
    | apply session_avoids_for_each; intros ? ].

Lemma hush_show_status {W} (admin : Admin W) detailed display :
  session_avoids unreachable_line (Session.show_status admin detailed display).
Proof.
  unfold Session.show_status. hush_step; [|repeat hush_step].
  hush_step.
  { intros w. unfold Session.call_get_memory_stats, session_trace.
    destruct (get_memory_stats admin w) as [r w']. reflexivity. }
  hush_step; [|hush_step]. hush_step.
  do 2 (hush_step; [hush_step|]).
  hush_step.
  { unfold Session.show_memory_counts.
    destruct (Dict.get "memory_counts" a); repeat hush_step. }
  hush_step.
  { hush_step. unfold Session.show_configuration.
    destruct (Dict.get "system_config" a); repeat hush_step. }
  hush_step.
  { hush_step. unfold Session.show_storage.
    destruct (Dict.get "storage_stats" a); [|hush_step].
    hush_step. do 2 (hush_step; [hush_step|]). hush_step.
    destruct (snd x) as [| | | | | |level_stats]; try hush_step.
    destruct (Dict.get "vectors_count" level_stats); hush_step. }
  hush_step. unfold Session.show_embedding.
  destruct (Dict.get "embedding_info" a); repeat hush_step.
Qed.

Lemma hush_consolidate_memories {W} (admin : Admin W) dry_run :
  session_avoids unreachable_line (Session.consolidate_memories admin dry_run).
Proof.
  intros w. rewrite consolidate_memories_run. unfold session_trace. cbn [snd].
  destruct dry_run, (fst (cs_consolidate_memories admin w)); reflexivity.
Qed.

Lemma session_returns_show_status {W} (admin : Admin W) detailed display :
  session_returns (Session.show_status admin detailed display).
Proof.
  unfold Session.show_status. apply session_returns_try_except. intros e.
  apply session_returns_bind; [|intros _; apply session_returns_ret].
  apply session_returns_when, session_returns_say.
Qed.

Lemma session_returns_consolidate_memories {W} (admin : Admin W) dry_run :
  session_returns (Session.consolidate_memories admin dry_run).
Proof. intros w. rewrite consolidate_memories_run. eexists _, _, _. reflexivity. Qed.

Lemma session_returns_discard {W A} (m : Session.Act W A) :
  session_returns m -> session_returns (Session.bind m (fun _ => Session.ret tt)).
Proof.
  intros Hm. apply session_returns_bind; [exact Hm|intros _; apply session_returns_ret].
Qed.

Lemma session_avoids_discard {W A} (p : Trace -> bool) (m : Session.Act W A) :
  session_avoids p m -> session_avoids p (Session.bind m (fun _ => Session.ret tt)).
Proof.
  intros Hm. apply session_avoids_bind; [exact Hm|intros _; apply session_avoids_ret].
Qed.

Lemma unreachable_cli (e : Event) : unreachable_line (Cli e) = blank_complaint e.
Proof. destruct e as [[]| | | | | | |]; reflexivity. Qed.

Lemma hush_cli {W A} (m : M W A) :
  avoids blank_complaint m -> session_avoids unreachable_line (Session.cli m).
Proof.
  intros Hm. apply session_avoids_cli. intros w. specialize (Hm w).
  rewrite <- Hm. apply filter_ext. intros e. apply unreachable_cli.
Qed.

(** One command of a stripped line goes through, and prints none of the
    lines marked unreachable. *)
Lemma run_command_run {W} (env : Env W) (admin : Admin W) (raw : string) :
  session_returns (Session.run_command env admin (PyStr.strip raw))
  /\ session_avoids unreachable_line (Session.run_command env admin (PyStr.strip raw)).
Proof.
  unfold Session.run_command.
  destruct (Session.among _ _).
  { split.
    - apply session_returns_for_each. intros n. apply session_returns_say.
    - unfold Session.show_interactive_help. repeat hush_step. }
  destruct (PyStr.startswith (PyStr.strip raw) "store ") eqn:Hstore.
  { destruct (command_text raw "store" Hstore) as [_ Htext]. split.
    - apply session_returns_discard, session_returns_cli, returns_store_experience.
    - apply session_avoids_discard, hush_cli, calm_store_experience. exact Htext. }
  destruct (PyStr.startswith (PyStr.strip raw) "retrieve ") eqn:Hretrieve.
  { destruct (command_text raw "retrieve" Hretrieve) as [_ Htext]. split.
    - apply session_returns_discard, session_returns_cli, returns_retrieve_memories.
    - apply session_avoids_discard, hush_cli, calm_retrieve_memories. exact Htext. }
  destruct (PyStr.startswith (PyStr.strip raw) "bridges ") eqn:Hbridges.
  { destruct (command_text raw "bridges" Hbridges) as [_ Htext]. split.
    - apply session_returns_discard, session_returns_cli, returns_retrieve_memories.
    - apply session_avoids_discard, hush_cli, calm_retrieve_memories. exact Htext. }
  destruct (String.eqb _ "status").
  { split.
    - apply session_returns_discard, session_returns_show_status.
    - apply session_avoids_discard, hush_show_status. }
  destruct (String.eqb _ "config").
  { split.
    - apply session_returns_discard, session_returns_show_status.
    - apply session_avoids_discard, hush_show_status. }
  destruct (String.eqb _ "consolidate").
  { split.
    - apply session_returns_discard, session_returns_consolidate_memories.
    - apply session_avoids_discard, hush_consolidate_memories. }
  destruct (PyStr.startswith (PyStr.strip raw) "load ") eqn:Hload.
  { destruct (command_text raw "load" Hload) as [Htext _]. cbv zeta.
    change (String.length ("load" +:+ " ")) with 5%nat in Htext. rewrite Htext. split.
    - apply session_returns_discard, session_returns_cli, returns_load_memories.
    - apply session_avoids_discard, hush_cli, calm_load_memories. }
  split.
  - apply session_returns_bind; [apply session_returns_say|intros _; apply session_returns_say].
  - repeat hush_step.
Qed.

Lemma command_loop_run {W} (env : Env W) (admin : Admin W) (inputs : list Keyed) :
  session_returns (Session.command_loop env admin inputs)
  /\ session_avoids unreachable_line (Session.command_loop env admin inputs).
Proof.
  induction inputs as [|[raw|] rest [IHr IHa]]; cbn [Session.command_loop].
  - split.
    + apply session_returns_bind; [|intros _; apply session_returns_say].
      intros w. eexists _, _, _. reflexivity.
    + intros w. reflexivity.
  - destruct (run_command_run env admin raw) as [Hr Ha].
    split.
    + apply session_returns_bind; [intros w; eexists _, _, _; reflexivity|intros _].
      destruct (negb _); [exact IHr|].
      destruct (Session.among _ _); [apply session_returns_say|].
      apply session_returns_bind; [|intros _; exact IHr].
      intros w. destruct (Hr w) as (a & w' & t & Hrun).
      exists a, w', t. unfold Session.try_except. rewrite Hrun. reflexivity.
    + apply session_avoids_bind; [intros w; reflexivity|intros _].
      destruct (negb _); [exact IHa|].
      destruct (Session.among _ _); [hush_step|].
      apply session_avoids_bind; [|intros _; exact IHa].
      intros w. destruct (Hr w) as (done & w' & t & Hrun).
      specialize (Ha w). unfold Session.try_except. rewrite Hrun in *. exact Ha.
  - split.
    + apply session_returns_bind; [|intros _; apply session_returns_say].
      intros w. eexists _, _, _. reflexivity.
    + intros w. reflexivity.
Qed.

Lemma interactive_mode_loop_run {W} (env : Env W) (admin : Admin W)
    (inputs : list Keyed) (w : W) :
  exists w' t, Session.interactive_mode_loop env admin inputs w = (Ok tt, w', t).
Proof.
  destruct (command_loop_run env admin inputs) as [Hr _].
  assert (Hreturns : session_returns (Session.interactive_mode_loop env admin inputs)).
  { unfold Session.interactive_mode_loop.
    do 3 (apply session_returns_bind; [apply session_returns_say|intros _]).
    exact Hr. }
  destruct (Hreturns w) as ([] & w' & t & Hrun). exists w', t. exact Hrun.
Qed.

(** X23: an interactive session comes to its end whatever is typed and
    whatever the collaborators do ([input] giving lines, an interrupt or
    the end of the input), and four lines of the code are never printed in
    it: the error line of the loop (each command catches its own
    exceptions), the usage line of [load] and the complaints of
    [store_experience] and [retrieve_memories] about a blank input (a
    stripped line that starts with the command word and a space always
    holds an argument). *)
Theorem session_ends_without_complaint {W} (env : Env W) (admin : Admin W)
    (inputs : list Keyed) (w : W) :
  session_outcome (Session.interactive_mode_loop env admin inputs w) = Ok tt
  /\ existsb unreachable_line
       (session_trace (Session.interactive_mode_loop env admin inputs w)) = false.
Proof.
  destruct (command_loop_run env admin inputs) as [Hr Ha].
  split.
  - assert (Hreturns : session_returns (Session.interactive_mode_loop env admin inputs)).
    { unfold Session.interactive_mode_loop.
      do 3 (apply session_returns_bind; [apply session_returns_say|intros _]).
      exact Hr. }
    destruct (Hreturns w) as ([] & w' & t & Hrun). rewrite Hrun. reflexivity.
  - assert (Havoids : session_avoids unreachable_line
                        (Session.interactive_mode_loop env admin inputs)).
    { unfold Session.interactive_mode_loop. do 3 (hush_step; [hush_step|]). exact Ha. }
    exact (Havoids w).
Qed.

Lemma session_bind_ext {W A B} (m : Session.Act W A) (k k' : A -> Session.Act W B) (w : W) :
  (forall a w', k a w' = k' a w') -> Session.bind m k w = Session.bind m k' w.
Proof.
  intros Hk. unfold Session.bind. destruct (m w) as [[[a|e] w1] t1]; [|reflexivity].
  rewrite Hk. reflexivity.
Qed.

(** X24: a line that reads quit, exit or q (in any case, white space
    around it aside) ends the session: what is typed after it is never
    read, whatever came before. *)
Theorem quit_ends_session {W} (env : Env W) (admin : Admin W) (before after : list Keyed)
    (raw : string) (w : W) :
  is_quit raw = true ->
  Session.interactive_mode_loop env admin (before ++ Line raw :: after) w
  = Session.interactive_mode_loop env admin (before ++ [Line raw]) w.
Proof.
  intros Hquit. unfold Session.interactive_mode_loop.
  do 3 (apply session_bind_ext; intros _ ?).
  clear w. rename w'1 into w. revert w.
  induction before as [|[line|] before IH]; intros w; cbn [app Session.command_loop].
  - apply session_bind_ext. intros _ w1. unfold is_quit in Hquit.
    destruct (PyStr.strip raw) as [|c s]; [discriminate Hquit|].
    cbn [PyStr.truthy negb]. rewrite Hquit. reflexivity.
  - apply session_bind_ext. intros _ w1.
    destruct (negb _); [apply IH|].
    destruct (Session.among _ _); [reflexivity|].
    apply session_bind_ext. intros _ w2. apply IH.
  - reflexivity.
Qed.

Lemma quit_ends_session_witness :
  Session.interactive_mode_loop (Desk.env []) (Desk.admin (Ok []))
    ([Line "help"] ++ Line " Quit " :: [Line "store the build is green"]) 0
  = Session.interactive_mode_loop (Desk.env []) (Desk.admin (Ok []))
      ([Line "help"] ++ [Line " Quit "]) 0.
Proof.
  apply (quit_ends_session (Desk.env []) (Desk.admin (Ok [])) [Line "help"]
           [Line "store the build is green"] " Quit " 0).
  reflexivity.
Defined.

(** X25: the session has no way to load a directory: its [load] command
    calls [load_memories] with the markdown loader, no dry run and no
    recursion, so a path that is a directory is answered with the hint at
    [--recursive] and nothing is loaded. *)
Theorem session_load_refuses_directory {W} (env : Env W) (admin : Admin W) (raw : string)
    (w : W) :
  PyStr.startswith (PyStr.strip raw) "load " = true ->
  is_dir (file_system env) w (PyStr.strip (Session.slice_from 5 (PyStr.strip raw))) = true ->
  Session.run_command env admin (PyStr.strip raw) w
  = (Ok tt, w,
     [Cli (Print (MsgIsDirectory (PyStr.strip (Session.slice_from 5 (PyStr.strip raw)))))]).
Proof.
  intros Hload Hdir.
  destruct (command_text raw "load" Hload) as [Htext _].
  change (String.length ("load" +:+ " ")) with 5%nat in Htext.
  pose proof (startswith_split _ _ Hload) as Hsplit.
  change (String.length "load ") with 5%nat in Hsplit.
  remember (PyStr.strip raw) as command eqn:Hcommand.
  remember (Session.slice_from 5 command) as rest eqn:Hrest.
  assert (Hhelp : Session.among (Session.lower command) ["help"; "h"; "?"] = false)
    by (rewrite Hsplit; reflexivity).
  assert (Hstore : PyStr.startswith command "store " = false)
    by (rewrite Hsplit; reflexivity).
  assert (Hretrieve : PyStr.startswith command "retrieve " = false)
    by (rewrite Hsplit; reflexivity).
  assert (Hbridges : PyStr.startswith command "bridges " = false)
    by (rewrite Hsplit; reflexivity).
  assert (Hstatus : String.eqb (Session.lower command) "status" = false)
    by (rewrite Hsplit; reflexivity).
  assert (Hconfig : String.eqb (Session.lower command) "config" = false)
    by (rewrite Hsplit; reflexivity).
  assert (Hconsolidate : String.eqb (Session.lower command) "consolidate" = false)
    by (rewrite Hsplit; reflexivity).
  unfold Session.run_command.
  rewrite Hhelp, Hstore, Hretrieve, Hbridges, Hstatus, Hconfig, Hconsolidate, Hload.
  cbv zeta. rewrite <- Hrest, Htext.
  unfold Session.bind. rewrite cli_run.
  assert (Hrun : load_memories env (PyStr.strip rest) "markdown" false false [] w
                 = (Ok false, w, [Print (MsgIsDirectory (PyStr.strip rest))])).
  { unfold load_memories. change (loader_kind "markdown") with (Some Markdown).
    unfold try_except. cbv beta. unfold is_directory_scan. rewrite Hdir. reflexivity. }
  rewrite Hrun. reflexivity.
Qed.

Lemma session_load_refuses_directory_witness :
  Session.run_command (Desk.env []) (Desk.admin (Ok [])) (PyStr.strip "load  docs ") 0
  = (Ok tt, 0, [Cli (Print (MsgIsDirectory "docs"))]).
Proof.
  apply (session_load_refuses_directory (Desk.env []) (Desk.admin (Ok [])) "load  docs " 0);
    reflexivity.
Defined.

(** ** The dispatch of the further commands *)

Lemma session_returns_show_git_status {W} (env : Env W) (admin : Admin W) repo_path :
  session_returns (Session.show_git_status env admin repo_path).
Proof.
  unfold Session.show_git_status. apply session_returns_try_except. intros e.
  apply session_returns_bind; [apply session_returns_say|intros _; apply session_returns_ret].
Qed.

(** X26: each of the commands status, consolidate, clear, git-status and
    interactive ends with exit code 0 or 1, whatever the collaborators do
    and whatever is typed; [clear] always ends with 1 and touches nothing,
    an interactive session always ends with 0. *)
Theorem further_exit_codes {W} (env : Env W) (admin : Admin W) (w : W) :
  (forall args,
     session_outcome (Session.main_further env admin args w) = Ok 0
     \/ session_outcome (Session.main_further env admin args w) = Ok 1)
  /\ (forall type confirm,
        Session.main_further env admin (Session.ArgsClear type confirm) w
        = (Ok 1, w, [Say NoteClearNotImplemented; Say NoteUseDatabaseTools]))
  /\ (forall inputs,
        session_outcome (Session.main_further env admin (Session.ArgsInteractive inputs) w)
        = Ok 0).
Proof.
  assert (Hcode : forall (m : Session.Act W bool), session_returns m ->
            session_outcome (Session.bind m (fun s => Session.ret (exit_code s)) w) = Ok 0
            \/ session_outcome (Session.bind m (fun s => Session.ret (exit_code s)) w) = Ok 1).
  { intros m Hm. destruct (Hm w) as (s & w' & t & Hrun).
    unfold Session.bind, Session.ret. rewrite Hrun.
    destruct s; [left|right]; reflexivity. }
  assert (Hsession : forall inputs,
            session_outcome (Session.main_further env admin (Session.ArgsInteractive inputs) w)
            = Ok 0).
  { intros inputs. cbn [Session.main_further].
    pose proof (interactive_mode_loop_run env admin inputs w) as (w' & t & Hrun).
    unfold Session.bind, Session.ret. rewrite Hrun. reflexivity. }
  split; [|split; [reflexivity|exact Hsession]].
  intros [detailed|dry_run|type confirm|repo_path|inputs].
  - cbn [Session.main_further].
    destruct (session_returns_show_status admin detailed true w) as (s & w' & t & Hrun).
    unfold Session.bind, Session.ret. rewrite Hrun.
    destruct (Session.stats_truthy s); [left|right]; reflexivity.
  - apply Hcode, session_returns_consolidate_memories.
  - right. reflexivity.
  - apply Hcode, session_returns_show_git_status.
  - left. apply Hsession.
Qed.

(** X27: the status command ends with exit code 0 exactly when the
    statistics it got are a non-empty dict that the display could go
    through: empty statistics end it with 1 although they were retrieved
    and shown. *)
Theorem status_exit_code {W} (admin : Admin W) (env : Env W) (detailed : bool)
    (w w' : W) (stats : Stats) :
  get_memory_stats admin w = (Ok stats, w') ->
  session_outcome (Session.main_further env admin (Session.ArgsStatus detailed) w)
  = Ok (exit_code
          (status_displayable detailed stats && Session.stats_truthy (Some stats))).
Proof.
  intros Hstats. cbn [Session.main_further].
  destruct (show_status_run admin detailed true w w' stats Hstats) as [t Hrun].
  unfold Session.bind, Session.ret. rewrite Hrun. cbn [andb].
  destruct (status_displayable detailed stats); reflexivity.
Qed.

Lemma status_exit_code_witness :
  session_outcome
    (Session.main_further (Desk.env []) (Desk.admin (Ok [])) (Session.ArgsStatus false) 0)
  = Ok 1
  /\ session_outcome
       (Session.main_further (Desk.env [])
          (Desk.admin (Ok [("memory_counts", PyDict [("level_0", PyInt 3)])]))
          (Session.ArgsStatus true) 0)
     = Ok 0.
Proof.
  split.
  - apply (status_exit_code (Desk.admin (Ok [])) (Desk.env []) false 0 0 [] eq_refl).
  - apply (status_exit_code
             (Desk.admin (Ok [("memory_counts", PyDict [("level_0", PyInt 3)])]))
             (Desk.env []) true 0 0 _ eq_refl).
Defined.

(** ** The result of a count request *)

Lemma count_pattern_stuck (a b c : Z) (item : MemoryItem) :
  countable item = false -> exists e, count_pattern (pattern_counts a b c) item = Raise e.
Proof.
  unfold countable, count_pattern.
  destruct (PyStr.startswith (id (actual_memory item)) "git::"); cbn [negb orb];
    [|discriminate].
  destruct (default (PyStr "unknown") (metadata (actual_memory item) !! "pattern_type"));
    cbn [Py.hashable]; try discriminate; intros _; eexists; reflexivity.
Qed.

Lemma count_items_stuck {W} (items : list MemoryItem) (a b c : Z) (w : W) :
  forallb countable items = false ->
  exists e,
    for_each (fun counts item => lift (count_pattern counts item)) items (pattern_counts a b c) w
    = (Raise e, w, []).
Proof.
  revert a b c. induction items as [|item items IH]; intros a b c Hsome;
    [discriminate Hsome|].
  cbn [forallb] in Hsome. rewrite for_each_cons.
  destruct (countable item) eqn:Hitem.
  - cbn [andb] in Hsome.
    destruct (IH (a + len (List.filter (is_git_pattern "cochange") [item]))
                (b + len (List.filter (is_git_pattern "hotspot") [item]))
                (c + len (List.filter (is_git_pattern "solution") [item])) Hsome)
      as [e He].
    exists e.
    change (@nil Event) with (@nil Event ++ []).
    eapply bind_run; [|exact He].
    unfold lift. rewrite (count_pattern_tally a b c item Hitem). reflexivity.
  - destruct (count_pattern_stuck a b c item Hitem) as [e He]. exists e.
    unfold bind, lift. rewrite He. reflexivity.
Qed.

Lemma count_patterns_stuck {W} (results : RetrievalResults) (a b c : Z) (w : W) :
  all_countable results = false ->
  exists e,
    for_each
      (fun counts entry =>
         for_each (fun counts item => lift (count_pattern counts item)) (snd entry) counts)
      results (pattern_counts a b c) w
    = (Raise e, w, []).
Proof.
  unfold all_countable.
  revert a b c. induction results as [|entry results IH]; intros a b c Hsome;
    [discriminate Hsome|].
  cbn [forallb] in Hsome. rewrite for_each_cons.
  destruct (forallb countable (snd entry)) eqn:Hentry.
  - cbn [andb] in Hsome.
    destruct (IH (a + len (List.filter (is_git_pattern "cochange") (snd entry)))
                (b + len (List.filter (is_git_pattern "hotspot") (snd entry)))
                (c + len (List.filter (is_git_pattern "solution") (snd entry))) Hsome)
      as [e He].
    exists e.
    change (@nil Event) with (@nil Event ++ []).
    eapply bind_run; [|exact He].
    apply count_items_tally. exact Hentry.
  - destruct (count_items_stuck (snd entry) a b c w Hentry) as [e He]. exists e.
    unfold bind. rewrite He. reflexivity.
Qed.

(** X28: a count request whose first retrieval found something returns
    [True] exactly when the second query answered and every record it
    returned can be tallied: a single git record whose pattern type is a
    list or a dict stops the tally, and the request returns [False]
    although patterns were found.  Either way the world is the one the
    second query left. *)
Theorem count_request_result {W} (env : Env W) (query : string)
    (pattern_type : option string) (w w1 w2 : W) (found : RetrievalResults)
    (t1 : list Event) (answer : Result RetrievalResults) :
  retrieve_memories env (search_query_of query pattern_type)
    (Some ["core"; "peripheral"]) 0 true w
  = (Ok (Some found), w1, t1) ->
  found <> [] ->
  cs_retrieve_memories (cognitive_system env) "git pattern" ["core"; "peripheral"] 1000 w1
  = (answer, w2) ->
  outcome (search_git_patterns env query pattern_type 0 w)
  = Ok match answer with
       | Ok results => all_countable results
       | Raise _ => false
       end
  /\ final_world (search_git_patterns env query pattern_type 0 w) = w2.
Proof.
  intros Hfirst Hfound Hcall.
  assert (Htruthy : results_truthy (Some found) = true).
  { destruct found; [congruence|reflexivity]. }
  assert (Hrun : exists t,
    search_git_patterns env query pattern_type 0 w
    = (Ok match answer with
          | Ok results => all_countable results
          | Raise _ => false
          end, w2, t)).
  { unfold search_git_patterns, try_except.
    change (0 * 2) with 0.
    rewrite (bind_ok _ _ _ _ _ _ Hfirst).
    rewrite Htruthy. simpl andb. unfold when.
    destruct answer as [results|e].
    - destruct (all_countable results) eqn:Hall.
      + rewrite (bind_ok _ _ _ _ _ _ (git_pattern_summary_run env results w1 w2 Hcall Hall)).
        unfold ret. eexists. reflexivity.
      + destruct (count_patterns_stuck results 0 0 0 w2 Hall) as [e He].
        assert (Hsummary : git_pattern_summary env w1
                           = (Raise e, w2,
                              [Print MsgPatternSummary;
                               CallRetrieveMemories "git pattern" ["core"; "peripheral"] 1000
                                 (Ok results);
                               Print (MsgTotalPatterns (total_results results))])).
        { unfold git_pattern_summary, bind at 1 2 3, print, call_retrieve_memories.
          rewrite Hcall. unfold bind, count_patterns.
          change empty_pattern_counts with (pattern_counts 0 0 0). rewrite He. reflexivity. }
        unfold bind at 1. rewrite Hsummary. unfold bind, print, ret.
        eexists. reflexivity.
    - assert (Hsummary : git_pattern_summary env w1
                         = (Raise e, w2,
                            [Print MsgPatternSummary;
                             CallRetrieveMemories "git pattern" ["core"; "peripheral"] 1000
                               (Raise e)])).
      { unfold git_pattern_summary, bind, print, call_retrieve_memories.
        rewrite Hcall. reflexivity. }
      unfold bind at 1. rewrite Hsummary. unfold bind, print, ret.
      eexists. reflexivity. }
  destruct Hrun as [t Hrun]. rewrite Hrun. split; reflexivity.
Qed.

Lemma count_request_result_witness :
  outcome
    (search_git_patterns
       (Demo.env [("core", [Plain (Demo.record "git::cochange::1" "cochange");
                            Plain (tagged "git::odd::1" (PyList []))])])
       "" None 0 0)
  = Ok false
  /\ outcome (search_git_patterns (Demo.env Sample.three_patterns) "" None 0 0) = Ok true.
Proof.
  split.
  - apply (count_request_result
             (Demo.env [("core", [Plain (Demo.record "git::cochange::1" "cochange");
                                  Plain (tagged "git::odd::1" (PyList []))])])
             "" None 0 0 0 [("core", [])]
             [CallRetrieveMemories "git pattern" ["core"; "peripheral"] 0 (Ok [("core", [])]);
              Print MsgNoMemories]
             (Ok [("core", [Plain (Demo.record "git::cochange::1" "cochange");
                            Plain (tagged "git::odd::1" (PyList []))])]));
      [reflexivity|discriminate|reflexivity].
  - apply (count_request_result (Demo.env Sample.three_patterns) "" None 0 0 0
             [("core", []); ("peripheral", [])]
             [CallRetrieveMemories "git pattern" ["core"; "peripheral"] 0
                (Ok [("core", []); ("peripheral", [])]);
              Print MsgNoMemories]
             (Ok Sample.three_patterns));
      [reflexivity|discriminate|reflexivity].
Defined.

(** * Properties of the loading commands of [memory_system] *)

Lemma shutdowns_app (t1 t2 : list Trace) : shutdowns (t1 ++ t2) = shutdowns t1 ++ shutdowns t2.
Proof. apply flat_map_app. Qed.

Lemma shutdowns_cli (t : list Event) : shutdowns (map Cli t) = [].
Proof. induction t as [|e t IH]; [reflexivity|exact IH]. Qed.

(** The [try] statement of the loading commands, run: how it ends, where
    it leaves the world, and how often it shuts the system down. *)
Lemma with_system_run {W} (runtime : Runtime W) (config : option string) (m : M W bool)
    (done : Session.Act W unit) (w : W) :
  returns m ->
  (forall w', exists t, done w' = (Ok tt, w', t) /\ shutdowns t = []) ->
  exists t,
    MemorySystem.with_system runtime config (Session.cli m) done w
    = (Ok (command_verdict (fst (initialize runtime (Session.given config) w))
             (outcome (m (snd (initialize runtime (Session.given config) w))))),
       match fst (initialize runtime (Session.given config) w) with
       | Ready =>
           snd (graceful_shutdown runtime
                  (final_world (m (snd (initialize runtime (Session.given config) w)))))
       | _ => snd (initialize runtime (Session.given config) w)
       end, t)
    /\ List.length (shutdowns t)
       = match fst (initialize runtime (Session.given config) w) with
         | Ready => 1%nat
         | _ => 0%nat
         end.
Proof.
  intros Hm Hdone. unfold MemorySystem.with_system.
  destruct (initialize runtime (Session.given config) w) as [started w1] eqn:Hinit.
  assert (Hstart : MemorySystem.call_initialize runtime config w
                   = (Ok started, w1, [CallInitialize (Session.given config) started])).
  { unfold MemorySystem.call_initialize. rewrite Hinit. reflexivity. }
  cbn [fst snd]. destruct started as [|msg|e].
  2:{ eexists. split; [eapply session_bind_run; [exact Hstart|reflexivity]|reflexivity]. }
  2:{ eexists. split; [eapply session_bind_run; [exact Hstart|reflexivity]|reflexivity]. }
  destruct (Hm w1) as (success & w2 & tb & Hbody).
  rewrite Hbody. unfold outcome, final_world. cbn [fst snd].
  assert (Hshut : exists r,
            MemorySystem.shut_down runtime w2
            = (Ok tt, snd (graceful_shutdown runtime w2), [CallGracefulShutdown r])).
  { unfold MemorySystem.shut_down, Session.try_except, Session.bind,
      MemorySystem.call_graceful_shutdown, Session.ret.
    destruct (graceful_shutdown runtime w2) as [[b|e] w3]; eexists; reflexivity. }
  destruct Hshut as [r Hshut].
  assert (Htry : exists t,
            Session.try_except
              (Session.bind (Session.cli m) (fun success =>
               Session.bind (MemorySystem.exit_on_failure runtime success) (fun verdict =>
               match verdict with
               | None => Session.bind done (fun _ => Session.ret None)
               | Some code => Session.ret (Some code)
               end)))
              (fun e =>
                 Session.bind (Session.say (NoteCommandError (Some e)))
                   (fun _ => Session.ret (Some 1))) w1
            = (Ok (command_verdict Ready (Ok success)), w2, t)
            /\ shutdowns t = []).
  { unfold Session.try_except. unfold Session.bind at 1. rewrite cli_run, Hbody.
    unfold outcome, final_world, transcript. cbn [fst snd].
    unfold MemorySystem.exit_on_failure.
    destruct success.
    - destruct (Hdone w2) as (td & Hd & Hnone).
      unfold Session.bind, Session.ret. rewrite Hd.
      eexists. split; [reflexivity|].
      rewrite !shutdowns_app, shutdowns_cli, Hnone. reflexivity.
    - destruct (exit_is_exception runtime);
        unfold Session.bind, Session.say, Session.ret;
        (eexists; split; [reflexivity|]);
        rewrite !shutdowns_app, shutdowns_cli; reflexivity. }
  destruct Htry as (t & Htry & Hnone).
  exists ([CallInitialize (Session.given config) Ready] ++ t ++ [CallGracefulShutdown r] ++ []).
  split.
  - apply session_bind_run with (a := Ready) (w1 := w1); [exact Hstart|].
    cbv beta iota.
    apply session_bind_run with (a := command_verdict Ready (Ok success)) (w1 := w2);
      [exact Htry|].
    apply session_bind_run with (a := tt) (w1 := snd (graceful_shutdown runtime w2));
      [exact Hshut|reflexivity].
  - rewrite !shutdowns_app, Hnone. reflexivity.
Qed.

Lemma load_command_run {W} (env : Env W) (runtime : Runtime W)
    (source_path loader_type : string) (dry_run : bool) (config : option string) (w : W) :
  session_outcome
    (MemorySystem.load_command env runtime source_path loader_type dry_run config w)
  = Ok (command_verdict (fst (initialize runtime (Session.given config) w))
          (outcome (load_memories env source_path loader_type dry_run false []
                      (snd (initialize runtime (Session.given config) w)))))
  /\ List.length
       (shutdowns
          (session_trace
             (MemorySystem.load_command env runtime source_path loader_type dry_run config w)))
     = match fst (initialize runtime (Session.given config) w) with
       | Ready => 1%nat
       | _ => 0%nat
       end.
Proof.
  unfold MemorySystem.load_command.
  destruct (with_system_run runtime config
              (load_memories env source_path loader_type dry_run false [])
              (Session.ret tt) w (returns_load_memories env _ _ _ _ _))
    as (t & Hrun & Hcount).
  { intros w'. exists []. split; reflexivity. }
  rewrite Hrun. split; [reflexivity|exact Hcount].
Qed.

Lemma load_git_incremental_run {W} (env : Env W) (runtime : Runtime W)
    (source_path : string) (max_commits : Z) (force_full_load dry_run : bool)
    (config : option string) (w : W) :
  session_outcome
    (MemorySystem.load_git_incremental env runtime source_path max_commits
       force_full_load dry_run config w)
  = Ok (command_verdict (fst (initialize runtime (Session.given config) w))
          (outcome
             (load_memories env source_path "git" dry_run false
                [("max_commits", PyInt max_commits);
                 ("force_full_load", PyBool force_full_load)]
                (snd (initialize runtime (Session.given config) w)))))
  /\ List.length
       (shutdowns
          (session_trace
             (MemorySystem.load_git_incremental env runtime source_path max_commits
                force_full_load dry_run config w)))
     = match fst (initialize runtime (Session.given config) w) with
       | Ready => 1%nat
       | _ => 0%nat
       end.
Proof.
  unfold MemorySystem.load_git_incremental.
  destruct (with_system_run runtime config
              (load_memories env source_path "git" dry_run false
                 [("max_commits", PyInt max_commits);
                  ("force_full_load", PyBool force_full_load)])
              (Session.say NoteIncrementalDone) w (returns_load_memories env _ _ _ _ _))
    as (t & Hrun & Hcount).
  { intros w'. exists [Say NoteIncrementalDone]. split; reflexivity. }
  rewrite (session_bind_run _ _ w tt w [Say NoteLoadingIncrementally] _ _ _ eq_refl Hrun).
  split; [reflexivity|exact Hcount].
Qed.

(** X29: the commands [load] and [load-git incremental] return when the
    system started and [CognitiveCLI.load_memories] returned [True], and
    end with [typer.Exit(1)] in every other case, whether or not
    [typer.Exit] is itself caught as an [Exception].  The system is shut
    down once when it had started, whatever the load did and even when the
    shutdown raises, and not at all when the start failed. *)
Theorem loading_commands_end {W} (env : Env W) (runtime : Runtime W)
    (source_path loader_type : string) (max_commits : Z) (force_full_load dry_run : bool)
    (config : option string) (w : W) :
  (session_outcome
     (MemorySystem.load_command env runtime source_path loader_type dry_run config w)
   = Ok (command_verdict (fst (initialize runtime (Session.given config) w))
           (outcome (load_memories env source_path loader_type dry_run false []
                       (snd (initialize runtime (Session.given config) w)))))
   /\ List.length
        (shutdowns
           (session_trace
              (MemorySystem.load_command env runtime source_path loader_type dry_run config w)))
      = match fst (initialize runtime (Session.given config) w) with
        | Ready => 1%nat
        | _ => 0%nat
        end)
  /\ (session_outcome
        (MemorySystem.load_git_incremental env runtime source_path max_commits
           force_full_load dry_run config w)
      = Ok (command_verdict (fst (initialize runtime (Session.given config) w))
              (outcome
                 (load_memories env source_path "git" dry_run false
                    [("max_commits", PyInt max_commits);
                     ("force_full_load", PyBool force_full_load)]
                    (snd (initialize runtime (Session.given config) w)))))
      /\ List.length
           (shutdowns
              (session_trace
                 (MemorySystem.load_git_incremental env runtime source_path max_commits
                    force_full_load dry_run config w)))
         = match fst (initialize runtime (Session.given config) w) with
           | Ready => 1%nat
           | _ => 0%nat
           end).
Proof.
  split.
  - apply load_command_run.
  - apply load_git_incremental_run.
Qed.

(** X30: through the commands of [memory_system] a directory is never
    scanned: neither passes [recursive].  Once the system has started,
    [load] with the markdown loader on any directory, and [load] with the
    git loader and [load-git incremental] on a directory that holds no
    [.git], end with [typer.Exit(1)] after the hint at [--recursive], an
    option these commands do not have; no loader is called and nothing is
    stored.  (With the git loader a directory that holds [.git] is a
    repository and is loaded.) *)
Theorem loading_commands_refuse_directory {W} (env : Env W) (runtime : Runtime W)
    (source_path : string) (max_commits : Z) (force_full_load dry_run : bool)
    (config : option string) (w w1 : W) :
  initialize runtime (Session.given config) w = (Ready, w1) ->
  is_dir (file_system env) w1 source_path = true ->
  (session_outcome
     (MemorySystem.load_command env runtime source_path "markdown" dry_run config w)
   = Ok (Some 1)
   /\ load_memories env source_path "markdown" dry_run false [] w1
      = (Ok false, w1, [Print (MsgIsDirectory source_path)]))
  /\ (dot_git_exists (file_system env) w1 source_path = false ->
      (session_outcome
         (MemorySystem.load_command env runtime source_path "git" dry_run config w)
       = Ok (Some 1)
       /\ load_memories env source_path "git" dry_run false [] w1
          = (Ok false, w1, [Print (MsgIsDirectory source_path)]))
      /\ (session_outcome
            (MemorySystem.load_git_incremental env runtime source_path max_commits
               force_full_load dry_run config w)
          = Ok (Some 1)
          /\ load_memories env source_path "git" dry_run false
               [("max_commits", PyInt max_commits);
                ("force_full_load", PyBool force_full_load)] w1
             = (Ok false, w1, [Print (MsgIsDirectory source_path)]))).
Proof.
  intros Hstart Hdir.
  assert (Hrefused : forall loader_type kind kw,
            loader_kind loader_type = Some kind ->
            is_directory_scan env kind source_path w1 = true ->
            load_memories env source_path loader_type dry_run false kw w1
            = (Ok false, w1, [Print (MsgIsDirectory source_path)])).
  { intros loader_type kind kw Hkind Hscan. unfold load_memories. rewrite Hkind.
    unfold try_except. cbv beta. rewrite Hscan. reflexivity. }
  assert (Hmarkdown : is_directory_scan env Markdown source_path w1 = true).
  { unfold is_directory_scan. rewrite Hdir. reflexivity. }
  split.
  - pose proof (load_command_run env runtime source_path "markdown" dry_run config w)
      as [Hload _].
    rewrite Hstart in Hload. cbn [fst snd] in Hload.
    rewrite (Hrefused "markdown" Markdown [] eq_refl Hmarkdown) in Hload.
    split; [exact Hload|exact (Hrefused "markdown" Markdown [] eq_refl Hmarkdown)].
  - intros Hgit.
    assert (Hscan : is_directory_scan env Git source_path w1 = true).
    { unfold is_directory_scan. rewrite Hdir, Hgit. reflexivity. }
    split.
    + pose proof (load_command_run env runtime source_path "git" dry_run config w)
        as [Hload _].
      rewrite Hstart in Hload. cbn [fst snd] in Hload.
      rewrite (Hrefused "git" Git [] eq_refl Hscan) in Hload.
      split; [exact Hload|exact (Hrefused "git" Git [] eq_refl Hscan)].
    + pose proof (load_git_incremental_run env runtime source_path max_commits
                    force_full_load dry_run config w) as [Hload _].
      rewrite Hstart in Hload. cbn [fst snd] in Hload.
      rewrite (Hrefused "git" Git _ eq_refl Hscan) in Hload.
      split; [exact Hload|exact (Hrefused "git" Git _ eq_refl Hscan)].
Qed.

Lemma loading_commands_refuse_directory_witness :
  session_outcome
    (MemorySystem.load_command (Desk.env []) (desk_runtime true) "repo" "markdown" false None 0)
  = Ok (Some 1)
  /\ session_outcome
       (MemorySystem.load_command (Desk.env []) (desk_runtime true) "docs" "git" false None 0)
     = Ok (Some 1)
  /\ session_outcome
       (MemorySystem.load_git_incremental (Desk.env []) (desk_runtime false) "docs" 1000
          false true (Some "") 0)
     = Ok (Some 1).
Proof.
  destruct (loading_commands_refuse_directory (Desk.env []) (desk_runtime true) "repo" 1000
              false false None 0 0 eq_refl eq_refl) as [[Hmarkdown _] _].
  destruct (loading_commands_refuse_directory (Desk.env []) (desk_runtime true) "docs" 1000
              false false None 0 0 eq_refl eq_refl) as [_ Hgit].
  destruct (Hgit eq_refl) as [[Hload _] _].
  destruct (loading_commands_refuse_directory (Desk.env []) (desk_runtime false) "docs" 1000
              false true (Some "") 0 0 eq_refl eq_refl) as [_ Hgit'].
  destruct (Hgit' eq_refl) as [_ [Hincremental _]].
  split; [exact Hmarkdown|split; [exact Hload|exact Hincremental]].
Defined.
